(** * DocWise browser client: session lifecycle and analysis submission

    A shallow embedding of the React client of the DocWise document-analysis
    service: [App] (session state, [handleLogin], [handleLogout]),
    [AuthCallback] ([processSessionId]) and [Dashboard] (the analysis form:
    [handleFileSelect], [handleAnalyzeDocument], the input-mode buttons and
    the submit button).  After these come the rest of [Dashboard] (the
    prompt editor), the routes of [App], and [Landing].

    Conventions of the embedding.
    - A JavaScript string is a [string]: a sequence of code units below 256
      (the Latin-1 part of UTF-16).  [trim], [toLowerCase], [endsWith] and
      [JSON.stringify] are written out for that range.
    - React state is a record, one field per [useState]; a setter replaces
      one field.  An event handler is a computation in the monad [Act],
      which threads the component state and collects the effects the handler
      performs (notices, console output, requests, navigation).
    - An [async] handler is cut at its [await]: the part before it issues the
      request, the part after it ([..._resume]) runs when the request
      settles, with the outcome as argument.  The editor and [Landing]
      return the call they wait for as the value of the first part.
    - What the user can do is what is rendered: an event is dispatched to its
      handler only if the element carrying the handler is rendered and not
      disabled ([enabled]). *)

From Stdlib Require Import Ascii.
From stdpp Require Import base option list strings gmap.

(** ** JavaScript strings *)

Module Js.

(** WhiteSpace and LineTerminator code units below 256: TAB, LF, VT, FF,
    CR, SP and NBSP. *)
Definition is_white_space (c : ascii) : bool :=
  match c with
  | "009" | "010" | "011" | "012" | "013" | " " | "160" => true
  | _ => false
  end%char.

Fixpoint trimStart (s : string) : string :=
  match s with
  | String c s' => if is_white_space c then trimStart s' else s
  | EmptyString => EmptyString
  end.

Fixpoint trimEnd (s : string) : string :=
  match s with
  | String c s' =>
      match trimEnd s' with
      | EmptyString => if is_white_space c then EmptyString else String c EmptyString
      | t => String c t
      end
  | EmptyString => EmptyString
  end.

(** [String.prototype.trim] *)
Definition trim (s : string) : string := trimEnd (trimStart s).

(** Lower-casing of one code unit: A-Z, and the Latin-1 capitals
    U+00C0-U+00DE without the multiplication sign U+00D7. *)
Definition lower_char (c : ascii) : ascii :=
  let n := nat_of_ascii c in
  if (65 <=? n) && (n <=? 90) then ascii_of_nat (n + 32)
  else if (192 <=? n) && (n <=? 222) && negb (n =? 215) then ascii_of_nat (n + 32)
  else c.

(** [String.prototype.toLowerCase] *)
Fixpoint toLowerCase (s : string) : string :=
  match s with
  | String c s' => String (lower_char c) (toLowerCase s')
  | EmptyString => EmptyString
  end.

(** [String.prototype.endsWith]: the search string is compared with the
    substring of the same length that ends at the end of [s]. *)
Definition endsWith (s search : string) : bool :=
  let n := String.length s in
  let m := String.length search in
  if m <=? n then String.eqb (String.substring (n - m) m s) search else false.

(** All code units are white space. *)
Fixpoint all_white_space (s : string) : bool :=
  match s with
  | String c s' => is_white_space c && all_white_space s'
  | EmptyString => true
  end.

(** ToBoolean on a string: only the empty string is falsy. *)
Definition truthy (s : string) : bool :=
  match s with EmptyString => false | _ => true end.

(** A value that is [null] or a string, as it is spliced into a template
    literal. *)
Definition template (v : option string) : string :=
  match v with Some s => s | None => "null" end.

(** [v || fallback] for [v] a string or [undefined]. *)
Definition or_else (v : option string) (fallback : string) : string :=
  match v with
  | Some s => if truthy s then s else fallback
  | None => fallback
  end.

End Js.

(** ** JSON text of an object whose properties are strings *)

Module JSON.

Definition hex_digit (n : nat) : ascii :=
  nth n ["0"; "1"; "2"; "3"; "4"; "5"; "6"; "7"; "8"; "9";
         "a"; "b"; "c"; "d"; "e"; "f"]%char "0"%char.

Definition dquote : ascii := "034"%char.
Definition backslash : ascii := "092"%char.

(** One code unit inside a JSON string literal (QuoteJSONString). *)
Definition quote_char (c : ascii) : string :=
  match c with
  | "008"%char => "\b"
  | "009"%char => "\t"
  | "010"%char => "\n"
  | "012"%char => "\f"
  | "013"%char => "\r"
  | "034"%char => String backslash (String dquote EmptyString)
  | "092"%char => String backslash (String backslash EmptyString)
  | _ =>
      let n := nat_of_ascii c in
      if n <? 32
      then "\u00" +:+ String (hex_digit (n / 16)) (String (hex_digit (n mod 16)) EmptyString)
      else String c EmptyString
  end.

Fixpoint quote_chars (s : string) : string :=
  match s with
  | String c s' => quote_char c +:+ quote_chars s'
  | EmptyString => EmptyString
  end.

Definition quote (s : string) : string :=
  String dquote (quote_chars s +:+ String dquote EmptyString).

Definition member (kv : string * string) : string :=
  quote kv.1 +:+ ":" +:+ quote kv.2.

Fixpoint members (o : list (string * string)) : string :=
  match o with
  | [] => ""
  | [kv] => member kv
  | kv :: o' => member kv +:+ "," +:+ members o'
  end.

(** [JSON.stringify(o)] for a plain object [o] given by its own
    properties in insertion order. *)
Definition stringify (o : list (string * string)) : string :=
  "{" +:+ members o +:+ "}".

(** *** Reading the text back

    The grammar of JSON for an object whose members are strings, as the
    server reads [analysis_data]: used to state what the text written by
    [stringify] denotes. *)

(** The value of a hexadecimal digit: 0-9, a-f, A-F. *)
Definition hex_value (c : ascii) : option nat :=
  let n := nat_of_ascii c in
  if (48 <=? n) && (n <=? 57) then Some (n - 48)
  else if (97 <=? n) && (n <=? 102) then Some (n - 87)
  else if (65 <=? n) && (n <=? 70) then Some (n - 55)
  else None.

Definition cons_char (c : ascii) (r : option (string * string)) : option (string * string) :=
  match r with
  | Some (t, rest) => Some (String c t, rest)
  | None => None
  end.

(** The characters of a string literal after its opening quote, up to the
    closing quote: the string denoted and the text that follows.  Escapes
    above U+00FF are outside the strings modelled here. *)
Fixpoint read_chars (s : string) : option (string * string) :=
  match s with
  | EmptyString => None
  | String c s1 =>
      if Ascii.eqb c dquote then Some (EmptyString, s1)
      else if Ascii.eqb c backslash then
        match s1 with
        | String e s2 =>
            if Ascii.eqb e "b" then cons_char "008" (read_chars s2)
            else if Ascii.eqb e "t" then cons_char "009" (read_chars s2)
            else if Ascii.eqb e "n" then cons_char "010" (read_chars s2)
            else if Ascii.eqb e "f" then cons_char "012" (read_chars s2)
            else if Ascii.eqb e "r" then cons_char "013" (read_chars s2)
            else if Ascii.eqb e "/" then cons_char "/" (read_chars s2)
            else if Ascii.eqb e dquote then cons_char dquote (read_chars s2)
            else if Ascii.eqb e backslash then cons_char backslash (read_chars s2)
            else if Ascii.eqb e "u" then
              match s2 with
              | String h1 (String h2 (String h3 (String h4 s3))) =>
                  match hex_value h1, hex_value h2, hex_value h3, hex_value h4 with
                  | Some 0, Some 0, Some a, Some b =>
                      cons_char (ascii_of_nat (16 * a + b)) (read_chars s3)
                  | _, _, _, _ => None
                  end
              | _ => None
              end
            else None
        | EmptyString => None
        end
      else if nat_of_ascii c <? 32 then None
      else cons_char c (read_chars s1)
  end.

(** A string literal at the start of [s]. *)
Definition read_string (s : string) : option (string * string) :=
  match s with
  | String c s1 => if Ascii.eqb c dquote then read_chars s1 else None
  | EmptyString => None
  end.

(** One member [key:value] at the start of [s]. *)
Definition read_member (s : string) : option ((string * string) * string) :=
  match read_string s with
  | Some (k, String c s1) =>
      if Ascii.eqb c ":" then
        match read_string s1 with
        | Some (v, rest) => Some ((k, v), rest)
        | None => None
        end
      else None
  | _ => None
  end.

(** The members of an object after its opening brace, [n] bounding their
    number. *)
Fixpoint read_members (n : nat) (s : string) : option (list (string * string)) :=
  match n with
  | 0 => None
  | S n' =>
      match read_member s with
      | Some (kv, String c rest) =>
          if Ascii.eqb c "}" then
            match rest with EmptyString => Some [kv] | _ => None end
          else if Ascii.eqb c "," then
            match read_members n' rest with
            | Some o => Some (kv :: o)
            | None => None
            end
          else None
      | _ => None
      end
  end.

(** [JSON.parse(s)] for a text that is an object of string members without
    white space between the tokens. *)
Definition parse (s : string) : option (list (string * string)) :=
  match s with
  | String c s1 =>
      if Ascii.eqb c "{" then
        match s1 with
        | String d EmptyString => if Ascii.eqb d "}" then Some [] else None
        | _ => read_members (String.length s1) s1
        end
      else None
  | EmptyString => None
  end.

End JSON.

(** ** Data exchanged with the server *)

Module File.
Record t := { name : string; bytes : string }.
End File.

Module User.
Record t := { id : string; email : string; name : string; picture : option string }.
End User.

Module Prompt.
Record t := { id : string; title : string; content : string; created_at : string }.
End Prompt.

Module Analysis.
Record t := {
  id : string;
  document_name : string;
  prompt_id : string;
  ai_model : string;
  response : string;
  created_at : string
}.
End Analysis.

(** The [{ user, session_token }] answer of the login, register and
    session-data endpoints; [session_token] is [None] when the property is
    [null]. *)
Module LoginData.
Record t := { user : User.t; session_token : option string }.
End LoginData.

(** ** Requests, outcomes and effects *)

(** [process.env.REACT_APP_BACKEND_URL], fixed when the bundle is built. *)
Class Env := { BACKEND_URL : string }.

Definition API `{Env} : string := BACKEND_URL +:+ "/api".

Inductive Method := GET | POST.

Inductive FormValue :=
  | FormFile (f : File.t)
  | FormString (s : string).

(** [FormData.append(name, value)]: a [File] is kept, anything else is
    converted to a string. *)
Definition form_value (v : option File.t) : FormValue :=
  match v with
  | Some f => FormFile f
  | None => FormString "null"
  end.

Inductive Body :=
  | NoBody
  | JsonBody (o : list (string * string))
  | FormData (entries : list (string * FormValue)).

(** One axios call: the arguments the handler passes.  The process-wide
    default headers are added by axios when the request is sent. *)
Record Request := {
  method : Method;
  url : string;
  body : Body;
  headers : list (string * string)
}.

(** The rejection value of an axios promise: [error.response] is missing on
    a transport failure, [response.data] and [data.detail] may be missing;
    a [detail] that is there is a string, as the server's errors carry
    it. *)
Record AxiosError := { response : option (option (option string)) }.

(** [error.response?.data?.detail] *)
Definition detail (error : AxiosError) : option string :=
  data ← response error; d ← data; d.

Inductive Outcome (A : Type) :=
  | Resolved (data : A)
  | Rejected (error : AxiosError).
Arguments Resolved {A} data.
Arguments Rejected {A} error.

(** The code that waits for a request (the rest of the [async] function
    after its [await]). *)
Inductive Await :=
  | AwaitPrompts        (* loadPrompts *)
  | AwaitAnalyses       (* loadAnalyses *)
  | AwaitAnalyze        (* handleAnalyzeDocument *)
  | AwaitSession        (* checkExistingSession *)
  | AwaitLogout         (* handleLogout *)
  | AwaitSessionData    (* processSessionId, session_id found *)
  | AwaitMe.            (* processSessionId, no session_id *)

Global Instance Await_eq_dec : EqDecision Await.
Proof. solve_decision. Defined.

Inductive Effect :=
  | ToastSuccess (msg : string)
  | ToastError (msg : string)
  | ConsoleLog (msg : string)
  | ConsoleError (msg : string)
  | Axios (r : Request) (k : Await)
  | ReplaceState (path : string)      (* window.history.replaceState(null, null, path) *)
  | SetHref (href : string).          (* window.location.href = href *)

(** The requests among some effects, and the code waiting for them. *)
Definition requests (es : list Effect) : list Request :=
  omap (λ e, match e with Axios r _ => Some r | _ => None end) es.

Definition awaits (es : list Effect) : list Await :=
  omap (λ e, match e with Axios _ k => Some k | _ => None end) es.

(** The notices shown to the user. *)
Definition is_toast (e : Effect) : bool :=
  match e with ToastSuccess _ | ToastError _ => true | _ => false end.

Definition toasts (es : list Effect) : list Effect := List.filter is_toast es.

(** ** Handlers as computations *)

Definition Act (S A : Type) : Type := S → A * S * list Effect.

Global Instance Act_ret {S} : MRet (Act S) := λ A a s, (a, s, []).

Global Instance Act_bind {S} : MBind (Act S) := λ A B f m s,
  let '(a, s1, es1) := m s in
  let '(b, s2, es2) := f a s1 in
  (b, s2, es1 ++ es2).

Definition get {S} : Act S S := λ s, (s, s, []).
Definition modify {S} (f : S → S) : Act S () := λ s, ((), f s, []).
Definition emit {S} (e : Effect) : Act S () := λ s, ((), s, [e]).
Definition skip {S} : Act S () := mret ().

(** The state and the effects a handler leaves behind. *)
Definition exec {S A} (a : Act S A) (s : S) : S * list Effect :=
  let '(_, s', es) := a s in (s', es).

(** ** Dashboard.jsx: the analysis form *)

Module AnalysisForm.
Record t := { prompt_id : string; ai_model : string }.

(** The object as JavaScript sees it: its own properties in order. *)
Definition properties (f : t) : list (string * string) :=
  [("prompt_id", prompt_id f); ("ai_model", ai_model f)].
End AnalysisForm.

Module Dashboard.

(** The values [activeTab] takes: 'prompts', 'analyze', 'analyses'. *)
Inductive Tab := prompts_tab | analyze_tab | analyses_tab.

(** The values [inputMode] takes: 'upload', 'text'. *)
Inductive InputMode := upload | text.

Global Instance Tab_eq_dec : EqDecision Tab.
Proof. solve_decision. Defined.
Global Instance InputMode_eq_dec : EqDecision InputMode.
Proof. solve_decision. Defined.

(** The [useState] cells the analysis workflow reads or writes.  The
    cells of the prompt editor ([loading], [showPromptModal],
    [editingPrompt], [promptForm]) are left out: no handler below touches
    them. *)
Record State := {
  activeTab : Tab;
  prompts : list Prompt.t;
  analyses : list Analysis.t;
  selectedFile : option File.t;
  analysisForm : AnalysisForm.t;
  analyzing : bool;
  inputMode : InputMode;
  textInput : string
}.

Definition setActiveTab (v : Tab) : Act State () := modify (λ s,
  {| activeTab := v; prompts := prompts s; analyses := analyses s;
     selectedFile := selectedFile s; analysisForm := analysisForm s;
     analyzing := analyzing s; inputMode := inputMode s; textInput := textInput s |}).

Definition setPrompts (v : list Prompt.t) : Act State () := modify (λ s,
  {| activeTab := activeTab s; prompts := v; analyses := analyses s;
     selectedFile := selectedFile s; analysisForm := analysisForm s;
     analyzing := analyzing s; inputMode := inputMode s; textInput := textInput s |}).

Definition setAnalyses (v : list Analysis.t) : Act State () := modify (λ s,
  {| activeTab := activeTab s; prompts := prompts s; analyses := v;
     selectedFile := selectedFile s; analysisForm := analysisForm s;
     analyzing := analyzing s; inputMode := inputMode s; textInput := textInput s |}).

Definition setSelectedFile (v : option File.t) : Act State () := modify (λ s,
  {| activeTab := activeTab s; prompts := prompts s; analyses := analyses s;
     selectedFile := v; analysisForm := analysisForm s;
     analyzing := analyzing s; inputMode := inputMode s; textInput := textInput s |}).

Definition setAnalysisForm (v : AnalysisForm.t) : Act State () := modify (λ s,
  {| activeTab := activeTab s; prompts := prompts s; analyses := analyses s;
     selectedFile := selectedFile s; analysisForm := v;
     analyzing := analyzing s; inputMode := inputMode s; textInput := textInput s |}).

Definition setAnalyzing (v : bool) : Act State () := modify (λ s,
  {| activeTab := activeTab s; prompts := prompts s; analyses := analyses s;
     selectedFile := selectedFile s; analysisForm := analysisForm s;
     analyzing := v; inputMode := inputMode s; textInput := textInput s |}).

Definition setInputMode (v : InputMode) : Act State () := modify (λ s,
  {| activeTab := activeTab s; prompts := prompts s; analyses := analyses s;
     selectedFile := selectedFile s; analysisForm := analysisForm s;
     analyzing := analyzing s; inputMode := v; textInput := textInput s |}).

Definition setTextInput (v : string) : Act State () := modify (λ s,
  {| activeTab := activeTab s; prompts := prompts s; analyses := analyses s;
     selectedFile := selectedFile s; analysisForm := analysisForm s;
     analyzing := analyzing s; inputMode := inputMode s; textInput := v |}).

(** The state of a freshly mounted component. *)
Definition initial : State :=
  {| activeTab := prompts_tab; prompts := []; analyses := [];
     selectedFile := None;
     analysisForm := {| AnalysisForm.prompt_id := ""; AnalysisForm.ai_model := "gpt-5" |};
     analyzing := false; inputMode := upload; textInput := "" |}.

Section Handlers.
Context `{Env}.

Definition loadPrompts : Act State () :=
  emit (Axios {| method := GET; url := API +:+ "/prompts";
                 body := NoBody; headers := [] |} AwaitPrompts).

Definition loadPrompts_resume (o : Outcome (list Prompt.t)) : Act State () :=
  match o with
  | Resolved data => setPrompts data
  | Rejected _ => emit (ToastError "Failed to load prompts")
  end.

Definition loadAnalyses : Act State () :=
  emit (Axios {| method := GET; url := API +:+ "/documents/analyses";
                 body := NoBody; headers := [] |} AwaitAnalyses).

Definition loadAnalyses_resume (o : Outcome (list Analysis.t)) : Act State () :=
  match o with
  | Resolved data => setAnalyses data
  | Rejected _ => emit (ToastError "Failed to load analyses")
  end.

(** [useEffect(() => { loadPrompts(); loadAnalyses(); }, [])] *)
Definition mount : Act State () := loadPrompts;; loadAnalyses.

(** [files] is [e.target.files]; [files[0]] is undefined when it is
    empty. *)
Definition handleFileSelect (files : list File.t) : Act State () :=
  match files with
  | file :: _ =>
      if negb (Js.endsWith (Js.toLowerCase (File.name file)) ".pdf")
      then emit (ToastError "Please select a PDF file")
      else setSelectedFile (Some file)
  | [] => skip
  end.

(** [handleAnalyzeDocument] up to its [await]. *)
Definition handleAnalyzeDocument : Act State () :=
  s ← get;
  if bool_decide (inputMode s = upload)
     && (negb (bool_decide (is_Some (selectedFile s)))
         || negb (Js.truthy (AnalysisForm.prompt_id (analysisForm s))))
  then emit (ToastError "Please select a file and prompt")
  else if bool_decide (inputMode s = text)
          && (negb (Js.truthy (Js.trim (textInput s)))
              || negb (Js.truthy (AnalysisForm.prompt_id (analysisForm s))))
  then emit (ToastError "Please enter text content and select a prompt")
  else
    setAnalyzing true;;
    if bool_decide (inputMode s = upload)
    then
      let formData :=
        [("file", form_value (selectedFile s));
         ("analysis_data",
          FormString (JSON.stringify (AnalysisForm.properties (analysisForm s))))] in
      emit (Axios {| method := POST; url := API +:+ "/documents/analyze";
                     body := FormData formData;
                     headers := [("Content-Type", "multipart/form-data")] |}
                  AwaitAnalyze)
    else
      let textAnalysisData :=
        AnalysisForm.properties (analysisForm s)
          ++ [("text_content", textInput s); ("document_name", "Text Input")] in
      emit (Axios {| method := POST; url := API +:+ "/documents/analyze-text";
                     body := JsonBody textAnalysisData;
                     headers := [("Content-Type", "application/json")] |}
                  AwaitAnalyze).

(** [handleAnalyzeDocument] after its [await]: the rest of the [try]
    block when the request resolved, the [catch] block when it was
    rejected, then the [finally] block. *)
Definition handleAnalyzeDocument_resume (o : Outcome Analysis.t) : Act State () :=
  match o with
  | Resolved response =>
      emit (ToastSuccess "Content analyzed successfully!");;
      setSelectedFile None;;
      setTextInput "";;
      setAnalysisForm {| AnalysisForm.prompt_id := ""; AnalysisForm.ai_model := "gpt-5" |};;
      loadAnalyses;;
      setActiveTab analyses_tab
  | Rejected error =>
      emit (ToastError (Js.or_else (detail error) "Analysis failed"))
  end;;
  setAnalyzing false.

(** The [onClick] of the two input-mode buttons. *)
Definition clickUploadMode : Act State () :=
  setInputMode upload;; setTextInput "";; setSelectedFile None.

Definition clickTextMode : Act State () :=
  setInputMode text;; setSelectedFile None;; setTextInput "".

(** The [onValueChange] of the prompt and model selects. *)
Definition choosePrompt (value : string) : Act State () :=
  s ← get;
  setAnalysisForm {| AnalysisForm.prompt_id := value;
                     AnalysisForm.ai_model := AnalysisForm.ai_model (analysisForm s) |}.

Definition chooseModel (value : string) : Act State () :=
  s ← get;
  setAnalysisForm {| AnalysisForm.prompt_id := AnalysisForm.prompt_id (analysisForm s);
                     AnalysisForm.ai_model := value |}.

(** The [disabled] attribute of the submit button [analyze-btn]. *)
Definition analyze_btn_disabled (s : State) : bool :=
  analyzing s
  || (bool_decide (inputMode s = upload)
      && (negb (bool_decide (is_Some (selectedFile s)))
          || negb (Js.truthy (AnalysisForm.prompt_id (analysisForm s)))))
  || (bool_decide (inputMode s = text)
      && (negb (Js.truthy (Js.trim (textInput s)))
          || negb (Js.truthy (AnalysisForm.prompt_id (analysisForm s))))).

End Handlers.

(** *** The component in the page

    Its state, whether it is still mounted, the requests that have not
    settled yet (the code waiting for each, in the order the requests were
    issued) and every effect performed so far. *)
Record World := {
  dash : State;
  alive : bool;
  pending : list Await;
  effects : list Effect
}.

(** What the user, [App] and the network can do to the analysis workflow
    of the dashboard; the copy and download buttons of the history tab
    read or write none of the cells kept here and have no event.
    [PromptsChanged] stands for the prompt editor, which calls
    [loadPrompts] after it saved or deleted a prompt and touches no other
    cell kept here.  [App] unmounts the dashboard when [user] is cleared.
    A settle event names the position of the settled request in
    [pending]. *)
Inductive Event :=
  | ClickTab (t : Tab)
  | ClickUploadMode
  | ClickTextMode
  | ChangeFile (files : list File.t)
  | ChangeText (value : string)
  | ChoosePrompt (value : string)
  | ChooseModel (value : string)
  | SubmitForm
  | PromptsChanged
  | Unmount
  | PromptsSettled (i : nat) (o : Outcome (list Prompt.t))
  | AnalysesSettled (i : nat) (o : Outcome (list Analysis.t))
  | AnalyzeSettled (i : nat) (o : Outcome Analysis.t).

(** The [SelectItem]s of the model select. *)
Definition models : list string := ["gpt-5"; "claude-4"].

Section Machine.
Context `{Env}.

(** Whether the event can happen: the component is mounted and the element
    that carries the handler is rendered (the form only on the analyze tab,
    the file input only in upload mode, the textarea only in text mode), the
    submit button is not disabled; the request named by a settle event is
    in flight. *)
Definition enabled (e : Event) (w : World) : bool :=
  let s := dash w in
  match e with
  | ClickTab _ => alive w
  | ClickUploadMode | ClickTextMode =>
      alive w && bool_decide (activeTab s = analyze_tab)
  | ChangeFile _ =>
      alive w && bool_decide (activeTab s = analyze_tab)
      && bool_decide (inputMode s = upload)
  | ChangeText _ =>
      alive w && bool_decide (activeTab s = analyze_tab)
      && bool_decide (inputMode s = text)
  | ChoosePrompt value =>
      alive w && bool_decide (activeTab s = analyze_tab)
      && bool_decide (value ∈ Prompt.id <$> prompts s)
  | ChooseModel value =>
      alive w && bool_decide (activeTab s = analyze_tab)
      && bool_decide (value ∈ models)
  | SubmitForm =>
      alive w && bool_decide (activeTab s = analyze_tab)
      && negb (analyze_btn_disabled s)
  | PromptsChanged | Unmount => alive w
  | PromptsSettled i _ => bool_decide (pending w !! i = Some AwaitPrompts)
  | AnalysesSettled i _ => bool_decide (pending w !! i = Some AwaitAnalyses)
  | AnalyzeSettled i _ => bool_decide (pending w !! i = Some AwaitAnalyze)
  end.

Definition handler (e : Event) : Act State () :=
  match e with
  | ClickTab t => setActiveTab t
  | ClickUploadMode => clickUploadMode
  | ClickTextMode => clickTextMode
  | ChangeFile files => handleFileSelect files
  | ChangeText value => setTextInput value
  | ChoosePrompt value => choosePrompt value
  | ChooseModel value => chooseModel value
  | SubmitForm => handleAnalyzeDocument
  | PromptsChanged => loadPrompts
  | Unmount => skip
  | PromptsSettled _ o => loadPrompts_resume o
  | AnalysesSettled _ o => loadAnalyses_resume o
  | AnalyzeSettled _ o => handleAnalyzeDocument_resume o
  end.

(** The request a settle event removes from [pending]. *)
Definition settled (e : Event) (l : list Await) : list Await :=
  match e with
  | PromptsSettled i _ | AnalysesSettled i _ | AnalyzeSettled i _ => delete i l
  | _ => l
  end.

(** Runs a handler for the component: the requests it issued are appended
    to [pending], its effects to [effects].  The state setters act on a
    mounted component only; React ignores them once the component is
    unmounted. *)
Definition perform (a : Act State ()) (w : World) : World :=
  let '(s, es) := exec a (dash w) in
  {| dash := if alive w then s else dash w; alive := alive w;
     pending := pending w ++ awaits es; effects := effects w ++ es |}.

Definition step (w : World) (e : Event) : World :=
  if enabled e w
  then perform (handler e)
         {| dash := dash w;
            alive := match e with Unmount => false | _ => alive w end;
            pending := settled e (pending w); effects := effects w |}
  else w.

Definition run (w : World) (es : list Event) : World := foldl step w es.

(** The dashboard right after it was mounted. *)
Definition mounted : World :=
  perform mount {| dash := initial; alive := true; pending := []; effects := [] |}.

End Machine.

(** The submissions in flight: the pending requests of
    [handleAnalyzeDocument]. *)
Definition is_submission (k : Await) : bool :=
  match k with AwaitAnalyze => true | _ => false end.

Definition submissions (l : list Await) : nat :=
  length (List.filter is_submission l).

Definition in_flight (w : World) : nat := submissions (pending w).

(** What holds of the dashboard in every state it can reach: at most one
    submission is in flight, and while the component is mounted there is
    one exactly when [analyzing] is set; the text is empty in upload mode
    and no file is selected in text mode. *)
Definition consistent (w : World) : Prop :=
  in_flight w ≤ 1
  ∧ (alive w = true → in_flight w = if analyzing (dash w) then 1 else 0)
  ∧ (inputMode (dash w) = upload → textInput (dash w) = "")
  ∧ (inputMode (dash w) = text → selectedFile (dash w) = None).

End Dashboard.

(** ** The session_id of the federated redirect *)

Module Fragment.

Fixpoint strip_prefix (p s : string) : option string :=
  match p, s with
  | EmptyString, _ => Some s
  | String a p', String b s' => if Ascii.eqb a b then strip_prefix p' s' else None
  | String _ _, EmptyString => None
  end.

(** The longest prefix matched by [[^&]*]. *)
Fixpoint not_amp (s : string) : string :=
  match s with
  | String c s' => if Ascii.eqb c "&" then EmptyString else String c (not_amp s')
  | EmptyString => EmptyString
  end.

(** The regular expression [/session_id=([^&]+)/] tried at the start of [s]:
    the text of the group when it matches. *)
Definition match_here (s : string) : option string :=
  match strip_prefix "session_id=" s with
  | Some rest =>
      match not_amp rest with
      | EmptyString => None
      | v => Some v
      end
  | None => None
  end.

(** [fragment.match(/session_id=([^&]+)/)]: the first position where the
    expression matches; the result is group 1, [None] stands for [null]. *)
Fixpoint match_session_id (fragment : string) : option string :=
  match match_here fragment with
  | Some v => Some v
  | None =>
      match fragment with
      | String _ s' => match_session_id s'
      | EmptyString => None
      end
  end.

End Fragment.

(** ** App.js and AuthCallback.jsx: the session *)

Module App.

(** A cookie as [document.cookie = ...] stores it.  The jar holds, by
    name, the cookies of the page's own host that [document.cookie]
    shows. *)
Record Cookie := {
  value : string;
  path : string;
  secure : bool;
  samesite : option string;
  max_age : option N
}.

(** The [useState] cells of [App] and of [AuthCallback], and the browser
    state the two components write: the cookie jar behind
    [document.cookie], [axios.defaults.headers.common], and the fragment and
    path of [window.location]. *)
Record State := {
  user : option User.t;
  loading : bool;
  sessionToken : option string;
  processing : bool;
  cookies : gmap string Cookie;
  common : gmap string string;
  hash : string;
  pathname : string
}.

Definition setUser (v : option User.t) : Act State () := modify (λ s,
  {| user := v; loading := loading s; sessionToken := sessionToken s;
     processing := processing s; cookies := cookies s; common := common s;
     hash := hash s; pathname := pathname s |}).

Definition setLoading (v : bool) : Act State () := modify (λ s,
  {| user := user s; loading := v; sessionToken := sessionToken s;
     processing := processing s; cookies := cookies s; common := common s;
     hash := hash s; pathname := pathname s |}).

Definition setSessionToken (v : option string) : Act State () := modify (λ s,
  {| user := user s; loading := loading s; sessionToken := v;
     processing := processing s; cookies := cookies s; common := common s;
     hash := hash s; pathname := pathname s |}).

Definition setProcessing (v : bool) : Act State () := modify (λ s,
  {| user := user s; loading := loading s; sessionToken := sessionToken s;
     processing := v; cookies := cookies s; common := common s;
     hash := hash s; pathname := pathname s |}).

Definition setCookies (f : gmap string Cookie → gmap string Cookie) : Act State () :=
  modify (λ s,
  {| user := user s; loading := loading s; sessionToken := sessionToken s;
     processing := processing s; cookies := f (cookies s); common := common s;
     hash := hash s; pathname := pathname s |}).

Definition setCommon (f : gmap string string → gmap string string) : Act State () :=
  modify (λ s,
  {| user := user s; loading := loading s; sessionToken := sessionToken s;
     processing := processing s; cookies := cookies s; common := f (common s);
     hash := hash s; pathname := pathname s |}).

(** [window.history.replaceState(null, null, path)]: the address becomes
    [path], without a fragment. *)
Definition replaceState (p : string) : Act State () :=
  modify (λ s,
  {| user := user s; loading := loading s; sessionToken := sessionToken s;
     processing := processing s; cookies := cookies s; common := common s;
     hash := ""; pathname := p |});;
  emit (ReplaceState p).

(** [document.cookie = "<name>=; path=<path>; expires=<a date in the
    past>"]: the cookie of that name at that path is removed; one stored
    at another path is not touched. *)
Definition expire (name p : string) (jar : gmap string Cookie) : gmap string Cookie :=
  match jar !! name with
  | Some c => if bool_decide (path c = p) then delete name jar else jar
  | None => jar
  end.

(** The state of a freshly loaded page at [pathname] with fragment [hash],
    with the cookies the browser already holds. *)
Definition initial (jar : gmap string Cookie) (pathname hash : string) : State :=
  {| user := None; loading := true; sessionToken := None; processing := true;
     cookies := jar; common := ∅; hash := hash; pathname := pathname |}.

Section Handlers.
Context `{Env}.

Definition checkExistingSession : Act State () :=
  emit (Axios {| method := GET; url := API +:+ "/auth/me";
                 body := NoBody; headers := [] |} AwaitSession).

Definition checkExistingSession_resume (o : Outcome User.t) : Act State () :=
  match o with
  | Resolved data => setUser (Some data)
  | Rejected _ => emit (ConsoleLog "No existing session")
  end;;
  setLoading false.

(** [token] is [None] for [null].  The cookie stored is the one the
    assignment to [document.cookie] describes, for a token without [;]:
    [Credentials.storable] below says which tokens the browser stores as
    they are, [null] among them, and a fact about the cookie of a login
    with an arbitrary token is stated for those. *)
Definition handleLogin (userData : User.t) (token : option string) : Act State () :=
  setUser (Some userData);;
  setSessionToken token;;
  setCookies <["session_token" :=
    {| value := Js.template token; path := "/"; secure := true;
       samesite := Some "none"; max_age := Some (7 * 24 * 60 * 60)%N |}]>;;
  setCommon <["Authorization" := "Bearer " +:+ Js.template token]>;;
  emit (ToastSuccess "Successfully logged in!").

(** [handleLogout] up to its [await]. *)
Definition handleLogout : Act State () :=
  emit (Axios {| method := POST; url := API +:+ "/auth/logout";
                 body := NoBody; headers := [] |} AwaitLogout).

(** [handleLogout] after its [await]; the assignment to [document.cookie]
    names the path [/] and an expiry date in the past. *)
Definition handleLogout_resume (o : Outcome ()) : Act State () :=
  match o with
  | Resolved _ => skip
  | Rejected _ => emit (ConsoleError "Logout error:")
  end;;
  setUser None;;
  setSessionToken None;;
  setCookies (expire "session_token" "/");;
  setCommon (delete "Authorization");;
  emit (ToastSuccess "Successfully logged out!").

(** [processSessionId] of [AuthCallback], with [onLogin = handleLogin], up
    to its [await]. *)
Definition processSessionId : Act State () :=
  s ← get;
  match Fragment.match_session_id (hash s) with
  | Some sessionId =>
      emit (Axios {| method := POST; url := API +:+ "/auth/session-data";
                     body := JsonBody [];
                     headers := [("X-Session-ID", sessionId)] |} AwaitSessionData)
  | None =>
      emit (Axios {| method := GET; url := API +:+ "/auth/me";
                     body := NoBody; headers := [] |} AwaitMe)
  end.

(** The branch with a session_id, after its [await]. *)
Definition processSessionId_resume_exchange (o : Outcome LoginData.t) : Act State () :=
  match o with
  | Resolved data =>
      s ← get;
      replaceState (pathname s);;
      handleLogin (LoginData.user data) (LoginData.session_token data)
  | Rejected _ =>
      emit (ConsoleError "Session processing error:");;
      emit (ToastError "Authentication failed. Please try again.");;
      emit (SetHref "/")
  end;;
  setProcessing false.

(** The branch without a session_id, after its [await]. *)
Definition processSessionId_resume_me (o : Outcome User.t) : Act State () :=
  match o with
  | Resolved data => handleLogin data None
  | Rejected _ => emit (SetHref "/")
  end;;
  setProcessing false.

(** Whether [App] renders [Dashboard] (and with it the logout button): on
    every route of the router, once loading is over and [user] is set. *)
Definition dashboard_rendered (s : State) : bool :=
  negb (loading s) && bool_decide (is_Some (user s)).

End Handlers.

(** *** The page: state, requests in flight, effects so far *)

Record World := {
  page : State;
  pending : list Await;
  effects : list Effect
}.

(** [OnLogin] is the call of [onLogin] by [Landing] (after its login or
    register request resolved) or by [AuthCallback]; [ClickLogout] is the
    logout button of [Dashboard], whose [onClick] is [handleLogout]. *)
Inductive Event :=
  | SessionSettled (i : nat) (o : Outcome User.t)
  | OnLogin (userData : User.t) (token : option string)
  | ClickLogout
  | LogoutSettled (i : nat) (o : Outcome ()).

Section Machine.
Context `{Env}.

(** [Landing] and [AuthCallback] are rendered only while [user] is not
    set, [Dashboard] only while it is. *)
Definition enabled (e : Event) (w : World) : bool :=
  match e with
  | SessionSettled i _ => bool_decide (pending w !! i = Some AwaitSession)
  | OnLogin _ _ => negb (loading (page w)) && negb (dashboard_rendered (page w))
  | ClickLogout => dashboard_rendered (page w)
  | LogoutSettled i _ => bool_decide (pending w !! i = Some AwaitLogout)
  end.

Definition handler (e : Event) : Act State () :=
  match e with
  | SessionSettled _ o => checkExistingSession_resume o
  | OnLogin userData token => handleLogin userData token
  | ClickLogout => handleLogout
  | LogoutSettled _ o => handleLogout_resume o
  end.

Definition settled (e : Event) (l : list Await) : list Await :=
  match e with
  | SessionSettled i _ | LogoutSettled i _ => delete i l
  | OnLogin _ _ | ClickLogout => l
  end.

Definition perform (a : Act State ()) (w : World) : World :=
  let '(s, es) := exec a (page w) in
  {| page := s; pending := pending w ++ awaits es; effects := effects w ++ es |}.

Definition step (w : World) (e : Event) : World :=
  if enabled e w
  then perform (handler e)
         {| page := page w; pending := settled e (pending w); effects := effects w |}
  else w.

Definition run (w : World) (es : list Event) : World := foldl step w es.

(** The page right after [App] was mounted: [checkExistingSession] has been
    called. *)
Definition mounted (jar : gmap string Cookie) (pathname hash : string) : World :=
  perform checkExistingSession
    {| page := initial jar pathname hash; pending := []; effects := [] |}.

End Machine.

End App.

(** ** The properties as the specification words them *)

Module Spec.

(** The file name ends in [.pdf], the three letters in either case. *)
Definition ends_in_pdf (name : string) : Prop :=
  ∃ (stem : string) (c1 c2 c3 : ascii),
    name = stem +:+ String "." (String c1 (String c2 (String c3 EmptyString)))
    ∧ (c1 = "p" ∨ c1 = "P")%char
    ∧ (c2 = "d" ∨ c2 = "D")%char
    ∧ (c3 = "f" ∨ c3 = "F")%char.

(** The validation precondition of a submission fails: no prompt is
    selected, or the mode is upload and no file is selected, or the mode is
    text and the body is empty once trimmed. *)
Definition invalid (s : Dashboard.State) : Prop :=
  AnalysisForm.prompt_id (Dashboard.analysisForm s) = ""
  ∨ (Dashboard.inputMode s = Dashboard.upload ∧ Dashboard.selectedFile s = None)
  ∨ (Dashboard.inputMode s = Dashboard.text ∧ Js.trim (Dashboard.textInput s) = "").

(** A successful submission as the specification describes it, from the
    state [s] before the response [r] to the state [s'] after it: the
    result is appended to the history, file and text are cleared, mode and
    prompt/model selection are kept. *)
Definition success_as_specified (s : Dashboard.State) (r : Analysis.t)
    (s' : Dashboard.State) : Prop :=
  Dashboard.analyses s' = Dashboard.analyses s ++ [r]
  ∧ Dashboard.selectedFile s' = None
  ∧ Dashboard.textInput s' = ""
  ∧ Dashboard.inputMode s' = Dashboard.inputMode s
  ∧ Dashboard.analysisForm s' = Dashboard.analysisForm s.

(** The fragment contains a session_id: the text [session_id=] followed by
    at least one character of a value, which ends at the next [&]. *)
Definition has_session_id (fragment : string) : Prop :=
  ∃ (pre : string) (c : ascii) (rest : string),
    fragment = pre +:+ "session_id=" +:+ String c rest ∧ c ≠ "&"%char.

(** Two calls of logout in succession produce one network call. *)
Definition logout_twice_one_call `{Env} (w : App.World) : Prop :=
  ∃ r, requests (App.effects (App.run w [App.ClickLogout; App.ClickLogout]))
       = requests (App.effects w) ++ [r].

(** A response that is discarded: handling it from state [s] leaves the
    state as it was and shows nothing to the user. *)
Definition discarded (s : Dashboard.State) (out : Dashboard.State * list Effect) : Prop :=
  out.1 = s ∧ toasts out.2 = [].

End Spec.

(** ** Values used in examples *)

Module Demo.

Definition env : Env := {| BACKEND_URL := "https://docwise.test" |}.

Definition report_pdf : File.t :=
  {| File.name := "report.pdf"; File.bytes := "%PDF-1.7" |}.

Definition Report_PDF : File.t :=
  {| File.name := "Report.PDF"; File.bytes := "%PDF-1.7" |}.

Definition notes_txt : File.t :=
  {| File.name := "notes.txt"; File.bytes := "hello" |}.

Definition p1 : Prompt.t :=
  {| Prompt.id := "p1"; Prompt.title := "Key metrics";
     Prompt.content := "Extract the key financial metrics";
     Prompt.created_at := "2025-01-01T00:00:00Z" |}.

Definition a1 : Analysis.t :=
  {| Analysis.id := "a1"; Analysis.document_name := "report.pdf";
     Analysis.prompt_id := "p1"; Analysis.ai_model := "gpt-5";
     Analysis.response := "..."; Analysis.created_at := "2025-01-01T00:00:01Z" |}.

Definition u1 : User.t :=
  {| User.id := "u1"; User.email := "a@b.com"; User.name := "A"; User.picture := None |}.

(** Upload mode, report.pdf selected, prompt p1, model gpt-5. *)
Definition upload_ready : Dashboard.State :=
  {| Dashboard.activeTab := Dashboard.analyze_tab;
     Dashboard.prompts := [p1];
     Dashboard.analyses := [];
     Dashboard.selectedFile := Some report_pdf;
     Dashboard.analysisForm :=
       {| AnalysisForm.prompt_id := "p1"; AnalysisForm.ai_model := "gpt-5" |};
     Dashboard.analyzing := false;
     Dashboard.inputMode := Dashboard.upload;
     Dashboard.textInput := "" |}.

(** Text mode with a body, prompt p1, model claude-4. *)
Definition text_ready : Dashboard.State :=
  {| Dashboard.activeTab := Dashboard.analyze_tab;
     Dashboard.prompts := [p1];
     Dashboard.analyses := [];
     Dashboard.selectedFile := None;
     Dashboard.analysisForm :=
       {| AnalysisForm.prompt_id := "p1"; AnalysisForm.ai_model := "claude-4" |};
     Dashboard.analyzing := false;
     Dashboard.inputMode := Dashboard.text;
     Dashboard.textInput := "Quarterly revenue rose." |}.

(** Text mode with a body of blanks only, prompt p1. *)
Definition text_blank : Dashboard.State :=
  {| Dashboard.activeTab := Dashboard.analyze_tab;
     Dashboard.prompts := [p1];
     Dashboard.analyses := [];
     Dashboard.selectedFile := None;
     Dashboard.analysisForm :=
       {| AnalysisForm.prompt_id := "p1"; AnalysisForm.ai_model := "gpt-5" |};
     Dashboard.analyzing := false;
     Dashboard.inputMode := Dashboard.text;
     Dashboard.textInput := "   " |}.

(** The events that lead a freshly mounted dashboard to [upload_ready]. *)
Definition to_upload_ready : list Dashboard.Event :=
  [Dashboard.PromptsSettled 0 (Resolved [p1]);
   Dashboard.AnalysesSettled 0 (Resolved []);
   Dashboard.ClickTab Dashboard.analyze_tab;
   Dashboard.ChangeFile [report_pdf];
   Dashboard.ChoosePrompt "p1"].

(** No cookie, the session probe fails, then a login with token tok1. *)
Definition logged_in : list App.Event :=
  [App.SessionSettled 0 (Rejected {| response := None |});
   App.OnLogin u1 (Some "tok1")].

(** An accepted submission, not settled yet. *)
Definition submitted : list Dashboard.Event :=
  to_upload_ready ++ [Dashboard.SubmitForm].

(** The dashboard is unmounted while that submission is in flight. *)
Definition unmounted_in_flight : list Dashboard.Event :=
  submitted ++ [Dashboard.Unmount].

(** A switch to text mode, some typing, the moment before switching back. *)
Definition mode_switching : list Dashboard.Event :=
  to_upload_ready ++ [Dashboard.ClickTextMode; Dashboard.ChangeText "draft"].

End Demo.

(** ** The requests of the analysis workflow *)

Module Sent.
Section Sent.
Context `{Env}.

(** The two reloads. *)
Definition reload (r : Request) : Prop :=
  r = {| method := GET; url := API +:+ "/prompts"; body := NoBody; headers := [] |}
  ∨ r = {| method := GET; url := API +:+ "/documents/analyses";
           body := NoBody; headers := [] |}.

(** An upload whose file has a name ending in [.pdf], with a prompt and
    one of the two models. *)
Definition upload (r : Request) : Prop :=
  ∃ (f : File.t) (prompt_id ai_model : string),
    Spec.ends_in_pdf (File.name f)
    ∧ prompt_id ≠ ""
    ∧ ai_model ∈ Dashboard.models
    ∧ r = {| method := POST; url := API +:+ "/documents/analyze";
             body := FormData
               [("file", FormFile f);
                ("analysis_data",
                 FormString (JSON.stringify
                   [("prompt_id", prompt_id); ("ai_model", ai_model)]))];
             headers := [("Content-Type", "multipart/form-data")] |}.

(** A text analysis whose text is not blank, with a prompt and one of the
    two models. *)
Definition text (r : Request) : Prop :=
  ∃ (text_content prompt_id ai_model : string),
    Js.all_white_space text_content = false
    ∧ prompt_id ≠ ""
    ∧ ai_model ∈ Dashboard.models
    ∧ r = {| method := POST; url := API +:+ "/documents/analyze-text";
             body := JsonBody
               [("prompt_id", prompt_id); ("ai_model", ai_model);
                ("text_content", text_content); ("document_name", "Text Input")];
             headers := [("Content-Type", "application/json")] |}.

Definition known (r : Request) : Prop := reload r ∨ upload r ∨ text r.

(** What the state and the requests sent so far satisfy: the selected file
    is a PDF by its name, the model is one of the two offered, and every
    request is a known one. *)
Definition sound (w : Dashboard.World) : Prop :=
  (∀ f, Dashboard.selectedFile (Dashboard.dash w) = Some f →
        Spec.ends_in_pdf (File.name f))
  ∧ AnalysisForm.ai_model (Dashboard.analysisForm (Dashboard.dash w)) ∈ Dashboard.models
  ∧ Forall known (requests (Dashboard.effects w)).

End Sent.
End Sent.

(** ** The credentials [App] keeps *)

Module Credentials.

(** The characters a cookie value is made of (RFC 6265, cookie-octet):
    printable ASCII but the space, the double quote, the comma, the
    semicolon and the backslash. *)
Definition cookie_octet (c : ascii) : bool :=
  let n := nat_of_ascii c in
  (n =? 33)
  || (35 <=? n) && (n <=? 43)
  || (45 <=? n) && (n <=? 58)
  || (60 <=? n) && (n <=? 91)
  || (93 <=? n) && (n <=? 126).

Fixpoint cookie_text (s : string) : bool :=
  match s with
  | String c s' => cookie_octet c && cookie_text s'
  | EmptyString => true
  end.

(** A token that the assignment
    [document.cookie = `session_token=${token}; path=/; ...`] stores as it
    is: its text is made of cookie octets, so the browser neither cuts it
    at a [;] nor reads a part of it as attributes, and it is short enough
    for the 4096 octets a browser allows for name and value. *)
Definition storable (token : option string) : Prop :=
  cookie_text (Js.template token) = true
  ∧ String.length (Js.template token) ≤ 4000.

(** The logins among some events carry storable tokens. *)
Definition storable_logins (es : list App.Event) : Prop :=
  Forall (λ e, match e with
               | App.OnLogin _ token => storable token
               | _ => True
               end) es.

(** The page was loaded with no session_token cookie at a path other than
    [/]. *)
Definition at_root (jar : gmap string App.Cookie) : Prop :=
  ∀ c, jar !! "session_token" = Some c → App.path c = "/".

(** The cookie [handleLogin] stores for a storable [token]. *)
Definition cookie (token : option string) : App.Cookie :=
  {| App.value := Js.template token; App.path := "/"; App.secure := true;
     App.samesite := Some "none"; App.max_age := Some (7 * 24 * 60 * 60)%N |}.

(** The four places that hold the session ([user], [sessionToken], the
    session_token cookie, the default Authorization header) agree, for a
    page that was loaded with the cookies [jar]: [App] writes no other
    cookie and no other default header; while the header is set, the user
    is set and header and cookie carry the text of [sessionToken]; while it
    is not set, [sessionToken] is null and the cookie is the one the page
    was loaded with, or is gone. *)
Definition coherent (jar : gmap string App.Cookie) (s : App.State) : Prop :=
  (∀ k, k ≠ "session_token" → App.cookies s !! k = jar !! k)
  ∧ (∀ k, k ≠ "Authorization" → App.common s !! k = None)
  ∧ match App.common s !! "Authorization" with
    | Some h =>
        is_Some (App.user s)
        ∧ h = "Bearer " +:+ Js.template (App.sessionToken s)
        ∧ App.cookies s !! "session_token" = Some (cookie (App.sessionToken s))
    | None =>
        App.sessionToken s = None
        ∧ (App.cookies s !! "session_token" = jar !! "session_token"
           ∨ App.cookies s !! "session_token" = None)
    end.

End Credentials.

(** ** App.js: what is rendered on which route *)

Module Router.

(** The routes of [App]: [/], [/dashboard], [/app]. *)
Inductive Route := Root | DashboardRoute | AppRoute.

Inductive View :=
  | LoadingScreen
  | LandingView
  | AuthCallbackView
  | DashboardView (user : User.t)
  | Navigate (to : Route).

(** The [element] of each [Route]. *)
Definition element (user : option User.t) (r : Route) : View :=
  match r with
  | Root =>
      match user with
      | Some _ => Navigate DashboardRoute
      | None => LandingView
      end
  | DashboardRoute =>
      match user with
      | None => AuthCallbackView
      | Some u => DashboardView u
      end
  | AppRoute =>
      match user with
      | Some u => DashboardView u
      | None => Navigate Root
      end
  end.

(** What [App] returns. *)
Definition render (s : App.State) (r : Route) : View :=
  if App.loading s then LoadingScreen else element (App.user s) r.

(** [Navigate] replaces the location by its target and [App] renders
    again; [fuel] bounds the number of redirects followed. *)
Fixpoint settle (fuel : nat) (s : App.State) (r : Route) : Route * View :=
  match render s r, fuel with
  | Navigate to, S fuel' => settle fuel' s to
  | v, _ => (r, v)
  end.

Definition is_dashboard (v : View) : bool :=
  match v with DashboardView _ => true | _ => false end.

End Router.

(** ** Dashboard.jsx: the prompt editor *)

Module PromptForm.
Record t := { title : string; content : string }.

(** [{ title: '', content: '' }] *)
Definition empty : t := {| title := ""; content := "" |}.
End PromptForm.

Global Instance Prompt_eq_dec : EqDecision Prompt.t.
Proof. solve_decision. Defined.

Module Editor.

(** The calls of the editor: [axios.put(url, data)], [axios.post(url,
    data)], [axios.delete(url)]. *)
Inductive Call :=
  | AxiosPut (url : string) (data : PromptForm.t)
  | AxiosPost (url : string) (data : PromptForm.t)
  | AxiosDelete (url : string).

(** All [useState] cells of [Dashboard]: the ones of the analysis workflow
    and the four of the prompt editor. *)
Record State := {
  dashboard : Dashboard.State;
  loading : bool;
  showPromptModal : bool;
  editingPrompt : option Prompt.t;
  promptForm : PromptForm.t
}.

Definition setLoading (v : bool) : Act State () := modify (λ s,
  {| dashboard := dashboard s; loading := v; showPromptModal := showPromptModal s;
     editingPrompt := editingPrompt s; promptForm := promptForm s |}).

Definition setShowPromptModal (v : bool) : Act State () := modify (λ s,
  {| dashboard := dashboard s; loading := loading s; showPromptModal := v;
     editingPrompt := editingPrompt s; promptForm := promptForm s |}).

Definition setEditingPrompt (v : option Prompt.t) : Act State () := modify (λ s,
  {| dashboard := dashboard s; loading := loading s; showPromptModal := showPromptModal s;
     editingPrompt := v; promptForm := promptForm s |}).

Definition setPromptForm (v : PromptForm.t) : Act State () := modify (λ s,
  {| dashboard := dashboard s; loading := loading s; showPromptModal := showPromptModal s;
     editingPrompt := editingPrompt s; promptForm := v |}).

(** A handler of the analysis workflow, run on its cells. *)
Definition on_dashboard {A} (a : Act Dashboard.State A) : Act State A := λ s,
  let '(x, d, es) := a (dashboard s) in
  (x, {| dashboard := d; loading := loading s; showPromptModal := showPromptModal s;
         editingPrompt := editingPrompt s; promptForm := promptForm s |}, es).

Definition initial : State :=
  {| dashboard := Dashboard.initial; loading := false; showPromptModal := false;
     editingPrompt := None; promptForm := PromptForm.empty |}.

Section Handlers.
Context `{Env}.

(** [handlePromptSubmit] up to its [await]; the value is the call it
    waits for. *)
Definition handlePromptSubmit : Act State Call :=
  setLoading true;;
  s ← get;
  mret (match editingPrompt s with
        | Some p => AxiosPut (API +:+ "/prompts/" +:+ Prompt.id p) (promptForm s)
        | None => AxiosPost (API +:+ "/prompts") (promptForm s)
        end).

(** [handlePromptSubmit] after the [await] of [call]. *)
Definition handlePromptSubmit_resume (call : Call) (o : Outcome ()) : Act State () :=
  match o with
  | Resolved _ =>
      emit (ToastSuccess match call with
                         | AxiosPut _ _ => "Prompt updated successfully"
                         | _ => "Prompt created successfully"
                         end);;
      setShowPromptModal false;;
      setEditingPrompt None;;
      setPromptForm PromptForm.empty;;
      on_dashboard Dashboard.loadPrompts
  | Rejected error =>
      emit (ToastError (Js.or_else (detail error) "Failed to save prompt"))
  end;;
  setLoading false.

(** [confirmed] is the answer to [confirm(...)]. *)
Definition handleDeletePrompt (promptId : string) (confirmed : bool)
    : Act State (option Call) :=
  if negb confirmed then mret None
  else mret (Some (AxiosDelete (API +:+ "/prompts/" +:+ promptId))).

Definition handleDeletePrompt_resume (o : Outcome ()) : Act State () :=
  match o with
  | Resolved _ =>
      emit (ToastSuccess "Prompt deleted successfully");;
      on_dashboard Dashboard.loadPrompts
  | Rejected _ => emit (ToastError "Failed to delete prompt")
  end.

Definition handleEditPrompt (prompt : Prompt.t) : Act State () :=
  setEditingPrompt (Some prompt);;
  setPromptForm {| PromptForm.title := Prompt.title prompt;
                   PromptForm.content := Prompt.content prompt |};;
  setShowPromptModal true.

(** The [onChange] of the two inputs and the [onClick] of Cancel. *)
Definition changeTitle (value : string) : Act State () :=
  s ← get;
  setPromptForm {| PromptForm.title := value;
                   PromptForm.content := PromptForm.content (promptForm s) |}.

Definition changeContent (value : string) : Act State () :=
  s ← get;
  setPromptForm {| PromptForm.title := PromptForm.title (promptForm s);
                   PromptForm.content := value |}.

Definition clickCancel : Act State () :=
  setShowPromptModal false;;
  setEditingPrompt None;;
  setPromptForm PromptForm.empty.

(** The [disabled] attribute of [save-prompt-btn] and the [required]
    attribute of the two inputs: the browser does not submit the form
    while an input is empty. *)
Definition save_blocked (s : State) : bool :=
  loading s
  || negb (Js.truthy (PromptForm.title (promptForm s)))
  || negb (Js.truthy (PromptForm.content (promptForm s))).

End Handlers.

(** *** The whole component

    The cells, whether the component is mounted, the requests of the
    analysis workflow and the calls of the editor that have not settled,
    the effects so far and every call the editor made. *)
Record World := {
  st : State;
  alive : bool;
  pending : list Await;
  calls : list Call;
  effects : list Effect;
  sent : list Call
}.

(** The part the analysis workflow sees. *)
Definition analysis (w : World) : Dashboard.World :=
  {| Dashboard.dash := dashboard (st w); Dashboard.alive := alive w;
     Dashboard.pending := pending w; Dashboard.effects := effects w |}.

(** [Analysis e] is an event of the analysis workflow.  [OpenChange] is
    the [onOpenChange] of the dialog: [true] from its trigger, the button
    Create Prompt, [false] when the dialog is dismissed.  [ClickDelete]
    carries the answer to the confirmation. *)
Inductive Event :=
  | Analysis (e : Dashboard.Event)
  | OpenChange (open : bool)
  | ChangeTitle (value : string)
  | ChangeContent (value : string)
  | ClickCancel
  | SubmitPrompt
  | ClickEdit (prompt : Prompt.t)
  | ClickDelete (promptId : string) (confirmed : bool)
  | CallSettled (i : nat) (o : Outcome ()).

Definition is_prompts_changed (e : Dashboard.Event) : bool :=
  match e with Dashboard.PromptsChanged => true | _ => false end.

Section Machine.
Context `{Env}.

(** The editor is rendered on the prompts tab, its form while the dialog
    is open, the edit and delete buttons for the prompts listed.  The
    reloads of the editor are its own here, so [PromptsChanged] is not an
    event. *)
Definition enabled (e : Event) (w : World) : bool :=
  let s := st w in
  let on_tab :=
    alive w && bool_decide (Dashboard.activeTab (dashboard s) = Dashboard.prompts_tab) in
  match e with
  | Analysis e' => negb (is_prompts_changed e') && Dashboard.enabled e' (analysis w)
  | OpenChange _ => on_tab
  | ChangeTitle _ | ChangeContent _ | ClickCancel => on_tab && showPromptModal s
  | SubmitPrompt => on_tab && showPromptModal s && negb (save_blocked s)
  | ClickEdit prompt => on_tab && bool_decide (prompt ∈ Dashboard.prompts (dashboard s))
  | ClickDelete promptId _ =>
      on_tab && bool_decide (promptId ∈ Prompt.id <$> Dashboard.prompts (dashboard s))
  | CallSettled i _ => bool_decide (is_Some (calls w !! i))
  end.

(** The handler of an event of the editor, with the call it waits for, if
    any.  A settled call resumes the function that made it. *)
Definition handler (e : Event) (w : World) : Act State (option Call) :=
  match e with
  | Analysis _ => mret None
  | OpenChange open => setShowPromptModal open;; mret None
  | ChangeTitle value => changeTitle value;; mret None
  | ChangeContent value => changeContent value;; mret None
  | ClickCancel => clickCancel;; mret None
  | SubmitPrompt => call ← handlePromptSubmit; mret (Some call)
  | ClickEdit prompt => handleEditPrompt prompt;; mret None
  | ClickDelete promptId confirmed => handleDeletePrompt promptId confirmed
  | CallSettled i o =>
      match calls w !! i with
      | Some (AxiosDelete _) => handleDeletePrompt_resume o
      | Some call => handlePromptSubmit_resume call o
      | None => skip
      end;;
      mret None
  end.

Definition settled (e : Event) (l : list Call) : list Call :=
  match e with
  | CallSettled i _ => delete i l
  | _ => l
  end.

(** Runs a handler of the editor; as in [Dashboard.perform], the setters
    act on a mounted component only. *)
Definition perform (a : Act State (option Call)) (w : World) : World :=
  let '(call, s, es) := a (st w) in
  {| st := if alive w then s else st w; alive := alive w;
     pending := pending w ++ awaits es;
     calls := calls w ++ option_list call;
     effects := effects w ++ es;
     sent := sent w ++ option_list call |}.

(** An event of the analysis workflow is a step of [Dashboard]'s
    machine. *)
Definition perform_analysis (e : Dashboard.Event) (w : World) : World :=
  let a := Dashboard.step (analysis w) e in
  {| st := {| dashboard := Dashboard.dash a; loading := loading (st w);
              showPromptModal := showPromptModal (st w);
              editingPrompt := editingPrompt (st w);
              promptForm := promptForm (st w) |};
     alive := Dashboard.alive a; pending := Dashboard.pending a;
     calls := calls w; effects := Dashboard.effects a; sent := sent w |}.

Definition step (w : World) (e : Event) : World :=
  if enabled e w
  then match e with
       | Analysis e' => perform_analysis e' w
       | _ => perform (handler e w)
                {| st := st w; alive := alive w; pending := pending w;
                   calls := settled e (calls w); effects := effects w; sent := sent w |}
       end
  else w.

Definition run (w : World) (es : list Event) : World := foldl step w es.

(** The component right after it was mounted. *)
Definition mounted : World :=
  {| st := initial; alive := true;
     pending := Dashboard.pending Dashboard.mounted; calls := [];
     effects := Dashboard.effects Dashboard.mounted; sent := [] |}.

End Machine.

(** The saves in flight: the pending calls of [handlePromptSubmit]. *)
Definition is_save (c : Call) : bool :=
  match c with AxiosDelete _ => false | _ => true end.

Definition saves (l : list Call) : nat := length (List.filter is_save l).

(** The calls the editor makes: a create, an update of a prompt or a
    delete of one, the first two with a title and a content that are not
    empty. *)
Definition well_formed `{Env} (c : Call) : Prop :=
  match c with
  | AxiosPost url data =>
      url = API +:+ "/prompts"
      ∧ PromptForm.title data ≠ "" ∧ PromptForm.content data ≠ ""
  | AxiosPut url data =>
      (∃ promptId, url = API +:+ "/prompts/" +:+ promptId)
      ∧ PromptForm.title data ≠ "" ∧ PromptForm.content data ≠ ""
  | AxiosDelete url => ∃ promptId, url = API +:+ "/prompts/" +:+ promptId
  end.

(** What holds of the editor in every state it can reach. *)
Definition consistent `{Env} (w : World) : Prop :=
  saves (calls w) ≤ 1
  ∧ (alive w = true → saves (calls w) = if loading (st w) then 1 else 0)
  ∧ Forall well_formed (sent w).

End Editor.

(** ** encodeURIComponent *)

Module Uri.

(** The characters [encodeURIComponent] keeps: letters, digits and
    [- _ . ! ~ * ' ( )]. *)
Definition unreserved (c : ascii) : bool :=
  let n := nat_of_ascii c in
  (65 <=? n) && (n <=? 90)
  || (97 <=? n) && (n <=? 122)
  || (48 <=? n) && (n <=? 57)
  || bool_decide (n ∈ [45; 95; 46; 33; 126; 42; 39; 40; 41]).

(** One hexadecimal digit, in upper case. *)
Definition hex_digit (n : nat) : ascii :=
  if n <? 10 then ascii_of_nat (48 + n) else ascii_of_nat (55 + n).

(** The escape of one octet. *)
Definition percent (octet : nat) : string :=
  String "%" (String (hex_digit (octet / 16)) (String (hex_digit (octet mod 16)) "")).

(** The escapes of the UTF-8 octets of a code unit below 256: one octet
    below 128, two from there on. *)
Definition encode_char (c : ascii) : string :=
  let n := nat_of_ascii c in
  if unreserved c then String c ""
  else if n <? 128 then percent n
  else percent (192 + n / 64) +:+ percent (128 + n mod 64).

Fixpoint encodeURIComponent (s : string) : string :=
  match s with
  | String c s' => encode_char c +:+ encodeURIComponent s'
  | EmptyString => EmptyString
  end.

(** The characters of an encoded component. *)
Definition is_hex (c : ascii) : bool :=
  let n := nat_of_ascii c in
  (48 <=? n) && (n <=? 57) || (65 <=? n) && (n <=? 70).

Definition safe (c : ascii) : bool :=
  unreserved c || Ascii.eqb c "%" || is_hex c.

Fixpoint all_safe (s : string) : bool :=
  match s with
  | String c s' => safe c && all_safe s'
  | EmptyString => true
  end.

(** The value of a hexadecimal digit in upper case. *)
Definition hex_value (c : ascii) : option nat :=
  let n := nat_of_ascii c in
  if (48 <=? n) && (n <=? 57) then Some (n - 48)
  else if (65 <=? n) && (n <=? 70) then Some (n - 55)
  else None.

(** Reads an escape at the start of [s]: the octet and the rest. *)
Definition read_percent (s : string) : option (nat * string) :=
  match s with
  | String "%" (String h (String l rest)) =>
      hi ← hex_value h; lo ← hex_value l; Some (16 * hi + lo, rest)
  | _ => None
  end.

(** A reader for what [encodeURIComponent] writes: unreserved characters
    stand for themselves, an escape below 128 for that code unit, the
    escapes of a two-octet UTF-8 sequence for a code unit from 128 on.
    [fuel] bounds the number of code units read. *)
Fixpoint decode (fuel : nat) (s : string) : option string :=
  match s, fuel with
  | EmptyString, _ => Some EmptyString
  | _, O => None
  | String c s', S fuel' =>
      if Ascii.eqb c "%" then
        '(b1, rest) ← read_percent s;
        if b1 <? 128 then String (ascii_of_nat b1) <$> decode fuel' rest
        else
          '(b2, rest') ← read_percent rest;
          if (194 <=? b1) && (b1 <? 196) && (128 <=? b2) && (b2 <? 192)
          then String (ascii_of_nat (64 * (b1 - 192) + (b2 - 128))) <$> decode fuel' rest'
          else None
      else if unreserved c then String c <$> decode fuel' s'
      else None
  end.

Definition decodeURIComponent (s : string) : option string :=
  decode (String.length s) s.

End Uri.

(** ** Landing.jsx *)

Module AuthForm.
Record t := { email : string; password : string; name : string }.

(** [{ email: '', password: '', name: '' }] *)
Definition empty : t := {| email := ""; password := ""; name := "" |}.

(** The object as JavaScript sees it: its own properties in order. *)
Definition properties (f : t) : list (string * string) :=
  [("email", email f); ("password", password f); ("name", name f)].
End AuthForm.

Module Landing.

(** The [name] attributes of the inputs. *)
Inductive Field := EmailField | PasswordField | NameField.

Record State := {
  showAuth : bool;
  loading : bool;
  formData : AuthForm.t
}.

Definition setShowAuth (v : bool) : Act State () := modify (λ s,
  {| showAuth := v; loading := loading s; formData := formData s |}).

Definition setLoading (v : bool) : Act State () := modify (λ s,
  {| showAuth := showAuth s; loading := v; formData := formData s |}).

Definition setFormData (f : AuthForm.t → AuthForm.t) : Act State () := modify (λ s,
  {| showAuth := showAuth s; loading := loading s; formData := f (formData s) |}).

Definition initial : State :=
  {| showAuth := false; loading := false; formData := AuthForm.empty |}.

(** [Landing] in the page: its own cells, and the state [onLogin] writes. *)
Record Page := {
  landing : State;
  app : App.State
}.

Definition on_landing {A} (a : Act State A) : Act Page A := λ p,
  let '(x, s, es) := a (landing p) in (x, {| landing := s; app := app p |}, es).

Definition on_app {A} (a : Act App.State A) : Act Page A := λ p,
  let '(x, s, es) := a (app p) in (x, {| landing := landing p; app := s |}, es).

(** [origin] is [window.location.origin]. *)
Definition handleGoogleLogin (origin : string) : Act State () :=
  let redirectUrl := origin +:+ "/dashboard" in
  emit (SetHref ("https://auth.emergentagent.com/?redirect="
                   +:+ Uri.encodeURIComponent redirectUrl)).

(** [{ ...prev, [e.target.name]: e.target.value }] *)
Definition handleInputChange (field : Field) (value : string) : Act State () :=
  setFormData (λ prev,
    match field with
    | EmailField =>
        {| AuthForm.email := value; AuthForm.password := AuthForm.password prev;
           AuthForm.name := AuthForm.name prev |}
    | PasswordField =>
        {| AuthForm.email := AuthForm.email prev; AuthForm.password := value;
           AuthForm.name := AuthForm.name prev |}
    | NameField =>
        {| AuthForm.email := AuthForm.email prev;
           AuthForm.password := AuthForm.password prev; AuthForm.name := value |}
    end).

Section Handlers.
Context `{Env}.

(** [handleFormSubmit] up to its [await]; the value is the request it
    waits for. *)
Definition handleFormSubmit (isLogin : bool) : Act State Request :=
  setLoading true;;
  s ← get;
  let endpoint := if isLogin then "/auth/login" else "/auth/register" in
  let payload :=
    if isLogin
    then [("email", AuthForm.email (formData s));
          ("password", AuthForm.password (formData s))]
    else AuthForm.properties (formData s) in
  mret {| method := POST; url := API +:+ endpoint; body := JsonBody payload;
          headers := [] |}.

(** [handleFormSubmit] after its [await], with [onLogin = handleLogin]. *)
Definition handleFormSubmit_resume (o : Outcome LoginData.t) : Act Page () :=
  match o with
  | Resolved data =>
      on_app (App.handleLogin (LoginData.user data) (LoginData.session_token data));;
      on_landing (setShowAuth false)
  | Rejected error =>
      emit (ToastError (Js.or_else (detail error) "Authentication failed"))
  end;;
  on_landing (setLoading false).

End Handlers.

(** The [disabled] attribute of the submit button and the [required]
    attribute of the inputs of the form: the login form has no name
    input. *)
Definition submit_blocked (isLogin : bool) (s : State) : bool :=
  loading s
  || negb (Js.truthy (AuthForm.email (formData s)))
  || negb (Js.truthy (AuthForm.password (formData s)))
  || negb isLogin && negb (Js.truthy (AuthForm.name (formData s))).

(** *** One mount of [Landing] *)

Record World := {
  page : Page;
  pending : list Request;
  effects : list Effect;
  sent : list Request
}.

(** [OpenChange] is [setShowAuth]: [true] from the three buttons that open
    the dialog, the argument of [onOpenChange] from the dialog. *)
Inductive Event :=
  | OpenChange (open : bool)
  | Change (field : Field) (value : string)
  | Submit (isLogin : bool)
  | ClickGoogle (origin : string)
  | AuthSettled (i : nat) (o : Outcome LoginData.t).

(** [App] renders [Landing] on the route [/] while no user is set. *)
Definition rendered (w : World) : bool :=
  match Router.render (app (page w)) Router.Root with
  | Router.LandingView => true
  | _ => false
  end.

Section Machine.
Context `{Env}.

Definition enabled (e : Event) (w : World) : bool :=
  let s := landing (page w) in
  match e with
  | OpenChange _ => rendered w
  | Change _ _ | ClickGoogle _ => rendered w && showAuth s
  | Submit isLogin => rendered w && showAuth s && negb (submit_blocked isLogin s)
  | AuthSettled i _ => bool_decide (is_Some (pending w !! i))
  end.

Definition handler (e : Event) : Act Page (option Request) :=
  match e with
  | OpenChange open => on_landing (setShowAuth open);; mret None
  | Change field value => on_landing (handleInputChange field value);; mret None
  | Submit isLogin => r ← on_landing (handleFormSubmit isLogin); mret (Some r)
  | ClickGoogle origin => on_landing (handleGoogleLogin origin);; mret None
  | AuthSettled _ o => handleFormSubmit_resume o;; mret None
  end.

Definition settled (e : Event) (l : list Request) : list Request :=
  match e with
  | AuthSettled i _ => delete i l
  | _ => l
  end.

Definition perform (a : Act Page (option Request)) (w : World) : World :=
  let '(r, p, es) := a (page w) in
  {| page := p; pending := pending w ++ option_list r;
     effects := effects w ++ es; sent := sent w ++ option_list r |}.

Definition step (w : World) (e : Event) : World :=
  if enabled e w
  then perform (handler e)
         {| page := page w; pending := settled e (pending w);
            effects := effects w; sent := sent w |}
  else w.

Definition run (w : World) (es : list Event) : World := foldl step w es.

(** [Landing] right after it was mounted, in an [App] whose state is
    [a]. *)
Definition mounted (a : App.State) : World :=
  {| page := {| landing := initial; app := a |};
     pending := []; effects := []; sent := [] |}.

(** The two requests of the form: a login carries the email and the
    password, a registration the name as well, none of them empty. *)
Definition auth_request (r : Request) : Prop :=
  (∃ email password,
     email ≠ "" ∧ password ≠ ""
     ∧ r = {| method := POST; url := API +:+ "/auth/login";
              body := JsonBody [("email", email); ("password", password)];
              headers := [] |})
  ∨ (∃ email password name,
       email ≠ "" ∧ password ≠ "" ∧ name ≠ ""
       ∧ r = {| method := POST; url := API +:+ "/auth/register";
                body := JsonBody [("email", email); ("password", password);
                                  ("name", name)];
                headers := [] |}).

(** What holds of [Landing] in the state [w] it has reached by the events
    [es], from an [App] in state [a]: a request is in flight exactly when
    [loading] is set, the requests sent are those of the form, and the
    state of [App] is [a] still or what [handleLogin] made of it for a
    response that resolved among [es]. *)
Definition consistent (a : App.State) (es : list Event) (w : World) : Prop :=
  length (pending w) = (if loading (landing (page w)) then 1 else 0)
  ∧ Forall auth_request (sent w)
  ∧ (app (page w) = a
     ∨ (pending w = []
        ∧ ∃ i data, AuthSettled i (Resolved data) ∈ es
                    ∧ app (page w)
                      = (exec (App.handleLogin (LoginData.user data)
                                 (LoginData.session_token data)) a).1)).

End Machine.

End Landing.

(** The [src] of the avatar in the header of [Dashboard]. *)
Definition avatar_src (user : User.t) : string :=
  Js.or_else (User.picture user)
    ("https://ui-avatars.com/api/?name=" +:+ Uri.encodeURIComponent (User.name user)
       +:+ "&background=1e293b&color=fff").

(** ** More concrete states *)

Module Scenes.

(** The callback page as the sign-in service redirects to it. *)
Definition callback_page : App.State :=
  App.initial ∅ "/dashboard" "#session_id=abc123&state=x".

Definition login_data : LoginData.t :=
  {| LoginData.user := Demo.u1; LoginData.session_token := Some "tok1" |}.

(** The dashboard, prompt editor included, once its first load has
    returned the prompt p1. *)
Definition listed : list Editor.Event :=
  [Editor.Analysis (Dashboard.PromptsSettled 0 (Resolved [Demo.p1]))].


(** The probe of [App] has failed; the visitor opens the dialog of
    [Landing], fills in the login form and submits it. *)
Definition anonymous : App.State :=
  {| App.user := None; App.loading := false; App.sessionToken := None;
     App.processing := true; App.cookies := ∅; App.common := ∅;
     App.hash := ""; App.pathname := "/" |}.

Definition signing_in : list Landing.Event :=
  [Landing.OpenChange true;
   Landing.Change Landing.EmailField "a@b.com";
   Landing.Change Landing.PasswordField "secret";
   Landing.Submit true].

(** A second reload of the prompts while the first is in flight. *)
Definition two_reloads : list Dashboard.Event := [Dashboard.PromptsChanged].

End Scenes.

(** * Facts about the string primitives *)

(** Unfolds the monad so that a handler applied to a state computes. *)
Ltac act_unfold :=
  unfold exec, mbind, Act_bind, mret, Act_ret, get, modify, emit, skip in *.

Lemma app_cons (c : ascii) (a b : string) : String c a +:+ b = String c (a +:+ b).
Proof. reflexivity. Qed.

Lemma app_nil_l (b : string) : "" +:+ b = b.
Proof. reflexivity. Qed.

Lemma app_length (a b : string) :
  String.length (a +:+ b) = String.length a + String.length b.
Proof. induction a as [|c a IH]; [done|]. rewrite app_cons. simpl. by rewrite IH. Qed.

Lemma substring_suffix (p t : string) :
  String.substring (String.length p) (String.length t) (p +:+ t) = t.
Proof.
  induction p as [|c p IH].
  - rewrite app_nil_l. simpl. induction t as [|d t IHt]; [done|]. simpl. by rewrite IHt.
  - rewrite app_cons. simpl. exact IH.
Qed.

Lemma substring_split (s : string) (k : nat) :
  k ≤ String.length s →
  s = String.substring 0 k s +:+ String.substring k (String.length s - k) s.
Proof.
  revert k. induction s as [|c s IH]; intros k Hk.
  - simpl in Hk. by replace k with 0 by lia.
  - destruct k as [|k].
    + rewrite app_nil_l. simpl. f_equal.
      clear. induction s as [|d s IHs]; [done|]. simpl. by rewrite <- IHs.
    + simpl in Hk. simpl String.substring. rewrite app_cons. f_equal.
      apply IH. lia.
Qed.

(** [endsWith] is the suffix relation. *)
Lemma endsWith_true_iff (s t : string) :
  Js.endsWith s t = true ↔ ∃ p, s = p +:+ t.
Proof.
  unfold Js.endsWith. split.
  - destruct (Nat.leb_spec (String.length t) (String.length s)) as [Hle|]; [|done].
    intros Heq%String.eqb_eq.
    exists (String.substring 0 (String.length s - String.length t) s).
    pose proof (substring_split s (String.length s - String.length t)) as Hs.
    replace (String.length s - (String.length s - String.length t))
      with (String.length t) in Hs by lia.
    rewrite Heq in Hs. apply Hs. lia.
  - intros [p ->]. rewrite app_length.
    destruct (Nat.leb_spec (String.length t) (String.length p + String.length t)); [|lia].
    replace (String.length p + String.length t - String.length t)
      with (String.length p) by lia.
    rewrite substring_suffix. apply String.eqb_refl.
Qed.

Lemma toLowerCase_app (a b : string) :
  Js.toLowerCase (a +:+ b) = Js.toLowerCase a +:+ Js.toLowerCase b.
Proof. induction a as [|c a IH]; [done|]. rewrite app_cons. simpl. by rewrite IH. Qed.

Lemma toLowerCase_app_inv (s a b : string) :
  Js.toLowerCase s = a +:+ b →
  ∃ a' b', s = a' +:+ b' ∧ Js.toLowerCase a' = a ∧ Js.toLowerCase b' = b.
Proof.
  revert s. induction a as [|c a IH]; intros s Hs.
  - exists "", s. by rewrite app_nil_l in Hs.
  - rewrite app_cons in Hs. destruct s as [|d s]; [done|].
    simpl in Hs. injection Hs as Hd Hs.
    destruct (IH s Hs) as (a' & b' & -> & Ha & Hb).
    exists (String d a'), b'. rewrite app_cons. simpl. by rewrite Hd, Ha.
Qed.

(** The code units that lower-case to the four code units of [.pdf]. *)
Ltac by_code_unit c :=
  destruct c as [[] [] [] [] [] [] [] []]; vm_compute;
  (split; [intros; first [congruence | by left | by right] | intros [?|?]; congruence]).

Lemma lower_char_dot (c : ascii) : Js.lower_char c = "."%char ↔ c = "."%char.
Proof. destruct c as [[] [] [] [] [] [] [] []]; vm_compute; split; congruence. Qed.

Lemma lower_char_p (c : ascii) :
  Js.lower_char c = "p"%char ↔ c = "p"%char ∨ c = "P"%char.
Proof. by_code_unit c. Qed.

Lemma lower_char_d (c : ascii) :
  Js.lower_char c = "d"%char ↔ c = "d"%char ∨ c = "D"%char.
Proof. by_code_unit c. Qed.

Lemma lower_char_f (c : ascii) :
  Js.lower_char c = "f"%char ↔ c = "f"%char ∨ c = "F"%char.
Proof. by_code_unit c. Qed.

(** The test of [handleFileSelect] is the specification's "ends in .pdf,
    case-insensitive". *)
Lemma pdf_test_iff (name : string) :
  Js.endsWith (Js.toLowerCase name) ".pdf" = true ↔ Spec.ends_in_pdf name.
Proof.
  rewrite endsWith_true_iff. split.
  - intros [p Hp]. apply toLowerCase_app_inv in Hp as (stem & b & -> & _ & Hb).
    destruct b as [|c0 [|c1 [|c2 [|c3 [|]]]]]; try done.
    simpl in Hb. injection Hb as H0 H1 H2 H3.
    apply lower_char_dot in H0 as ->.
    apply lower_char_p in H1. apply lower_char_d in H2. apply lower_char_f in H3.
    by exists stem, c1, c2, c3.
  - intros (stem & c1 & c2 & c3 & -> & H1 & H2 & H3).
    exists (Js.toLowerCase stem). rewrite toLowerCase_app. f_equal.
    apply lower_char_p in H1. apply lower_char_d in H2. apply lower_char_f in H3.
    simpl. by rewrite H1, H2, H3.
Qed.

Lemma truthy_false_iff (s : string) : Js.truthy s = false ↔ s = "".
Proof. by destruct s. Qed.

(** A string trims to the empty string exactly when all its code units are
    white space. *)
Lemma trimEnd_empty_iff (s : string) :
  Js.trimEnd s = "" ↔ Js.all_white_space s = true.
Proof.
  induction s as [|c s IH]; [done|]. simpl.
  destruct (Js.trimEnd s) eqn:Ht.
  - destruct (Js.is_white_space c); simpl; [tauto|]. split; done.
  - split; [done|]. intros [_ Hs]%andb_prop. by apply IH in Hs.
Qed.

Lemma trim_empty_iff (s : string) : Js.trim s = "" ↔ Js.all_white_space s = true.
Proof.
  unfold Js.trim. rewrite trimEnd_empty_iff.
  induction s as [|c s IH]; [done|]. simpl.
  destruct (Js.is_white_space c) eqn:Hc; [exact IH|].
  simpl. rewrite Hc. done.
Qed.

Lemma requests_app (es1 es2 : list Effect) :
  requests (es1 ++ es2) = requests es1 ++ requests es2.
Proof. apply omap_app. Qed.

Lemma toasts_app (es1 es2 : list Effect) : toasts (es1 ++ es2) = toasts es1 ++ toasts es2.
Proof. apply List.filter_app. Qed.

(** * The JSON text written by [JSON.stringify] *)

Lemma app_assoc (a b c : string) : (a +:+ b) +:+ c = a +:+ (b +:+ c).
Proof. induction a as [|x a IH]; [done|]. rewrite !app_cons. by rewrite IH. Qed.

Lemma read_chars_quote_char (c : ascii) (tail : string) :
  JSON.read_chars (JSON.quote_char c +:+ tail) = JSON.cons_char c (JSON.read_chars tail).
Proof. destruct c as [[] [] [] [] [] [] [] []]; reflexivity. Qed.

Lemma read_chars_quote_chars (s rest : string) :
  JSON.read_chars (JSON.quote_chars s +:+ String JSON.dquote rest) = Some (s, rest).
Proof.
  induction s as [|c s IH]; [done|].
  simpl JSON.quote_chars. rewrite app_assoc, read_chars_quote_char, IH. done.
Qed.

Lemma read_string_quote (s rest : string) :
  JSON.read_string (JSON.quote s +:+ rest) = Some (s, rest).
Proof.
  unfold JSON.quote. rewrite app_cons, app_assoc, app_cons, app_nil_l.
  cbn [JSON.read_string]. change (Ascii.eqb JSON.dquote JSON.dquote) with true.
  cbv iota. apply read_chars_quote_chars.
Qed.

Lemma read_member_member (kv : string * string) (rest : string) :
  JSON.read_member (JSON.member kv +:+ rest) = Some (kv, rest).
Proof.
  destruct kv as [k v]. unfold JSON.member, JSON.read_member. cbn [fst snd].
  rewrite app_assoc, read_string_quote, app_assoc, app_cons, app_nil_l.
  change (Ascii.eqb ":" ":") with true. cbv iota.
  by rewrite read_string_quote.
Qed.

Lemma quote_length (s : string) : 2 ≤ String.length (JSON.quote s).
Proof. unfold JSON.quote. cbn [String.length]. rewrite app_length. simpl. lia. Qed.

Lemma members_length (o : list (string * string)) :
  length o ≤ String.length (JSON.members o).
Proof.
  induction o as [|kv o IH]; [done|].
  assert (5 ≤ String.length (JSON.member kv)) as Hm.
  { unfold JSON.member. rewrite !app_length.
    pose proof (quote_length kv.1). pose proof (quote_length kv.2).
    change (String.length ":") with 1. lia. }
  destruct o as [|kv' o].
  - cbn [JSON.members length]. lia.
  - change (JSON.members (kv :: kv' :: o))
      with (JSON.member kv +:+ "," +:+ JSON.members (kv' :: o)).
    rewrite !app_length. change (String.length ",") with 1.
    cbn [length] in *. lia.
Qed.

Lemma read_members_members (o : list (string * string)) (n : nat) :
  o ≠ [] → length o ≤ n →
  JSON.read_members n (JSON.members o +:+ "}") = Some o.
Proof.
  revert n. induction o as [|kv o IH]; intros n Hne Hn; [done|].
  destruct n as [|n]; [cbn [length] in Hn; lia|].
  destruct o as [|kv' o].
  - cbn [JSON.members JSON.read_members]. by rewrite read_member_member.
  - change (JSON.members (kv :: kv' :: o))
      with (JSON.member kv +:+ "," +:+ JSON.members (kv' :: o)).
    cbn [JSON.read_members]. rewrite !app_assoc, read_member_member.
    rewrite app_cons, app_nil_l.
    change (Ascii.eqb "," "}") with false. change (Ascii.eqb "," ",") with true.
    cbv iota. rewrite IH; [done|done|]. cbn [length] in *. lia.
Qed.

(** Reading back the text that [JSON.stringify] writes gives the object. *)
Lemma parse_stringify (o : list (string * string)) :
  JSON.parse (JSON.stringify o) = Some o.
Proof.
  unfold JSON.stringify, JSON.parse. rewrite app_cons, app_nil_l.
  change (Ascii.eqb "{" "{") with true. cbv iota.
  destruct o as [|kv o]; [done|].
  assert (length (kv :: o) ≤ String.length (JSON.members (kv :: o) +:+ "}")) as Hlen.
  { rewrite app_length. pose proof (members_length (kv :: o)). lia. }
  pose proof (read_members_members (kv :: o) _ ltac:(done) Hlen) as Hread.
  assert (2 ≤ String.length (JSON.members (kv :: o) +:+ "}")) as H2.
  { rewrite app_length. change (String.length "}") with 1.
    pose proof (members_length (kv :: o)). cbn [length] in *. lia. }
  destruct (JSON.members (kv :: o) +:+ "}") as [|d [|d' s]]; [done| |done].
  cbn [String.length] in H2. lia.
Qed.

(** * The fragment of the federated redirect *)

Lemma strip_prefix_Some (p s rest : string) :
  Fragment.strip_prefix p s = Some rest ↔ s = p +:+ rest.
Proof.
  revert s. induction p as [|a p IH]; intros s.
  - rewrite app_nil_l. simpl. split; congruence.
  - rewrite app_cons. destruct s as [|b s]; simpl; [split; congruence|].
    destruct (Ascii.eqb_spec a b) as [->|Hab].
    + rewrite IH. split; congruence.
    + split; congruence.
Qed.

Lemma not_amp_empty (s : string) :
  Fragment.not_amp s = "" ↔ s = "" ∨ ∃ r, s = String "&" r.
Proof.
  destruct s as [|c s]; simpl.
  - split; auto.
  - destruct (Ascii.eqb_spec c "&") as [->|Hc].
    + split; eauto.
    + split; [done|]. intros [|[r Hr]]; congruence.
Qed.

(** The expression matches at the start of [s] exactly when [s] starts with
    [session_id=] followed by a character other than [&]. *)
Lemma match_here_None (s : string) :
  Fragment.match_here s = None
  ↔ ¬ ∃ c rest, s = "session_id=" +:+ String c rest ∧ c ≠ "&"%char.
Proof.
  unfold Fragment.match_here.
  destruct (Fragment.strip_prefix "session_id=" s) as [rest|] eqn:Hp.
  - apply strip_prefix_Some in Hp as ->.
    destruct (Fragment.not_amp rest) eqn:Hn.
    + apply not_amp_empty in Hn. split; [|done]. intros _ (c & r & Heq & Hc).
      destruct Hn as [-> | [r' ->]]; simplify_eq/=.
    + split; [done|]. intros Hno. exfalso. apply Hno.
      destruct rest as [|c r]; [done|]. exists c, r. split; [done|].
      intros ->. done.
  - split; [|done]. intros _ (c & r & -> & _).
    assert (Fragment.strip_prefix "session_id=" ("session_id=" +:+ String c r)
            = Some (String c r)) as Heq by by apply strip_prefix_Some.
    congruence.
Qed.

(** [match] returns [null] exactly when the fragment contains no
    session_id. *)
Lemma match_session_id_None (fragment : string) :
  Fragment.match_session_id fragment = None ↔ ¬ Spec.has_session_id fragment.
Proof.
  unfold Spec.has_session_id. induction fragment as [|x f IH].
  - cbn. split; [|done]. intros _ (pre & c & rest & Heq & _).
    destruct pre; discriminate Heq.
  - cbn [Fragment.match_session_id].
    destruct (Fragment.match_here (String x f)) eqn:Hh.
    + split; [done|]. intros Hno. exfalso.
      assert (Fragment.match_here (String x f) ≠ None) as Hsome by congruence.
      apply Hsome, match_here_None. intros (c & rest & Heq & Hc).
      apply Hno. exists "", c, rest. by rewrite app_nil_l.
    + apply match_here_None in Hh. rewrite IH. split.
      * intros Hf (pre & c & rest & Heq & Hc). destruct pre as [|y pre].
        -- apply Hh. exists c, rest. by rewrite app_nil_l in Heq.
        -- rewrite app_cons in Heq. injection Heq as -> ->.
           apply Hf. by exists pre, c, rest.
      * intros Hxf (pre & c & rest & -> & Hc).
        apply Hxf. exists (String x pre), c, rest. by rewrite app_cons.
Qed.

(** The fragment of the redirect convention and some without a
    session_id. *)
Example match_session_id_examples :
  Fragment.match_session_id "#session_id=abc123" = Some "abc123"
  ∧ Fragment.match_session_id "#session_id=abc123&state=x" = Some "abc123"
  ∧ Fragment.match_session_id "#session_id=&session_id=zz" = Some "zz"
  ∧ Fragment.match_session_id "#state=x" = None
  ∧ Fragment.match_session_id "" = None.
Proof. repeat split. Qed.

(** * The analysis form *)

Section Analysis.
Import Dashboard.
Context `{Env}.

(** ** The handlers *)

(** What the rejected branch of [handleAnalyzeDocument_resume] does. *)
Lemma resume_rejected (error : AxiosError) (s : State) :
  exec (handleAnalyzeDocument_resume (Rejected error)) s
  = ({| activeTab := activeTab s; prompts := prompts s; analyses := analyses s;
        selectedFile := selectedFile s; analysisForm := analysisForm s;
        analyzing := false; inputMode := inputMode s; textInput := textInput s |},
     [ToastError (Js.or_else (detail error) "Analysis failed")]).
Proof. reflexivity. Qed.

(** What the resolved branch of [handleAnalyzeDocument_resume] does. *)
Lemma resume_resolved (r : Analysis.t) (s : State) :
  exec (handleAnalyzeDocument_resume (Resolved r)) s
  = ({| activeTab := analyses_tab; prompts := prompts s; analyses := analyses s;
        selectedFile := None;
        analysisForm := {| AnalysisForm.prompt_id := ""; AnalysisForm.ai_model := "gpt-5" |};
        analyzing := false; inputMode := inputMode s; textInput := "" |},
     [ToastSuccess "Content analyzed successfully!";
      Axios {| method := GET; url := API +:+ "/documents/analyses";
               body := NoBody; headers := [] |} AwaitAnalyses]).
Proof. reflexivity. Qed.

(** The submit button is disabled whenever the validation of
    [handleAnalyzeDocument] would fail. *)
Lemma invalid_disabled (s : State) : Spec.invalid s → analyze_btn_disabled s = true.
Proof.
  unfold analyze_btn_disabled.
  intros [Hp | [[Hm Hf] | [Hm Ht]]].
  - rewrite Hp. simpl. destruct (inputMode s); simpl; rewrite !orb_true_r; done.
  - rewrite Hm, Hf. simpl. by rewrite orb_true_r.
  - rewrite Hm, Ht. simpl. by rewrite orb_true_r.
Qed.

(** An accepted submission: [analyzing] becomes true and one request is
    issued, nothing else changes. *)
Lemma handleAnalyzeDocument_accepted (s : State) :
  analyze_btn_disabled s = false →
  ∃ r, exec handleAnalyzeDocument s
       = ({| activeTab := activeTab s; prompts := prompts s; analyses := analyses s;
             selectedFile := selectedFile s; analysisForm := analysisForm s;
             analyzing := true; inputMode := inputMode s; textInput := textInput s |},
          [Axios r AwaitAnalyze]).
Proof.
  unfold analyze_btn_disabled, handleAnalyzeDocument. act_unfold.
  intros [[_ Hup]%orb_false_elim Htx]%orb_false_elim.
  rewrite Hup, Htx. cbn. destruct (bool_decide (inputMode s = upload)); eauto.
Qed.

(** ** Steps of the machine *)

Lemma perform_dash (a : Act State ()) (w : World) :
  dash (perform a w) = if alive w then (exec a (dash w)).1 else dash w.
Proof. unfold perform. by destruct (exec a (dash w)). Qed.

Lemma perform_alive (a : Act State ()) (w : World) :
  alive (perform a w) = alive w.
Proof. unfold perform. by destruct (exec a (dash w)). Qed.

Lemma perform_pending (a : Act State ()) (w : World) :
  pending (perform a w) = pending w ++ awaits (exec a (dash w)).2.
Proof. unfold perform. by destruct (exec a (dash w)). Qed.

Lemma perform_effects (a : Act State ()) (w : World) :
  effects (perform a w) = effects w ++ (exec a (dash w)).2.
Proof. unfold perform. by destruct (exec a (dash w)). Qed.

Lemma step_disabled (w : World) (e : Event) : enabled e w = false → step w e = w.
Proof. unfold step. by intros ->. Qed.

Lemma step_enabled (w : World) (e : Event) :
  enabled e w = true →
  step w e = perform (handler e)
               {| dash := dash w;
                  alive := match e with Unmount => false | _ => alive w end;
                  pending := settled e (pending w); effects := effects w |}.
Proof. unfold step. by intros ->. Qed.

Lemma step_analyze_settled (w : World) (i : nat) (o : Outcome Analysis.t) :
  pending w !! i = Some AwaitAnalyze →
  step w (AnalyzeSettled i o)
  = perform (handleAnalyzeDocument_resume o)
      {| dash := dash w; alive := alive w;
         pending := delete i (pending w); effects := effects w |}.
Proof.
  intros Hi. rewrite step_enabled; [done|]. cbn. by apply bool_decide_eq_true.
Qed.

Lemma submit_while_analyzing (w : World) :
  analyzing (dash w) = true → step w SubmitForm = w.
Proof.
  intros Ha. apply step_disabled. cbn. unfold analyze_btn_disabled.
  rewrite Ha. cbn. by rewrite andb_false_r.
Qed.

(** ** Counting the submissions in flight *)

Lemma submissions_app (l1 l2 : list Await) :
  submissions (l1 ++ l2) = submissions l1 + submissions l2.
Proof. unfold submissions. by rewrite List.filter_app, length_app. Qed.

Lemma submissions_delete (l : list Await) (i : nat) :
  l !! i = Some AwaitAnalyze → submissions (delete i l) + 1 = submissions l.
Proof.
  unfold submissions. revert i. induction l as [|k l IH]; intros [|i] Hi; try done.
  - cbn in Hi. injection Hi as ->. cbn. apply Nat.add_1_r.
  - cbn in Hi. specialize (IH i Hi). cbn.
    destruct (is_submission k); cbn; [f_equal|]; exact IH.
Qed.

Lemma submissions_delete_other (l : list Await) (i : nat) (k : Await) :
  l !! i = Some k → is_submission k = false →
  submissions (delete i l) = submissions l.
Proof.
  unfold submissions. revert i. induction l as [|k' l IH]; intros [|i] Hi Hk; try done.
  - cbn in Hi. injection Hi as ->. cbn. by rewrite Hk.
  - cbn in Hi. specialize (IH i Hi Hk). cbn.
    destruct (is_submission k'); cbn; [f_equal|]; exact IH.
Qed.

(** No handler but an accepted [handleAnalyzeDocument] starts a
    submission. *)
Lemma handler_submissions (e : Event) (s : State) :
  e ≠ SubmitForm → submissions (awaits (exec (handler e) s).2) = 0.
Proof.
  intros He. destruct e; try done; cbn [handler].
  - unfold handleFileSelect. destruct files; [done|]. by destruct (Js.endsWith _ _).
  - by destruct o.
  - by destruct o.
  - by destruct o.
Qed.

(** ** What every reachable state satisfies *)

Lemma consistent_mounted : consistent mounted.
Proof. repeat split; cbn; auto. Qed.

Lemma consistent_step_unmounted (w : World) (e : Event) :
  alive w = false → consistent w → consistent (step w e).
Proof.
  intros Hal (Hle & _ & Hup & Htx). unfold step.
  destruct (enabled e w) eqn:He; [|by repeat split; auto; rewrite Hal].
  assert (alive (perform (handler e)
            {| dash := dash w; alive := match e with Unmount => false | _ => alive w end;
               pending := settled e (pending w); effects := effects w |}) = false) as Hal'.
  { rewrite perform_alive. cbn. by destruct e. }
  unfold consistent. rewrite Hal'.
  rewrite perform_dash. cbn [dash alive].
  replace (if match e with Unmount => false | _ => alive w end then
             (exec (handler e) (dash w)).1 else dash w) with (dash w)
    by (rewrite Hal; by destruct e).
  split; [|by repeat split].
  unfold in_flight in *. rewrite perform_pending. cbn [dash pending].
  rewrite submissions_app.
  destruct e; cbn in He; rewrite ?Hal in He; try done;
    apply bool_decide_eq_true in He; cbn [settled];
    rewrite handler_submissions, Nat.add_0_r by done.
  - by rewrite (submissions_delete_other _ _ _ He).
  - by rewrite (submissions_delete_other _ _ _ He).
  - pose proof (submissions_delete _ _ He) as Hdel. clear -Hle Hdel. lia.
Qed.

Lemma consistent_step (w : World) (e : Event) :
  consistent w → consistent (step w e).
Proof.
  intros Hw. destruct (alive w) eqn:Hal; [|by apply consistent_step_unmounted].
  destruct Hw as (Hle & Hfl & Hup & Htx). specialize (Hfl Hal).
  unfold step. destruct (enabled e w) eqn:He; [|by repeat split; auto].
  unfold consistent, in_flight in *.
  rewrite perform_alive, perform_dash, perform_pending. cbn [dash pending alive].
  rewrite submissions_app.
  destruct e; cbn [settled]; rewrite ?handler_submissions, ?Nat.add_0_r, ?Hal by done;
    cbn [handler]; cbn in He; rewrite ?Hal in He; cbn in He.
  - (* ClickTab *) cbn. by repeat split.
  - (* ClickUploadMode *) cbn. by repeat split.
  - (* ClickTextMode *) cbn. by repeat split.
  - (* ChangeFile *)
    apply andb_prop in He as [_ Hm%bool_decide_eq_true].
    unfold handleFileSelect. destruct files as [|file ?]; [cbn; by repeat split|].
    destruct (Js.endsWith _ _); cbn; [|by repeat split].
    repeat split; [done|done|done|]. by rewrite Hm.
  - (* ChangeText *)
    apply andb_prop in He as [_ Hm%bool_decide_eq_true].
    cbn. repeat split; [done|done| |done]. by rewrite Hm.
  - (* ChoosePrompt *) cbn. by repeat split.
  - (* ChooseModel *) cbn. by repeat split.
  - (* SubmitForm *)
    apply andb_prop in He as [_ Hd%negb_true_iff].
    destruct (handleAnalyzeDocument_accepted (dash w) Hd) as [r ->].
    assert (analyzing (dash w) = false) as Ha.
    { unfold analyze_btn_disabled in Hd.
      by apply orb_false_elim in Hd as [[? _]%orb_false_elim _]. }
    rewrite Ha in Hfl. cbn. rewrite Hfl. by repeat split.
  - (* PromptsChanged *) cbn. by repeat split.
  - (* Unmount *) cbn. by repeat split.
  - (* PromptsSettled *)
    apply bool_decide_eq_true in He.
    rewrite (submissions_delete_other _ _ _ He) by done.
    destruct o; cbn; by repeat split.
  - (* AnalysesSettled *)
    apply bool_decide_eq_true in He.
    rewrite (submissions_delete_other _ _ _ He) by done.
    destruct o; cbn; by repeat split.
  - (* AnalyzeSettled *)
    apply bool_decide_eq_true in He.
    pose proof (submissions_delete _ _ He) as Hdel.
    assert (submissions (delete i (pending w)) = 0 ∧ analyzing (dash w) = true)
      as [-> Ha].
    { destruct (analyzing (dash w)); clear -Hfl Hdel; split; [lia|done|lia|lia]. }
    destruct o; [rewrite resume_resolved | rewrite resume_rejected];
      cbn; repeat split; auto.
Qed.

Lemma consistent_run (es : list Event) (w : World) :
  consistent w → consistent (run w es).
Proof.
  revert w. induction es as [|e es IH]; intros w Hw; [done|].
  apply IH. by apply consistent_step.
Qed.

(** ** Selecting a file *)

(** C8.  [handleFileSelect] rejects a file whose name does not end in
    [.pdf] (case-insensitively): the state is unchanged and the error notice
    is raised.  A file whose name ends in [.pdf] becomes [selectedFile],
    whatever was selected before, and nothing else changes. *)
Theorem handleFileSelect_pdf_only (file : File.t) (others : list File.t) (s : State) :
  (¬ Spec.ends_in_pdf (File.name file) →
     exec (handleFileSelect (file :: others)) s
     = (s, [ToastError "Please select a PDF file"]))
  ∧ (Spec.ends_in_pdf (File.name file) →
     exec (handleFileSelect (file :: others)) s
     = ({| activeTab := activeTab s; prompts := prompts s; analyses := analyses s;
           selectedFile := Some file; analysisForm := analysisForm s;
           analyzing := analyzing s; inputMode := inputMode s;
           textInput := textInput s |}, [])).
Proof.
  unfold handleFileSelect. rewrite <- pdf_test_iff.
  destruct (Js.endsWith _ _); split; intros Hp; done.
Qed.

(** ** Submitting *)

(** C6.  When the validation precondition fails -- no prompt selected, or
    upload mode without a file, or text mode with a body that is empty once
    trimmed -- [handleAnalyzeDocument] returns after raising a validation
    notice: the state is unchanged and no request is issued.  The submit
    button is disabled in these states, so a submit event leaves the
    component as it is. *)
Theorem submit_rejected_when_invalid (s : State) :
  Spec.invalid s →
  (exec handleAnalyzeDocument s).1 = s
  ∧ requests (exec handleAnalyzeDocument s).2 = []
  ∧ (∃ msg, (exec handleAnalyzeDocument s).2 = [ToastError msg])
  ∧ (∀ w, dash w = s → step w SubmitForm = w).
Proof.
  intros Hinv.
  assert (∃ msg, exec handleAnalyzeDocument s = (s, [ToastError msg])) as [msg Hexec].
  { unfold handleAnalyzeDocument. act_unfold.
    destruct Hinv as [Hp | [[Hm Hf] | [Hm Ht]]].
    - rewrite Hp. destruct (inputMode s); cbn; rewrite ?orb_true_r; cbn; eauto.
    - rewrite Hm, Hf. cbn. eauto.
    - rewrite Hm, Ht. cbn. eauto. }
  rewrite Hexec. repeat split; eauto.
  intros w <-. apply step_disabled. cbn.
  rewrite invalid_disabled by done. by rewrite andb_false_r.
Qed.

(** C9.  An accepted submission issues one request, built by mode.  In
    upload mode: a POST to [/documents/analyze] with a multipart body of two
    fields, [file] holding the selected file and [analysis_data] holding the
    JSON text of [{prompt_id, ai_model}], which reads back as that
    object.  In text mode: a POST to
    [/documents/analyze-text] with the JSON body
    [{prompt_id, ai_model, text_content, document_name}], where
    [text_content] is the stored text and [document_name] is "Text Input". *)
Theorem submit_payload_by_mode (s : State) :
  AnalysisForm.prompt_id (analysisForm s) ≠ "" →
  (∀ file, inputMode s = upload → selectedFile s = Some file →
     requests (exec handleAnalyzeDocument s).2
     = [{| method := POST;
           url := API +:+ "/documents/analyze";
           body := FormData
             [("file", FormFile file);
              ("analysis_data",
               FormString (JSON.stringify
                 [("prompt_id", AnalysisForm.prompt_id (analysisForm s));
                  ("ai_model", AnalysisForm.ai_model (analysisForm s))]))];
           headers := [("Content-Type", "multipart/form-data")] |}])
  ∧ JSON.parse (JSON.stringify
      [("prompt_id", AnalysisForm.prompt_id (analysisForm s));
       ("ai_model", AnalysisForm.ai_model (analysisForm s))])
    = Some [("prompt_id", AnalysisForm.prompt_id (analysisForm s));
            ("ai_model", AnalysisForm.ai_model (analysisForm s))]
  ∧ (inputMode s = text → Js.trim (textInput s) ≠ "" →
     requests (exec handleAnalyzeDocument s).2
     = [{| method := POST;
           url := API +:+ "/documents/analyze-text";
           body := JsonBody
             [("prompt_id", AnalysisForm.prompt_id (analysisForm s));
              ("ai_model", AnalysisForm.ai_model (analysisForm s));
              ("text_content", textInput s);
              ("document_name", "Text Input")];
           headers := [("Content-Type", "application/json")] |}]).
Proof.
  intros Hp. unfold handleAnalyzeDocument. act_unfold.
  destruct (Js.truthy (AnalysisForm.prompt_id (analysisForm s))) eqn:Hpt;
    [|by apply truthy_false_iff in Hpt].
  split; [|split].
  - intros file Hm Hf. rewrite Hm, Hf. reflexivity.
  - apply parse_stringify.
  - intros Hm Ht. rewrite Hm.
    destruct (Js.truthy (Js.trim (textInput s))) eqn:Htt;
      [|by apply truthy_false_iff in Htt].
    reflexivity.
Qed.

(** C1.  In every state the dashboard can reach, at most one submission is
    in flight.  While [analyzing] is set the submit button is disabled, so
    a second submit leaves the component untouched: no state change, no
    effect, no request.  Two submits in a row, the first one accepted,
    issue exactly one request. *)
Theorem one_submission_in_flight (es : list Event) :
  let w := run mounted es in
  in_flight w ≤ 1
  ∧ (analyzing (dash w) = true → step w SubmitForm = w)
  ∧ (enabled SubmitForm w = true →
       analyzing (dash (step w SubmitForm)) = true
       ∧ step (step w SubmitForm) SubmitForm = step w SubmitForm
       ∧ ∃ r, requests (effects (run w [SubmitForm; SubmitForm]))
              = requests (effects w) ++ [r]).
Proof.
  intros w. split; [|split].
  - by destruct (consistent_run es mounted consistent_mounted) as [Hle _].
  - apply submit_while_analyzing.
  - intros He.
    assert (alive w = true ∧ analyze_btn_disabled (dash w) = false) as [Hal Hd].
    { cbn in He. apply andb_prop in He as [[? _]%andb_prop ?%negb_true_iff]. done. }
    destruct (handleAnalyzeDocument_accepted (dash w) Hd) as [r Hr].
    assert (step w SubmitForm
            = {| dash := (exec handleAnalyzeDocument (dash w)).1; alive := true;
                 pending := pending w ++ [AwaitAnalyze];
                 effects := effects w ++ [Axios r AwaitAnalyze] |}) as Hstep.
    { rewrite step_enabled by done. unfold perform.
      cbn [handler dash alive pending effects settled].
      rewrite Hr, Hal. reflexivity. }
    assert (analyzing (dash (step w SubmitForm)) = true) as Ha.
    { rewrite Hstep, Hr. reflexivity. }
    split; [done|]. split; [by apply submit_while_analyzing|].
    exists r. cbn. rewrite submit_while_analyzing by done.
    rewrite Hstep. cbn. by rewrite requests_app.
Qed.

(** C10.  When the request of a submission is rejected, the continuation of
    [handleAnalyzeDocument] keeps the selected file, the text, the prompt
    and model selection and the mode as they are, raises one error notice
    -- the server's [detail] when the error carries a non-empty one, the
    text "Analysis failed" otherwise -- and sets [analyzing] to false.  For
    the mounted component: once the rejection is delivered the component is
    no longer analyzing and the request is no longer in flight. *)
Theorem failed_submit_keeps_request (error : AxiosError) (s : State) :
  let s' := (exec (handleAnalyzeDocument_resume (Rejected error)) s).1 in
  let es := (exec (handleAnalyzeDocument_resume (Rejected error)) s).2 in
  (selectedFile s' = selectedFile s ∧ textInput s' = textInput s
   ∧ analysisForm s' = analysisForm s ∧ inputMode s' = inputMode s)
  ∧ (∀ d, detail error = Some d → d ≠ "" → es = [ToastError d])
  ∧ (detail error = None ∨ detail error = Some "" → es = [ToastError "Analysis failed"])
  ∧ analyzing s' = false
  ∧ (∀ w i, dash w = s → alive w = true → pending w !! i = Some AwaitAnalyze →
       let w' := step w (AnalyzeSettled i (Rejected error)) in
       analyzing (dash w') = false
       ∧ in_flight w' + 1 = in_flight w
       ∧ selectedFile (dash w') = selectedFile s
       ∧ textInput (dash w') = textInput s).
Proof.
  rewrite resume_rejected. cbn -[Js.or_else].
  split; [done|]. split; [|split; [|split; [done|]]].
  - intros d -> Hd. destruct d; done.
  - by intros [-> | ->].
  - intros w i Hs Hal Hi. rewrite step_analyze_settled by done.
    unfold in_flight. rewrite perform_dash, perform_pending, resume_rejected.
    cbn. rewrite Hal, app_nil_r, Hs. repeat split.
    by apply submissions_delete.
Qed.

(** C2 (amended).  When the request of a submission resolves, the
    continuation of [handleAnalyzeDocument] raises the success notice,
    clears the selected file and the text, puts the prompt/model selection
    back to its initial value (no prompt, model gpt-5), asks the server for
    the list of analyses, shows the history tab and sets [analyzing] to
    false.  The input mode, the prompts and the history are left as they
    are: the returned analysis is not added to the history.  The history is
    replaced by the server's list when that reload resolves, and stays as
    it is, with an error notice, when the reload is rejected. *)
Theorem successful_submit_resets_form (r : Analysis.t) (s : State) :
  exec (handleAnalyzeDocument_resume (Resolved r)) s
  = ({| activeTab := analyses_tab; prompts := prompts s; analyses := analyses s;
        selectedFile := None;
        analysisForm := {| AnalysisForm.prompt_id := ""; AnalysisForm.ai_model := "gpt-5" |};
        analyzing := false; inputMode := inputMode s; textInput := "" |},
     [ToastSuccess "Content analyzed successfully!";
      Axios {| method := GET; url := API +:+ "/documents/analyses";
               body := NoBody; headers := [] |} AwaitAnalyses])
  ∧ (∀ l s', exec (loadAnalyses_resume (Resolved l)) s'
       = ({| activeTab := activeTab s'; prompts := prompts s'; analyses := l;
             selectedFile := selectedFile s'; analysisForm := analysisForm s';
             analyzing := analyzing s'; inputMode := inputMode s';
             textInput := textInput s' |}, []))
  ∧ (∀ error s', exec (loadAnalyses_resume (Rejected error)) s'
       = (s', [ToastError "Failed to load analyses"])).
Proof. repeat split. Qed.

(** C5 (amended).  The code has no check for stale responses.  When the
    request of a submission settles, the continuation of
    [handleAnalyzeDocument] runs whatever the state of the component is: it
    does not read [analyzing], it always shows a notice and it always ends
    with [analyzing] false.  While the dashboard is mounted a response can
    only arrive while [analyzing] is still set, because the submission it
    answers is the only one in flight.  Once the dashboard is unmounted the
    response of a submission still in flight is handled all the same: the
    notice is shown, only the state setters have no effect. *)
Theorem response_always_applied (o : Outcome Analysis.t) (s : State) :
  (∀ b, exec (handleAnalyzeDocument_resume o) (exec (setAnalyzing b) s).1
        = exec (handleAnalyzeDocument_resume o) s)
  ∧ toasts (exec (handleAnalyzeDocument_resume o) s).2 ≠ []
  ∧ analyzing (exec (handleAnalyzeDocument_resume o) s).1 = false
  ∧ (∀ es i, let w := run mounted es in
       alive w = true → enabled (AnalyzeSettled i o) w = true →
       analyzing (dash w) = true ∧ in_flight w = 1)
  ∧ (∀ w i, alive w = false → pending w !! i = Some AwaitAnalyze →
       let w' := step w (AnalyzeSettled i o) in
       dash w' = dash w
       ∧ toasts (effects w') ≠ toasts (effects w)).
Proof.
  split; [|split; [|split; [|split]]].
  - intros b. by destruct o.
  - by destruct o.
  - by destruct o.
  - intros es i w Hal He.
    destruct (consistent_run es mounted consistent_mounted) as (_ & Hfl & _).
    fold w in Hfl. specialize (Hfl Hal). cbn in He. apply bool_decide_eq_true in He.
    pose proof (submissions_delete _ _ He) as Hdel. fold (in_flight w) in Hdel.
    destruct (analyzing (dash w)); [done|]. clear -Hfl Hdel. lia.
  - intros w i Hal Hi w'. subst w'. rewrite step_analyze_settled by done.
    rewrite perform_dash, perform_effects. cbn [dash alive effects]. rewrite Hal.
    split; [done|]. rewrite toasts_app.
    intros Heq. apply (f_equal length) in Heq. rewrite length_app in Heq.
    assert (length (toasts (exec (handleAnalyzeDocument_resume o) (dash w)).2) = 1) as Hone
      by (by destruct o).
    clear -Heq Hone. lia.
Qed.

(** ** Where the guards live *)

(** [handleAnalyzeDocument] does not read [analyzing]: called on a state
    that is already analyzing it would issue the same request again.  The
    guard against a second submission is the [disabled] attribute of the
    submit button. *)
Remark handleAnalyzeDocument_ignores_analyzing (b : bool) (s : State) :
  requests (exec handleAnalyzeDocument (exec (setAnalyzing b) s).1).2
  = requests (exec handleAnalyzeDocument s).2.
Proof.
  unfold handleAnalyzeDocument, setAnalyzing. act_unfold. cbn.
  destruct (bool_decide (inputMode s = upload) && _); [done|].
  destruct (bool_decide (inputMode s = text) && _); [done|].
  by destruct (bool_decide (inputMode s = upload)).
Qed.

(** Neither of the two input handlers clears the other input: choosing a
    file keeps the text and typing keeps the file.  File and text exclude
    each other because only one of the two inputs is rendered at a time. *)
Remark inputs_do_not_clear_each_other (files : list File.t) (value : string) (s : State) :
  textInput (exec (handleFileSelect files) s).1 = textInput s
  ∧ selectedFile (exec (setTextInput value) s).1 = selectedFile s.
Proof.
  split; [|done]. unfold handleFileSelect.
  destruct files as [|file ?]; [done|]. by destruct (Js.endsWith _ _).
Qed.

(** ** File and text *)

(** C7.  In every state the dashboard can reach -- whatever files were
    chosen, whatever text was typed, however often the mode was switched --
    the selected file and the text are not both non-empty: the file input
    exists only in upload mode, the textarea only in text mode.  The click
    handler of a mode button sets that mode and clears both the file and
    the text, whatever the state, and changes nothing else; that is the
    state of the component right after the click. *)
Theorem file_and_text_exclusive (es : list Event) (s : State) :
  let w := run mounted es in
  (selectedFile (dash w) = None ∨ textInput (dash w) = "")
  ∧ exec clickUploadMode s
    = ({| activeTab := activeTab s; prompts := prompts s; analyses := analyses s;
          selectedFile := None; analysisForm := analysisForm s;
          analyzing := analyzing s; inputMode := upload; textInput := "" |}, [])
  ∧ exec clickTextMode s
    = ({| activeTab := activeTab s; prompts := prompts s; analyses := analyses s;
          selectedFile := None; analysisForm := analysisForm s;
          analyzing := analyzing s; inputMode := text; textInput := "" |}, [])
  ∧ (enabled ClickUploadMode w = true →
       dash (step w ClickUploadMode) = (exec clickUploadMode (dash w)).1)
  ∧ (enabled ClickTextMode w = true →
       dash (step w ClickTextMode) = (exec clickTextMode (dash w)).1).
Proof.
  intros w. split; [|split; [done|split; [done|split]]].
  - destruct (consistent_run es mounted consistent_mounted) as (_ & _ & Hup & Htx).
    fold w in Hup, Htx. destruct (inputMode (dash w)); auto.
  - intros He. rewrite step_enabled by done.
    cbn in He. apply andb_prop in He as [Hal _].
    rewrite perform_dash. cbn. by rewrite Hal.
  - intros He. rewrite step_enabled by done.
    cbn in He. apply andb_prop in He as [Hal _].
    rewrite perform_dash. cbn. by rewrite Hal.
Qed.

End Analysis.

(** ** The claims on examples *)

Lemma handleFileSelect_pdf_only_witness :
  exec (Dashboard.handleFileSelect [Demo.notes_txt]) Dashboard.initial
  = (Dashboard.initial, [ToastError "Please select a PDF file"])
  ∧ Dashboard.selectedFile
      (exec (Dashboard.handleFileSelect [Demo.Report_PDF]) Dashboard.initial).1
    = Some Demo.Report_PDF.
Proof.
  split.
  - apply (handleFileSelect_pdf_only Demo.notes_txt [] Dashboard.initial).
    rewrite <- pdf_test_iff. vm_compute. discriminate.
  - destruct (handleFileSelect_pdf_only Demo.Report_PDF [] Dashboard.initial) as [_ Hyes].
    rewrite Hyes; [reflexivity|].
    apply pdf_test_iff. reflexivity.
Defined.

Lemma submit_rejected_when_invalid_witness :
  Spec.invalid Demo.text_blank
  ∧ (exec (@Dashboard.handleAnalyzeDocument Demo.env) Demo.text_blank).1 = Demo.text_blank
  ∧ requests (exec (@Dashboard.handleAnalyzeDocument Demo.env) Demo.text_blank).2 = [].
Proof.
  assert (Spec.invalid Demo.text_blank) as Hinv.
  { right; right. split; reflexivity. }
  split; [exact Hinv|].
  destruct (@submit_rejected_when_invalid Demo.env Demo.text_blank Hinv)
    as (Hstate & Hreq & _).
  split; assumption.
Defined.

Lemma submit_payload_by_mode_witness :
  requests (exec (@Dashboard.handleAnalyzeDocument Demo.env) Demo.upload_ready).2
  = [{| method := POST;
        url := "https://docwise.test/api/documents/analyze";
        body := FormData
          [("file", FormFile Demo.report_pdf);
           ("analysis_data",
            FormString (JSON.stringify [("prompt_id", "p1"); ("ai_model", "gpt-5")]))];
        headers := [("Content-Type", "multipart/form-data")] |}]
  ∧ requests (exec (@Dashboard.handleAnalyzeDocument Demo.env) Demo.text_ready).2
  = [{| method := POST;
        url := "https://docwise.test/api/documents/analyze-text";
        body := JsonBody
          [("prompt_id", "p1"); ("ai_model", "claude-4");
           ("text_content", "Quarterly revenue rose.");
           ("document_name", "Text Input")];
        headers := [("Content-Type", "application/json")] |}].
Proof.
  destruct (@submit_payload_by_mode Demo.env Demo.upload_ready) as (Hupload & _ & _);
    [discriminate|].
  destruct (@submit_payload_by_mode Demo.env Demo.text_ready) as (_ & _ & Htext);
    [discriminate|].
  split.
  - apply Hupload; reflexivity.
  - apply Htext; [reflexivity|]. vm_compute. discriminate.
Defined.

Lemma one_submission_in_flight_witness :
  @Dashboard.step Demo.env
    (@Dashboard.run Demo.env (@Dashboard.mounted Demo.env) Demo.submitted)
    Dashboard.SubmitForm
  = @Dashboard.run Demo.env (@Dashboard.mounted Demo.env) Demo.submitted
  ∧ Dashboard.analyzing
      (Dashboard.dash
         (@Dashboard.step Demo.env
            (@Dashboard.run Demo.env (@Dashboard.mounted Demo.env) Demo.to_upload_ready)
            Dashboard.SubmitForm))
    = true.
Proof.
  destruct (@one_submission_in_flight Demo.env Demo.submitted) as (_ & Hreject & _).
  destruct (@one_submission_in_flight Demo.env Demo.to_upload_ready) as (_ & _ & Haccept).
  split.
  - apply Hreject. reflexivity.
  - apply Haccept. reflexivity.
Defined.

Lemma failed_submit_keeps_request_witness :
  (exec (@Dashboard.handleAnalyzeDocument_resume Demo.env
           (Rejected {| response := Some (Some (Some "Unsupported PDF")) |}))
        Demo.upload_ready).2
  = [ToastError "Unsupported PDF"]
  ∧ (exec (@Dashboard.handleAnalyzeDocument_resume Demo.env
             (Rejected {| response := None |}))
          Demo.upload_ready).2
    = [ToastError "Analysis failed"]
  ∧ Dashboard.analyzing
      (Dashboard.dash
         (@Dashboard.step Demo.env
            (@Dashboard.run Demo.env (@Dashboard.mounted Demo.env) Demo.submitted)
            (Dashboard.AnalyzeSettled 0 (Rejected {| response := None |}))))
    = false.
Proof.
  destruct (@failed_submit_keeps_request Demo.env
              {| response := Some (Some (Some "Unsupported PDF")) |} Demo.upload_ready)
    as (_ & Hdetail & _).
  destruct (@failed_submit_keeps_request Demo.env {| response := None |} Demo.upload_ready)
    as (_ & _ & Hfallback & _).
  destruct (@failed_submit_keeps_request Demo.env {| response := None |}
              (Dashboard.dash
                 (@Dashboard.run Demo.env (@Dashboard.mounted Demo.env) Demo.submitted)))
    as (_ & _ & _ & _ & Hsettled).
  split; [|split].
  - apply Hdetail; [reflexivity | discriminate].
  - apply Hfallback. left. reflexivity.
  - apply (Hsettled (@Dashboard.run Demo.env (@Dashboard.mounted Demo.env) Demo.submitted) 0);
      reflexivity.
Defined.

Lemma file_and_text_exclusive_witness :
  Dashboard.textInput
    (Dashboard.dash
       (@Dashboard.step Demo.env
          (@Dashboard.run Demo.env (@Dashboard.mounted Demo.env) Demo.mode_switching)
          Dashboard.ClickUploadMode))
  = ""
  ∧ Dashboard.selectedFile
      (Dashboard.dash
         (@Dashboard.step Demo.env
            (@Dashboard.run Demo.env (@Dashboard.mounted Demo.env) Demo.to_upload_ready)
            Dashboard.ClickTextMode))
    = None.
Proof.
  destruct (@file_and_text_exclusive Demo.env Demo.mode_switching Dashboard.initial)
    as (_ & _ & _ & Hup & _).
  destruct (@file_and_text_exclusive Demo.env Demo.to_upload_ready Dashboard.initial)
    as (_ & _ & _ & _ & Htx).
  split.
  - rewrite Hup; reflexivity.
  - rewrite Htx; reflexivity.
Defined.

(** C2 (as stated, it fails).  The scenario of the specification: upload
    mode, report.pdf, prompt p1, model gpt-5; the server answers with the
    analysis a1.  After the response the history is still empty and the
    prompt selection is gone. *)
Lemma success_not_as_specified :
  ¬ Spec.success_as_specified Demo.upload_ready Demo.a1
      (exec (@Dashboard.handleAnalyzeDocument_resume Demo.env (Resolved Demo.a1))
            Demo.upload_ready).1.
Proof. intros (_ & _ & _ & _ & Hform). discriminate Hform. Qed.

(** C5 (as stated, it fails).  A dashboard that is not analyzing handles
    the response of a submission: the response is not discarded.  And in
    a run of the page: the dashboard is unmounted while its submission is
    in flight, the response arrives afterwards and the success notice is
    shown. *)
Lemma late_response_not_discarded :
  (Dashboard.analyzing Demo.text_ready = false
   ∧ ¬ Spec.discarded Demo.text_ready
         (exec (@Dashboard.handleAnalyzeDocument_resume Demo.env (Resolved Demo.a1))
               Demo.text_ready))
  ∧ (Dashboard.alive
       (@Dashboard.run Demo.env (@Dashboard.mounted Demo.env) Demo.unmounted_in_flight)
     = false
     ∧ toasts (Dashboard.effects
         (@Dashboard.run Demo.env (@Dashboard.mounted Demo.env)
            (Demo.unmounted_in_flight
               ++ [Dashboard.AnalyzeSettled 0 (Resolved Demo.a1)])))
       = [ToastSuccess "Content analyzed successfully!"]).
Proof.
  split; [split; [reflexivity|] | split; reflexivity].
  intros [_ Ht]. discriminate Ht.
Qed.

Lemma response_always_applied_witness :
  toasts (Dashboard.effects
    (@Dashboard.step Demo.env
       (@Dashboard.run Demo.env (@Dashboard.mounted Demo.env) Demo.unmounted_in_flight)
       (Dashboard.AnalyzeSettled 0 (Resolved Demo.a1))))
  ≠ toasts (Dashboard.effects
      (@Dashboard.run Demo.env (@Dashboard.mounted Demo.env) Demo.unmounted_in_flight))
  ∧ Dashboard.analyzing
      (Dashboard.dash
         (@Dashboard.run Demo.env (@Dashboard.mounted Demo.env) Demo.submitted))
    = true.
Proof.
  destruct (@response_always_applied Demo.env (Resolved Demo.a1) Demo.upload_ready)
    as (_ & _ & _ & Hmounted & Hun).
  split.
  - apply (Hun (@Dashboard.run Demo.env (@Dashboard.mounted Demo.env)
                  Demo.unmounted_in_flight) 0); reflexivity.
  - apply (Hmounted Demo.submitted 0); reflexivity.
Defined.

(** * The session *)

Section Session.
Import App.
Context `{Env}.

(** What [handleLogout] leaves behind once its request has settled. *)
Lemma handleLogout_resume_exec (o : Outcome ()) (s : State) :
  exec (handleLogout_resume o) s
  = ({| user := None; loading := loading s; sessionToken := None;
        processing := processing s;
        cookies := expire "session_token" "/" (cookies s);
        common := delete "Authorization" (common s);
        hash := hash s; pathname := pathname s |},
     match o with
     | Resolved _ => []
     | Rejected _ => [ConsoleError "Logout error:"]
     end ++ [ToastSuccess "Successfully logged out!"]).
Proof. by destruct o. Qed.

(** Expiring a cookie at a path. *)
Lemma expire_lookup (name p : string) (jar : gmap string Cookie) (c : Cookie) :
  expire name p jar !! name = Some c ↔ jar !! name = Some c ∧ path c ≠ p.
Proof.
  unfold expire. destruct (jar !! name) as [c'|] eqn:Hc.
  - destruct (bool_decide_reflect (path c' = p)) as [Hp|Hp].
    + rewrite lookup_delete_eq. split; [done|]. intros [[= ->] ?]. done.
    + rewrite Hc. split; [by intros [= ->]|by intros [? _]].
  - rewrite Hc. split; [done|by intros [? _]].
Qed.

Lemma expire_lookup_ne (name p k : string) (jar : gmap string Cookie) :
  k ≠ name → expire name p jar !! k = jar !! k.
Proof.
  intros Hk. unfold expire. destruct (jar !! name) as [c|]; [|done].
  destruct (bool_decide (path c = p)); [|done]. by rewrite lookup_delete_ne.
Qed.

Lemma expire_expire (name p : string) (jar : gmap string Cookie) :
  expire name p (expire name p jar) = expire name p jar.
Proof.
  unfold expire at 2 3. destruct (jar !! name) as [c|] eqn:Hc.
  - destruct (bool_decide_reflect (path c = p)) as [Hp|Hp].
    + unfold expire. by rewrite lookup_delete_eq.
    + unfold expire. rewrite Hc. by rewrite bool_decide_eq_false_2.
  - unfold expire. by rewrite Hc.
Qed.

Lemma expire_insert (name p : string) (c : Cookie) (jar : gmap string Cookie) :
  path c = p → expire name p (<[name := c]> jar) = delete name jar.
Proof.
  intros Hp. unfold expire. rewrite lookup_insert_eq, bool_decide_eq_true_2 by done.
  apply delete_insert_eq.
Qed.

Lemma handleLogin_exec (userData : User.t) (token : option string) (s : State) :
  exec (handleLogin userData token) s
  = ({| user := Some userData; loading := loading s; sessionToken := token;
        processing := processing s;
        cookies := <["session_token" :=
                      {| value := Js.template token; path := "/"; secure := true;
                         samesite := Some "none"; max_age := Some 604800%N |}]> (cookies s);
        common := <["Authorization" := "Bearer " +:+ Js.template token]> (common s);
        hash := hash s; pathname := pathname s |},
     [ToastSuccess "Successfully logged in!"]).
Proof. reflexivity. Qed.

Lemma app_perform_page (a : Act State ()) (w : World) :
  page (perform a w) = (exec a (page w)).1.
Proof. unfold perform. by destruct (exec a (page w)). Qed.

Lemma app_perform_effects (a : Act State ()) (w : World) :
  effects (perform a w) = effects w ++ (exec a (page w)).2.
Proof. unfold perform. by destruct (exec a (page w)). Qed.

Lemma app_step_enabled (w : World) (e : Event) :
  enabled e w = true →
  step w e = perform (handler e)
               {| page := page w; pending := settled e (pending w); effects := effects w |}.
Proof. unfold step. by intros ->. Qed.

Lemma app_step_disabled (w : World) (e : Event) : enabled e w = false → step w e = w.
Proof. unfold step. by intros ->. Qed.

Lemma click_logout_step (w : World) :
  enabled ClickLogout w = true →
  step w ClickLogout
  = {| page := page w; pending := pending w ++ [AwaitLogout];
       effects := effects w
         ++ [Axios {| method := POST; url := API +:+ "/auth/logout";
                      body := NoBody; headers := [] |} AwaitLogout] |}.
Proof. intros He. by rewrite app_step_enabled. Qed.

(** C3 (amended).  Every click on the logout button issues its own POST to
    [/auth/logout]; the button stays in place until the first request has
    settled, so two quick clicks issue two requests.  When a logout request
    settles, resolved or rejected, in whatever state the page is then: the
    user, the session token and the default Authorization header are
    cleared, the session_token cookie at the path [/] is removed (one at
    another path and every other cookie stay as they are), no error notice
    is shown, and the logout button is gone.  A second settlement right
    after the first changes nothing more; one that arrives after a new
    login clears that login as well.  Once the user is cleared the
    dashboard and its logout button are not rendered, and a click has no
    effect. *)
Theorem logout_clears_session (w : World) (o : Outcome ()) :
  (enabled ClickLogout w = true →
     requests (effects (step w ClickLogout))
     = requests (effects w)
       ++ [{| method := POST; url := API +:+ "/auth/logout";
              body := NoBody; headers := [] |}]
     ∧ enabled ClickLogout (step w ClickLogout) = true)
  ∧ (∀ i, pending w !! i = Some AwaitLogout →
       let w' := step w (LogoutSettled i o) in
       user (page w') = None
       ∧ sessionToken (page w') = None
       ∧ (∀ c, cookies (page w') !! "session_token" = Some c
               ↔ cookies (page w) !! "session_token" = Some c ∧ path c ≠ "/")
       ∧ (∀ k, k ≠ "session_token" → cookies (page w') !! k = cookies (page w) !! k)
       ∧ common (page w') !! "Authorization" = None
       ∧ toasts (exec (handleLogout_resume o) (page w)).2
         = [ToastSuccess "Successfully logged out!"]
       ∧ step w' ClickLogout = w')
  ∧ (∀ o' s, (exec (handleLogout_resume o') (exec (handleLogout_resume o) s).1).1
             = (exec (handleLogout_resume o) s).1)
  ∧ (∀ i u t, pending w !! i = Some AwaitLogout →
       enabled (OnLogin u t) w = true →
       let w1 := step w (OnLogin u t) in
       let w2 := step w1 (LogoutSettled i o) in
       user (page w1) = Some u
       ∧ common (page w1) !! "Authorization" = Some ("Bearer " +:+ Js.template t)
       ∧ user (page w2) = None
       ∧ sessionToken (page w2) = None
       ∧ common (page w2) !! "Authorization" = None)
  ∧ (user (page w) = None → step w ClickLogout = w).
Proof.
  assert (∀ w0 i, pending w0 !! i = Some AwaitLogout →
            page (step w0 (LogoutSettled i o))
            = (exec (handleLogout_resume o) (page w0)).1) as Hsettle.
  { intros w0 i Hi. rewrite app_step_enabled by (cbn; by apply bool_decide_eq_true).
    by rewrite app_perform_page. }
  split; [|split; [|split; [|split]]].
  - intros He. rewrite click_logout_step by done. cbn. split; [|done].
    by rewrite requests_app.
  - intros i Hi w'. subst w'.
    rewrite (Hsettle w i Hi), handleLogout_resume_exec.
    cbn [fst user sessionToken cookies common].
    split; [done|]. split; [done|]. split; [intros c; apply expire_lookup|].
    split; [intros k Hk; by apply expire_lookup_ne|].
    split; [apply lookup_delete_eq|]. split; [by destruct o|].
    apply app_step_disabled. cbn. unfold dashboard_rendered.
    rewrite (Hsettle w i Hi), handleLogout_resume_exec. cbn. by rewrite andb_false_r.
  - intros o' s. rewrite !handleLogout_resume_exec. cbn.
    by rewrite expire_expire, delete_delete_eq.
  - intros i u t Hi He w1 w2.
    assert (page w1 = (exec (handleLogin u t) (page w)).1
            ∧ pending w1 = pending w) as [Hpage1 Hpending1].
    { subst w1. rewrite app_step_enabled by done. unfold perform.
      cbn [handler settled page pending]. rewrite handleLogin_exec. cbn.
      by rewrite app_nil_r. }
    subst w2. rewrite Hsettle by by rewrite Hpending1.
    rewrite Hpage1, handleLogin_exec, handleLogout_resume_exec.
    cbn [fst user sessionToken cookies common].
    split; [done|]. split; [apply lookup_insert_eq|].
    split; [done|]. split; [done|]. apply lookup_delete_eq.
  - intros Hu. apply app_step_disabled. cbn. unfold dashboard_rendered.
    rewrite Hu. cbn. by rewrite andb_false_r.
Qed.

Lemma processSessionId_resume_me_exec (u : User.t) (s : State) :
  exec (processSessionId_resume_me (Resolved u)) s
  = ({| user := Some u; loading := loading s; sessionToken := None;
        processing := false;
        cookies := <["session_token" :=
                      {| value := "null"; path := "/"; secure := true;
                         samesite := Some "none"; max_age := Some 604800%N |}]> (cookies s);
        common := <["Authorization" := "Bearer null"]> (common s);
        hash := hash s; pathname := pathname s |},
     [ToastSuccess "Successfully logged in!"]).
Proof. reflexivity. Qed.

(** C4.  When the fragment holds no session_id, [processSessionId] asks
    [/auth/me] who the user is.  When that request resolves it calls
    [onLogin(response.data, null)], and [handleLogin] writes its token
    argument without looking at it: the user is set and the session token is
    null, but the default Authorization header becomes "Bearer null" and a
    session_token cookie with the value "null" is stored.
    [checkExistingSession], the probe made when the page loads, sets the
    user and leaves header and cookies alone. *)
Theorem callback_without_session_id (s : State) (u : User.t) :
  ¬ Spec.has_session_id (hash s) →
  exec processSessionId s
  = (s, [Axios {| method := GET; url := API +:+ "/auth/me";
                  body := NoBody; headers := [] |} AwaitMe])
  ∧ (let s' := (exec (processSessionId_resume_me (Resolved u)) s).1 in
     user s' = Some u
     ∧ sessionToken s' = None
     ∧ common s' !! "Authorization" = Some "Bearer null"
     ∧ value <$> cookies s' !! "session_token" = Some "null")
  ∧ (let s' := (exec (checkExistingSession_resume (Resolved u)) s).1 in
     user s' = Some u
     ∧ sessionToken s' = sessionToken s
     ∧ common s' = common s
     ∧ cookies s' = cookies s).
Proof.
  intros Hm%match_session_id_None. split; [|split].
  - unfold processSessionId. act_unfold. by rewrite Hm.
  - rewrite processSessionId_resume_me_exec.
    cbn [fst user sessionToken common cookies]. repeat split.
    + apply lookup_insert_eq.
    + by rewrite lookup_insert_eq.
  - done.
Qed.

End Session.

(** C3 (as stated, it fails).  A user logs in and clicks the logout button
    twice before the first logout request has settled: two requests are
    issued. *)
Lemma logout_twice_two_calls :
  ¬ @Spec.logout_twice_one_call Demo.env
      (@App.run Demo.env (@App.mounted Demo.env ∅ "/" "") Demo.logged_in).
Proof. intros [r Hr]. vm_compute in Hr. discriminate Hr. Qed.

(** Two clicks on the logout button, the first request settles, the user
    logs in again, the second request settles. *)
Lemma logout_clears_session_witness :
  App.user (App.page
    (@App.run Demo.env (@App.mounted Demo.env ∅ "/" "")
       (Demo.logged_in ++ [App.ClickLogout; App.LogoutSettled 0 (Resolved ())])))
  = None
  ∧ length (requests (App.effects
      (@App.run Demo.env (@App.mounted Demo.env ∅ "/" "")
         (Demo.logged_in ++ [App.ClickLogout])))) = 2
  ∧ App.user (App.page
      (@App.step Demo.env
         (@App.step Demo.env
            (@App.run Demo.env (@App.mounted Demo.env ∅ "/" "")
               (Demo.logged_in
                  ++ [App.ClickLogout; App.ClickLogout;
                      App.LogoutSettled 0 (Resolved ())]))
            (App.OnLogin Demo.u1 (Some "tok2")))
         (App.LogoutSettled 0 (Resolved ()))))
    = None
  ∧ @App.step Demo.env (@App.mounted Demo.env ∅ "/" "") App.ClickLogout
    = @App.mounted Demo.env ∅ "/" "".
Proof.
  pose (w := @App.run Demo.env (@App.mounted Demo.env ∅ "/" "") Demo.logged_in).
  destruct (@logout_clears_session Demo.env w (Resolved ())) as (Hclick & _).
  destruct (@logout_clears_session Demo.env (@App.step Demo.env w App.ClickLogout)
              (Resolved ())) as (_ & Hsettle & _).
  destruct (@logout_clears_session Demo.env
              (@App.run Demo.env (@App.mounted Demo.env ∅ "/" "")
                 (Demo.logged_in
                    ++ [App.ClickLogout; App.ClickLogout;
                        App.LogoutSettled 0 (Resolved ())]))
              (Resolved ())) as (_ & _ & _ & Hagain & _).
  destruct (@logout_clears_session Demo.env (@App.mounted Demo.env ∅ "/" "")
              (Resolved ())) as (_ & _ & _ & _ & Hnone).
  split; [|split; [|split]].
  - unfold App.run. rewrite foldl_app.
    apply (Hsettle 0). reflexivity.
  - unfold App.run. rewrite foldl_app.
    destruct (Hclick eq_refl) as [Hreq _].
    change (length (requests (App.effects (@App.step Demo.env w App.ClickLogout))) = 2).
    rewrite Hreq. reflexivity.
  - destruct (Hagain 0 Demo.u1 (Some "tok2")) as (_ & _ & Huser & _);
      [vm_compute; reflexivity..|].
    exact Huser.
  - apply Hnone. reflexivity.
Defined.

(** The page the identity provider did not redirect to: no fragment. *)
Lemma callback_without_session_id_witness :
  App.common
    (exec (App.processSessionId_resume_me (Resolved Demo.u1))
          (App.initial ∅ "/dashboard" "")).1 !! "Authorization"
  = Some "Bearer null"
  ∧ App.value <$>
      App.cookies
        (exec (App.processSessionId_resume_me (Resolved Demo.u1))
              (App.initial ∅ "/dashboard" "")).1 !! "session_token"
    = Some "null".
Proof.
  destruct (@callback_without_session_id Demo.env (App.initial ∅ "/dashboard" "") Demo.u1)
    as (_ & (_ & _ & Hheader & Hcookie) & _); [by apply match_session_id_None|].
  split; [exact Hheader | exact Hcookie].
Defined.


(** ** Two scenarios of the session *)

(** No cookie: the probe of the session fails and the visitor stays
    anonymous; a login that answers with the token tok1 sets the user, the
    cookie and the default header. *)
Example login_scenario :
  let w := @App.run Demo.env (@App.mounted Demo.env ∅ "/" "") Demo.logged_in in
  App.user (App.page w) = Some Demo.u1
  ∧ App.sessionToken (App.page w) = Some "tok1"
  ∧ App.value <$> App.cookies (App.page w) !! "session_token" = Some "tok1"
  ∧ App.common (App.page w) !! "Authorization" = Some "Bearer tok1".
Proof. vm_compute. repeat split. Qed.

(** The redirect of the identity provider: one exchange request carrying
    the session_id as a header; once it resolves the fragment is gone and
    the user is logged in with the token of the answer. *)
Example federated_login_scenario :
  let s := App.initial ∅ "/dashboard" "#session_id=abc123" in
  (exec (@App.processSessionId Demo.env) s).2
  = [Axios {| method := POST; url := "https://docwise.test/api/auth/session-data";
              body := JsonBody []; headers := [("X-Session-ID", "abc123")] |}
           AwaitSessionData]
  ∧ let s' := (exec (App.processSessionId_resume_exchange
                       (Resolved {| LoginData.user := Demo.u1;
                                    LoginData.session_token := Some "tok1" |})) s).1 in
    App.hash s' = ""
    ∧ App.user s' = Some Demo.u1
    ∧ App.common s' !! "Authorization" = Some "Bearer tok1".
Proof. vm_compute. repeat split. Qed.

(** * More about the analysis form *)

Section MoreAnalysis.
Import Dashboard.
Context `{Env}.

Lemma truthy_true_iff (s : string) : Js.truthy s = true ↔ s ≠ "".
Proof. by destruct s. Qed.

(** The validation of [handleAnalyzeDocument], as a boolean. *)
Lemma handleAnalyzeDocument_rejected (s : State) :
  Spec.invalid s →
  ∃ msg, exec handleAnalyzeDocument s = (s, [ToastError msg]).
Proof.
  intros Hinv. unfold handleAnalyzeDocument. act_unfold.
  destruct Hinv as [Hp | [[Hm Hf] | [Hm Ht]]].
  - rewrite Hp. destruct (inputMode s); cbn; rewrite ?orb_true_r; cbn; eauto.
  - rewrite Hm, Hf. cbn. eauto.
  - rewrite Hm, Ht. cbn. eauto.
Qed.

(** The submit button is enabled when the component is not analyzing and
    the validation passes. *)
Lemma valid_enabled (s : State) :
  ¬ Spec.invalid s → analyzing s = false → analyze_btn_disabled s = false.
Proof.
  intros Hv Ha. unfold analyze_btn_disabled. rewrite Ha.
  assert (Js.truthy (AnalysisForm.prompt_id (analysisForm s)) = true) as ->.
  { apply truthy_true_iff. intros Hp. apply Hv. by left. }
  destruct (inputMode s) eqn:Hm; cbn.
  - destruct (selectedFile s) eqn:Hf; [done|]. exfalso. apply Hv. right; left. done.
  - destruct (Js.truthy (Js.trim (textInput s))) eqn:Ht; [done|].
    exfalso. apply Hv. right; right. split; [done|]. by apply truthy_false_iff.
Qed.

(** No request means the validation failed, and conversely. *)
Lemma no_request_iff_invalid (s : State) :
  requests (exec handleAnalyzeDocument s).2 = [] ↔ Spec.invalid s.
Proof.
  split.
  - intros Hreq. apply dec_stable. intros Hv.
    (* the handler does not read [analyzing] *)
    rewrite <- (handleAnalyzeDocument_ignores_analyzing false) in Hreq.
    destruct (handleAnalyzeDocument_accepted (exec (setAnalyzing false) s).1) as [r Hr].
    { by apply valid_enabled. }
    rewrite Hr in Hreq. discriminate Hreq.
  - intros Hinv. by destruct (handleAnalyzeDocument_rejected s Hinv) as [msg ->].
Qed.

(** X1.  A submission is rejected exactly when the validation precondition
    fails: [handleAnalyzeDocument] issues no request if and only if no
    prompt is selected, or the mode is upload and no file is selected, or
    the mode is text and the text is empty once trimmed.  It never issues
    more than one request, and it either sets [analyzing] or leaves the
    state as it is. *)
Theorem submit_rejected_iff_invalid (s : State) :
  (requests (exec handleAnalyzeDocument s).2 = [] ↔ Spec.invalid s)
  ∧ length (requests (exec handleAnalyzeDocument s).2) ≤ 1
  ∧ (analyzing (exec handleAnalyzeDocument s).1 = true
     ∨ (exec handleAnalyzeDocument s).1 = s).
Proof.
  split; [apply no_request_iff_invalid|].
  destruct (decide (Spec.invalid s)) as [Hinv|Hv].
  - destruct (handleAnalyzeDocument_rejected s Hinv) as [msg ->].
    split; [simpl; lia|by right].
  - destruct (handleAnalyzeDocument_accepted (exec (setAnalyzing false) s).1) as [r Hr].
    { by apply valid_enabled. }
    assert (exec handleAnalyzeDocument s
            = ((exec (setAnalyzing true) s).1, [Axios r AwaitAnalyze])) as ->.
    { revert Hr. unfold handleAnalyzeDocument, setAnalyzing. act_unfold. cbn.
      destruct (bool_decide (inputMode s = upload) && _); [done|].
      destruct (bool_decide (inputMode s = text) && _); [done|].
      by destruct (bool_decide (inputMode s = upload)). }
    split; [simpl; lia|by left].
Qed.

(** X2.  The [disabled] attribute of the submit button and the validation
    inside [handleAnalyzeDocument] agree: the button is enabled exactly when
    the component is not analyzing and the handler would send a request. *)
Theorem button_agrees_with_validation (s : State) :
  analyze_btn_disabled s = false
  ↔ analyzing s = false ∧ requests (exec handleAnalyzeDocument s).2 ≠ [].
Proof.
  rewrite no_request_iff_invalid. split.
  - intros Hd. split.
    + unfold analyze_btn_disabled in Hd.
      by apply orb_false_elim in Hd as [[? _]%orb_false_elim _].
    + intros Hinv%invalid_disabled. congruence.
  - intros [Ha Hv]. by apply valid_enabled.
Qed.

(** X3.  In text mode with a prompt selected, a submission is rejected
    exactly when every code unit of the text is white space (tab, line
    feed, vertical tab, form feed, carriage return, space, no-break
    space); the empty text is the case of no code unit. *)
Theorem blank_text_rejected (s : State) :
  inputMode s = text →
  AnalysisForm.prompt_id (analysisForm s) ≠ "" →
  requests (exec handleAnalyzeDocument s).2 = []
  ↔ Js.all_white_space (textInput s) = true.
Proof.
  intros Hm Hp. rewrite no_request_iff_invalid, <- trim_empty_iff. split.
  - intros [?|[[? _]|[_ ?]]]; congruence.
  - intros Ht. right; right. done.
Qed.

(** ** Everything the dashboard sends *)

Lemma sound_mounted : Sent.sound mounted.
Proof.
  split; [done|]. split; [by left|].
  cbn. constructor; [left; by left|]. constructor; [left; by right|]. constructor.
Qed.

Lemma is_white_space_trim (t : string) :
  Js.trim t ≠ "" → Js.all_white_space t = false.
Proof.
  intros Ht. destruct (Js.all_white_space t) eqn:Hw; [|done].
  by apply trim_empty_iff in Hw.
Qed.

(** The request of an accepted submission is an upload or a text analysis
    as [Sent] describes them. *)
Lemma handleAnalyzeDocument_sends (s : State) (r : Request) :
  (∀ f, selectedFile s = Some f → Spec.ends_in_pdf (File.name f)) →
  AnalysisForm.ai_model (analysisForm s) ∈ models →
  r ∈ requests (exec handleAnalyzeDocument s).2 →
  Sent.upload r ∨ Sent.text r.
Proof.
  intros Hpdf Hmodel. unfold handleAnalyzeDocument. act_unfold.
  destruct (Js.truthy (AnalysisForm.prompt_id (analysisForm s))) eqn:Hp;
    [apply truthy_true_iff in Hp|by destruct (inputMode s); cbn; rewrite ?orb_true_r;
                                 cbn; intros ?%elem_of_nil].
  destruct (inputMode s) eqn:Hm; cbn.
  - destruct (selectedFile s) as [f|] eqn:Hf; cbn; [|by intros ?%elem_of_nil].
    intros ->%list_elem_of_singleton. left.
    exists f, (AnalysisForm.prompt_id (analysisForm s)),
      (AnalysisForm.ai_model (analysisForm s)). auto.
  - destruct (Js.truthy (Js.trim (textInput s))) eqn:Ht; cbn; [|by intros ?%elem_of_nil].
    apply truthy_true_iff in Ht.
    intros ->%list_elem_of_singleton. right.
    exists (textInput s), (AnalysisForm.prompt_id (analysisForm s)),
      (AnalysisForm.ai_model (analysisForm s)).
    split; [by apply is_white_space_trim|]. auto.
Qed.

Lemma sound_step (w : World) (e : Event) : Sent.sound w → Sent.sound (step w e).
Proof.
  intros (Hpdf & Hmodel & Hreq). unfold step.
  destruct (enabled e w) eqn:He; [|done].
  unfold Sent.sound. rewrite perform_dash, perform_effects, requests_app, Forall_app.
  cbn [dash alive effects].
  assert (∀ P : State → Prop, P (dash w) →
            (alive w = true → P (exec (handler e) (dash w)).1) →
            P (if match e with Unmount => false | _ => alive w end
               then (exec (handler e) (dash w)).1 else dash w)) as Hcase.
  { intros P H0 H1. destruct e, (alive w); auto. }
  assert (Forall Sent.known (requests (exec (handler e) (dash w)).2)
          ∧ (alive w = true →
               (∀ f, selectedFile (exec (handler e) (dash w)).1 = Some f →
                     Spec.ends_in_pdf (File.name f))
               ∧ AnalysisForm.ai_model (analysisForm (exec (handler e) (dash w)).1) ∈ models))
    as [Hsent Hstate].
  { destruct e; cbn [handler]; cbn in He.
    - (* ClickTab *) by split.
    - (* ClickUploadMode *) split; [done|]. intros _. by split.
    - (* ClickTextMode *) split; [done|]. intros _. by split.
    - (* ChangeFile *)
      unfold handleFileSelect. destruct files as [|file ?]; [by split|].
      destruct (Js.endsWith _ _) eqn:Hend; cbn; [|by split].
      split; [done|]. intros _. split; [|done].
      intros f [= <-]. by apply pdf_test_iff.
    - (* ChangeText *) by split.
    - (* ChoosePrompt *) by split.
    - (* ChooseModel *)
      split; [done|]. intros Hal. split; [done|]. cbn.
      rewrite Hal in He. by apply andb_prop in He as [_ ?%bool_decide_eq_true].
    - (* SubmitForm *)
      split.
      + apply Forall_forall. intros r Hr. right.
        by apply (handleAnalyzeDocument_sends (dash w)).
      + intros Hal. rewrite Hal in He.
        apply andb_prop in He as [_ Hd%negb_true_iff].
        destruct (handleAnalyzeDocument_accepted (dash w) Hd) as [r ->]. by split.
    - (* PromptsChanged *)
      split; [|done]. cbn. constructor; [left; by left|constructor].
    - (* Unmount *) by split.
    - (* PromptsSettled *) destruct o; by split.
    - (* AnalysesSettled *) destruct o; by split.
    - (* AnalyzeSettled *)
      destruct o; [rewrite resume_resolved | rewrite resume_rejected]; cbn.
      + split; [constructor; [left; by right|constructor]|].
        intros _. split; [done|]. by left.
      + by split. }
  split; [|split; [|done]].
  - apply (Hcase (λ s, ∀ f, selectedFile s = Some f → Spec.ends_in_pdf (File.name f)));
      [done|]. intros Hal. by apply Hstate.
  - apply (Hcase (λ s, AnalysisForm.ai_model (analysisForm s) ∈ models)); [done|].
    intros Hal. by apply Hstate.
Qed.

Lemma sound_run (es : list Event) (w : World) : Sent.sound w → Sent.sound (run w es).
Proof.
  revert w. induction es as [|e es IH]; intros w Hw; [done|].
  apply IH. by apply sound_step.
Qed.

(** X4.  The requests of the analysis workflow are well-formed.  Over
    every sequence of its events (the tabs, the mode buttons, the file
    and the text input, the two selects, submit, a reload of the prompts,
    unmounting, and the settling of its requests), what [loadPrompts],
    [loadAnalyses] and [handleAnalyzeDocument] have sent are the two
    reloads and analysis requests of which an upload carries a file whose
    name ends in [.pdf], a text analysis a text that is not blank, and
    both a prompt id that is not empty and a model that is gpt-5 or
    claude-4.  The requests of the download button, of the prompt editor
    and of logout are not among the events of this machine, and nothing
    is said of them here. *)
Theorem analysis_requests_well_formed (es : list Event) :
  Forall Sent.known (requests (effects (run mounted es))).
Proof. by destruct (sound_run es mounted sound_mounted) as (_ & _ & Hreq). Qed.

(** The request of an accepted submission. *)
Lemma handleAnalyzeDocument_request (s : State) :
  ¬ Spec.invalid s →
  requests (exec handleAnalyzeDocument s).2
  = [match inputMode s with
     | upload =>
         {| method := POST; url := API +:+ "/documents/analyze";
            body := FormData
              [("file", form_value (selectedFile s));
               ("analysis_data",
                FormString (JSON.stringify (AnalysisForm.properties (analysisForm s))))];
            headers := [("Content-Type", "multipart/form-data")] |}
     | text =>
         {| method := POST; url := API +:+ "/documents/analyze-text";
            body := JsonBody
              (AnalysisForm.properties (analysisForm s)
                 ++ [("text_content", textInput s); ("document_name", "Text Input")]);
            headers := [("Content-Type", "application/json")] |}
     end].
Proof.
  intros Hv.
  assert (Js.truthy (AnalysisForm.prompt_id (analysisForm s)) = true) as Hp.
  { apply truthy_true_iff. intros Hp. apply Hv. by left. }
  unfold handleAnalyzeDocument. act_unfold. rewrite Hp.
  destruct (inputMode s) eqn:Hm; cbn.
  - destruct (selectedFile s) eqn:Hf; [done|]. exfalso. apply Hv. right; left. done.
  - destruct (Js.truthy (Js.trim (textInput s))) eqn:Ht; [done|].
    exfalso. apply Hv. right; right. split; [done|]. by apply truthy_false_iff.
Qed.

Lemma upload_inj (u1 u2 : string) (h1 h2 : list (string * string))
    (v1 v2 : FormValue) (x1 x2 : string) :
  [{| method := POST; url := u1;
      body := FormData [("file", v1); ("analysis_data", FormString x1)];
      headers := h1 |}]
  = [{| method := POST; url := u2;
        body := FormData [("file", v2); ("analysis_data", FormString x2)];
        headers := h2 |}] →
  v1 = v2 ∧ x1 = x2.
Proof. by intros [= _ -> -> _]. Qed.

(** X5.  The request of an accepted submission determines what was
    submitted: two states that produce the same request have the same
    input mode, prompt and model, the same file in upload mode and the
    same text in text mode.  In particular [JSON.stringify] loses nothing
    of the prompt id and the model, whatever characters they hold. *)
Theorem request_determines_submission (s1 s2 : State) :
  requests (exec handleAnalyzeDocument s1).2 ≠ [] →
  requests (exec handleAnalyzeDocument s1).2 = requests (exec handleAnalyzeDocument s2).2 →
  inputMode s1 = inputMode s2
  ∧ analysisForm s1 = analysisForm s2
  ∧ (inputMode s1 = upload → selectedFile s1 = selectedFile s2)
  ∧ (inputMode s1 = text → textInput s1 = textInput s2).
Proof.
  intros Hne Heq.
  assert (¬ Spec.invalid s1) as Hv1 by by rewrite <- no_request_iff_invalid.
  assert (¬ Spec.invalid s2) as Hv2 by by rewrite <- no_request_iff_invalid, <- Heq.
  rewrite !handleAnalyzeDocument_request in Heq by done.
  destruct (analysisForm s1) as [p1 m1], (analysisForm s2) as [p2 m2].
  destruct (inputMode s1) eqn:Hm1, (inputMode s2) eqn:Hm2; try discriminate Heq.
  - apply upload_inj in Heq as [Hfile Hjson].
    pose proof (parse_stringify (AnalysisForm.properties
      {| AnalysisForm.prompt_id := p1; AnalysisForm.ai_model := m1 |})) as Hparse.
    rewrite Hjson, parse_stringify in Hparse. injection Hparse as <- <-.
    do 2 (split; [done|]). split; [|done]. intros _.
    destruct (selectedFile s1) as [f1|] eqn:Hf1, (selectedFile s2) as [f2|] eqn:Hf2;
      cbn in Hfile; congruence.
  - injection Heq as -> -> ->. done.
Qed.

End MoreAnalysis.

(** * More about the session id in the fragment *)

(** A prefix of the left part of a concatenation. *)
Lemma app_prefix_inv (u a b r : string) :
  a +:+ b = u +:+ r → String.length u ≤ String.length a → ∃ r', a = u +:+ r'.
Proof.
  revert a. induction u as [|c u IH]; intros a Heq Hlen.
  - exists a. by rewrite app_nil_l.
  - destruct a as [|d a]; [cbn in Hlen; lia|].
    rewrite !app_cons in Heq. injection Heq as -> Heq.
    destruct (IH a Heq) as [r' ->]; [cbn in Hlen; lia|].
    exists r'. by rewrite app_cons.
Qed.

Ltac str_norm := repeat (progress (rewrite ?app_assoc, ?app_cons, ?app_nil_l)).

(** [[^&]*] takes everything up to the first [&]. *)
Lemma not_amp_split (s : string) :
  ∃ rest, s = Fragment.not_amp s +:+ rest
          ∧ ¬ In "&"%char (String.list_ascii_of_string (Fragment.not_amp s))
          ∧ (rest = "" ∨ ∃ r, rest = String "&" r).
Proof.
  induction s as [|c s (rest & Heq & Hno & Hrest)]; cbn [Fragment.not_amp].
  - exists "". rewrite app_nil_l. split; [done|]. split; [by intros []|by left].
  - destruct (Ascii.eqb_spec c "&") as [->|Hc].
    + exists (String "&" s). rewrite app_nil_l. split; [done|].
      split; [by intros []|right; by exists s].
    + exists rest. rewrite app_cons, <- Heq. split; [done|]. split; [|done].
      cbn [String.list_ascii_of_string]. intros [?|?]; [by apply Hc|by apply Hno].
Qed.

Lemma not_amp_app (v rest : string) :
  ¬ In "&"%char (String.list_ascii_of_string v) →
  rest = "" ∨ (∃ r, rest = String "&" r) →
  Fragment.not_amp (v +:+ rest) = v.
Proof.
  intros Hno Hrest. induction v as [|c v IH].
  - rewrite app_nil_l. apply not_amp_empty. done.
  - rewrite app_cons. cbn [Fragment.not_amp String.list_ascii_of_string] in *.
    destruct (Ascii.eqb_spec c "&") as [->|Hc]; [exfalso; apply Hno; by left|].
    rewrite IH; [done|]. intros Hin. apply Hno. by right.
Qed.

(** A match at the start of [s], with the text of its group. *)
Lemma match_here_Some (s v : string) :
  Fragment.match_here s = Some v
  ↔ ∃ rest, s = "session_id=" +:+ v +:+ rest
            ∧ v ≠ ""
            ∧ ¬ In "&"%char (String.list_ascii_of_string v)
            ∧ (rest = "" ∨ ∃ r, rest = String "&" r).
Proof.
  unfold Fragment.match_here. split.
  - destruct (Fragment.strip_prefix "session_id=" s) as [t|] eqn:Hp; [|done].
    apply strip_prefix_Some in Hp as ->.
    destruct (not_amp_split t) as (rest & Heq & Hno & Hrest).
    destruct (Fragment.not_amp t) as [|c w] eqn:Hn; [done|].
    intros [= <-]. exists rest. by rewrite <- Heq.
  - intros (rest & -> & Hv & Hno & Hrest).
    assert (Fragment.strip_prefix "session_id=" ("session_id=" +:+ v +:+ rest)
            = Some (v +:+ rest)) as -> by by apply strip_prefix_Some.
    rewrite not_amp_app by done. by destruct v.
Qed.

(** The group of a match is not empty and holds no [&]. *)
Lemma match_session_id_value (fragment v : string) :
  Fragment.match_session_id fragment = Some v →
  v ≠ "" ∧ ¬ In "&"%char (String.list_ascii_of_string v).
Proof.
  induction fragment as [|x f IH]; [done|].
  cbn [Fragment.match_session_id].
  destruct (Fragment.match_here (String x f)) as [w|] eqn:Hh; [|done].
  intros [= ->]. by apply match_here_Some in Hh as (rest & _ & Hv & Hno & _).
Qed.

(** X6.  What [fragment.match(/session_id=([^&]+)/)] returns: the group
    is [v] exactly when the fragment reads [pre session_id= v rest], where
    [v] is not empty and holds no [&], [rest] is empty or starts with [&],
    and the expression finds nothing in [pre session_id=], so that this is
    the first session_id with a value. *)
Theorem match_session_id_Some (fragment v : string) :
  Fragment.match_session_id fragment = Some v
  ↔ ∃ pre rest,
      fragment = pre +:+ "session_id=" +:+ v +:+ rest
      ∧ v ≠ ""
      ∧ ¬ In "&"%char (String.list_ascii_of_string v)
      ∧ (rest = "" ∨ ∃ r, rest = String "&" r)
      ∧ Fragment.match_session_id (pre +:+ "session_id=") = None.
Proof.
  split.
  - induction fragment as [|x f IH]; [done|].
    cbn [Fragment.match_session_id].
    destruct (Fragment.match_here (String x f)) as [w|] eqn:Hh.
    + intros [= ->]. apply match_here_Some in Hh as (rest & Heq & Hv & Hno & Hrest).
      exists "", rest. rewrite !app_nil_l. done.
    + intros (pre & rest & -> & Hv & Hno & Hrest & Hfirst)%IH.
      exists (String x pre), rest. rewrite !app_cons. split; [done|].
      do 3 (split; [done|]).
      cbn [Fragment.match_session_id].
      destruct (Fragment.match_here (String x (pre +:+ "session_id="))) as [w|] eqn:Hw;
        [|done].
      (* a match at the start of the prefix is one at the start of the fragment *)
      exfalso. apply match_here_Some in Hw as (t & Heq & Hw & Hnow & _).
      destruct w as [|c w]; [done|].
      apply match_here_None in Hh. apply Hh.
      exists c, (w +:+ t +:+ v +:+ rest). split.
      * rewrite <- (app_assoc pre "session_id=" (v +:+ rest)).
        rewrite <- (app_cons x (pre +:+ "session_id=") (v +:+ rest)), Heq.
        str_norm. done.
      * intros ->. apply Hnow. by left.
  - intros (pre & rest & -> & Hv & Hno & Hrest & Hfirst).
    revert Hfirst. induction pre as [|x pre IH]; intros Hfirst.
    + rewrite app_nil_l.
      assert (Fragment.match_here ("session_id=" +:+ v +:+ rest) = Some v) as Hh.
      { apply match_here_Some. by exists rest. }
      destruct ("session_id=" +:+ v +:+ rest); cbn [Fragment.match_session_id];
        by rewrite Hh.
    + rewrite app_cons in *. cbn [Fragment.match_session_id] in *.
      destruct (Fragment.match_here (String x (pre +:+ "session_id="))) eqn:Hpre; [done|].
      destruct (Fragment.match_here (String x (pre +:+ "session_id=" +:+ v +:+ rest)))
        as [w|] eqn:Hh; [|by apply IH].
      (* a match at the start of the fragment lies within the prefix *)
      exfalso. apply match_here_Some in Hh as (t & Heq & Hw & Hnow & _).
      destruct w as [|c w]; [done|].
      apply match_here_None in Hpre. apply Hpre.
      destruct (app_prefix_inv ("session_id=" +:+ String c "")
                  (String x (pre +:+ "session_id=")) (v +:+ rest) (w +:+ t))
        as [r' Hr'].
      { rewrite app_cons, app_assoc, Heq. str_norm. done. }
      { cbn [String.length]. rewrite !app_length. cbn. lia. }
      exists c, r'. split.
      * rewrite Hr'. str_norm. done.
      * intros ->. apply Hnow. by left.
Qed.

(** * More about the session *)

Section MoreSession.
Import App.
Context `{Env}.

(** X7.  A session id found in the fragment is sent as the X-Session-ID
    header of one POST to [/auth/session-data]; it is not empty and holds
    no [&].  When the exchange resolves, the fragment is removed from the
    address and the path kept, the user and the token of the response are
    stored, and [processSessionId] run again would ask [/auth/me] instead
    of exchanging the id a second time.  When it is rejected the
    credentials stay as they were and the page is sent to [/]. *)
Theorem session_id_exchanged_once (s : State) (v : string) (data : LoginData.t)
    (error : AxiosError) :
  Fragment.match_session_id (hash s) = Some v →
  let s' := (exec (processSessionId_resume_exchange (Resolved data)) s).1 in
  let failed := exec (processSessionId_resume_exchange (Rejected error)) s in
  requests (exec processSessionId s).2
  = [{| method := POST; url := API +:+ "/auth/session-data"; body := JsonBody [];
        headers := [("X-Session-ID", v)] |}]
  ∧ v ≠ "" ∧ ¬ In "&"%char (String.list_ascii_of_string v)
  ∧ hash s' = "" ∧ pathname s' = pathname s
  ∧ user s' = Some (LoginData.user data)
  ∧ sessionToken s' = LoginData.session_token data
  ∧ requests (exec processSessionId s').2
    = [{| method := GET; url := API +:+ "/auth/me"; body := NoBody; headers := [] |}]
  ∧ user failed.1 = user s ∧ sessionToken failed.1 = sessionToken s
  ∧ cookies failed.1 = cookies s ∧ common failed.1 = common s
  ∧ SetHref "/" ∈ failed.2.
Proof.
  intros Hm s' failed. split.
  { unfold processSessionId. act_unfold. by rewrite Hm. }
  pose proof (match_session_id_value _ _ Hm) as [Hv Hno].
  do 2 (split; [done|]).
  do 4 (split; [done|]).
  split; [done|]. do 4 (split; [done|]).
  cbn. set_solver.
Qed.

(** X8.  On a page that holds no credentials, logging in with a token
    the browser stores as it is and then logging out leaves no trace:
    user, token, cookie jar and default headers are what they were before
    the login. *)
Theorem logout_undoes_login (u : User.t) (t : option string) (o : Outcome ()) (s : State) :
  Credentials.storable t →
  user s = None → sessionToken s = None →
  cookies s !! "session_token" = None → common s !! "Authorization" = None →
  (exec (handleLogout_resume o) (exec (handleLogin u t) s).1).1 = s.
Proof.
  intros _ Hu Ht Hc Hh. rewrite handleLogin_exec, handleLogout_resume_exec.
  cbn [fst user loading sessionToken processing cookies common hash pathname].
  rewrite expire_insert, delete_id, delete_insert_id by done.
  destruct s; cbn in *. by subst.
Qed.

(** ** The credentials stay coherent *)

Lemma coherent_initial (jar : gmap string Cookie) (p h : string) :
  Credentials.coherent jar (initial jar p h).
Proof.
  split; [done|]. split; [done|]. cbn. rewrite lookup_empty. split; [done|by left].
Qed.

Lemma checkExistingSession_resume_exec (o : Outcome User.t) (s : State) :
  exec (checkExistingSession_resume o) s
  = ({| user := match o with Resolved data => Some data | Rejected _ => user s end;
        loading := false; sessionToken := sessionToken s;
        processing := processing s; cookies := cookies s; common := common s;
        hash := hash s; pathname := pathname s |},
     match o with
     | Resolved _ => []
     | Rejected _ => [ConsoleLog "No existing session"]
     end).
Proof. by destruct o. Qed.

Lemma coherent_handler (jar : gmap string Cookie) (e : Event) (s : State) :
  Credentials.coherent jar s → Credentials.coherent jar (exec (handler e) s).1.
Proof.
  intros (Hjar & Hcommon & Hsync). destruct e as [i o|u t| |i o]; cbn [handler].
  - (* SessionSettled *)
    rewrite checkExistingSession_resume_exec. unfold Credentials.coherent.
    cbn [fst user sessionToken cookies common].
    do 2 (split; [done|]).
    destruct o as [data|error]; [|done].
    destruct (common s !! "Authorization"); [|done].
    destruct Hsync as (_ & ? & ?). done.
  - (* OnLogin *)
    rewrite handleLogin_exec. unfold Credentials.coherent.
    cbn [fst user sessionToken cookies common].
    split; [intros k Hk; rewrite lookup_insert_ne by done; auto|].
    split; [intros k Hk; rewrite lookup_insert_ne by done; auto|].
    by rewrite !lookup_insert_eq.
  - (* ClickLogout *) done.
  - (* LogoutSettled *)
    rewrite handleLogout_resume_exec. unfold Credentials.coherent.
    cbn [fst user sessionToken cookies common].
    split; [intros k Hk; rewrite expire_lookup_ne by done; auto|].
    split; [intros k Hk; rewrite lookup_delete_ne by done; auto|].
    rewrite lookup_delete_eq. split; [done|].
    destruct (expire "session_token" "/" (cookies s) !! "session_token") as [c|] eqn:Hc;
      [|by right].
    apply expire_lookup in Hc as [Hc Hp].
    destruct (common s !! "Authorization").
    + destruct Hsync as (_ & _ & Hcookie). rewrite Hcookie in Hc.
      by injection Hc as <-.
    + destruct Hsync as (_ & [Hjar'|Hnone]); [|congruence]. left. congruence.
Qed.

Lemma coherent_step (jar : gmap string Cookie) (w : World) (e : Event) :
  Credentials.coherent jar (page w) → Credentials.coherent jar (page (step w e)).
Proof.
  intros Hw. unfold step. destruct (enabled e w); [|done].
  rewrite app_perform_page. by apply coherent_handler.
Qed.

Lemma coherent_run (jar : gmap string Cookie) (es : list Event) (w : World) :
  Credentials.coherent jar (page w) → Credentials.coherent jar (page (run w es)).
Proof.
  revert w. induction es as [|e es IH]; intros w Hw; [done|].
  apply IH. by apply coherent_step.
Qed.

(** X9.  On a page loaded with no session_token cookie at another path
    than [/], and with logins whose tokens the browser stores as they are,
    the credentials stay coherent whatever happens: [App] writes no cookie
    but session_token and no default header but Authorization; while the
    header is set, the user is set and header and cookie carry the text of
    [sessionToken]; while it is not set, [sessionToken] is null and the
    session_token cookie is the one the page was loaded with, or is
    gone. *)
Theorem credentials_coherent (jar : gmap string Cookie) (p h : string) (es : list Event) :
  Credentials.at_root jar →
  Credentials.storable_logins es →
  Credentials.coherent jar (page (run (mounted jar p h) es)).
Proof.
  intros _ _. apply coherent_run. unfold mounted. rewrite app_perform_page.
  apply coherent_initial.
Qed.

(** X10.  Routing.  One redirect is enough on every route: the view
    [App] settles on is never a [Navigate].  It is the dashboard exactly
    when loading is over and the user is set, whatever the route, and then
    it shows that user; without a user the page settles on the landing
    page at [/] (also from [/app]) or on the callback at [/dashboard]. *)
Theorem routes_settle (s : State) (r : Router.Route) :
  let (r', v) := Router.settle 1 s r in
  (∀ to, v ≠ Router.Navigate to)
  ∧ Router.is_dashboard v = dashboard_rendered s
  ∧ (∀ u, v = Router.DashboardView u → user s = Some u ∧ r' ≠ Router.Root)
  ∧ (loading s = false → user s = None →
       (v = Router.LandingView ∧ r' = Router.Root)
       ∨ (v = Router.AuthCallbackView ∧ r = Router.DashboardRoute ∧ r' = r)).
Proof.
  unfold dashboard_rendered. cbn. unfold Router.render.
  destruct (loading s), (user s) as [u|], r; cbn;
    (split; [done|]); (split; [done|]); (split; [by intros ? [= ->]|]);
    intros; try done; auto.
Qed.

End MoreSession.

(** * The prompt editor *)

Section MoreEditor.
Import Editor.
Context `{Env}.

Lemma saves_app (l1 l2 : list Call) : saves (l1 ++ l2) = saves l1 + saves l2.
Proof. unfold saves. by rewrite List.filter_app, length_app. Qed.

Lemma saves_delete (l : list Call) (i : nat) (c : Call) :
  l !! i = Some c → saves (delete i l) + (if is_save c then 1 else 0) = saves l.
Proof.
  unfold saves. revert i. induction l as [|k l IH]; intros [|i] Hi; try done.
  - cbn in Hi. injection Hi as ->. cbn. destruct (is_save c); cbn; lia.
  - cbn in Hi. specialize (IH i Hi). cbn.
    destruct (is_save k); cbn [length]; [rewrite <- IH|exact IH]. done.
Qed.

(** What a handler of the editor does to the world. *)
Lemma perform_fields (a : Act State (option Call)) (w : World) :
  st (perform a w) = (if alive w then (a (st w)).1.2 else st w)
  ∧ alive (perform a w) = alive w
  ∧ pending (perform a w) = pending w ++ awaits (a (st w)).2
  ∧ calls (perform a w) = calls w ++ option_list (a (st w)).1.1
  ∧ effects (perform a w) = effects w ++ (a (st w)).2
  ∧ sent (perform a w) = sent w ++ option_list (a (st w)).1.1.
Proof. unfold perform. by destruct (a (st w)) as [[c s] es]. Qed.

(** An event of the analysis workflow never mounts the component. *)
Lemma analysis_alive (a : Dashboard.World) (e : Dashboard.Event) :
  Dashboard.alive (Dashboard.step a e) = true → Dashboard.alive a = true.
Proof.
  unfold Dashboard.step. destruct (Dashboard.enabled e a); [|done].
  rewrite perform_alive. cbn. by destruct e.
Qed.

Lemma handlePromptSubmit_resume_run (call : Call) (o : Outcome ()) (s : State) :
  handlePromptSubmit_resume call o s
  = ((),
     match o with
     | Resolved _ =>
         {| dashboard := dashboard s; loading := false; showPromptModal := false;
            editingPrompt := None; promptForm := PromptForm.empty |}
     | Rejected _ =>
         {| dashboard := dashboard s; loading := false;
            showPromptModal := showPromptModal s;
            editingPrompt := editingPrompt s; promptForm := promptForm s |}
     end,
     match o with
     | Resolved _ =>
         [ToastSuccess match call with
                       | AxiosPut _ _ => "Prompt updated successfully"
                       | _ => "Prompt created successfully"
                       end;
          Axios {| method := GET; url := API +:+ "/prompts";
                   body := NoBody; headers := [] |} AwaitPrompts]
     | Rejected error =>
         [ToastError (Js.or_else (detail error) "Failed to save prompt")]
     end).
Proof. by destruct o. Qed.

Lemma handleDeletePrompt_resume_run (o : Outcome ()) (s : State) :
  handleDeletePrompt_resume o s
  = ((),
     match o with
     | Resolved _ =>
         {| dashboard := dashboard s; loading := loading s;
            showPromptModal := showPromptModal s;
            editingPrompt := editingPrompt s; promptForm := promptForm s |}
     | Rejected _ => s
     end,
     match o with
     | Resolved _ =>
         [ToastSuccess "Prompt deleted successfully";
          Axios {| method := GET; url := API +:+ "/prompts";
                   body := NoBody; headers := [] |} AwaitPrompts]
     | Rejected _ => [ToastError "Failed to delete prompt"]
     end).
Proof. by destruct o. Qed.

Lemma editor_consistent_mounted : consistent mounted.
Proof. split; [cbn; lia|]. split; [done|]. constructor. Qed.

Lemma editor_consistent_step (w : World) (e : Event) :
  consistent w → consistent (step w e).
Proof.
  intros (Hle & Hload & Hsent). unfold step.
  destruct (enabled e w) eqn:He; [|done].
  destruct e as [e'| | | | | | | |i o].
  - (* Analysis *)
    split; [done|]. split; [|done]. cbn. intros Hal%analysis_alive. by apply Hload.
  - (* OpenChange *)
    unfold consistent, perform, handler, setShowPromptModal. act_unfold. cbn.
    rewrite !app_nil_r. split; [done|]. split; [|done]. by destruct (alive w).
  - (* ChangeTitle *)
    unfold consistent, perform, handler, changeTitle, setPromptForm. act_unfold. cbn.
    rewrite !app_nil_r. split; [done|]. split; [|done]. by destruct (alive w).
  - (* ChangeContent *)
    unfold consistent, perform, handler, changeContent, setPromptForm. act_unfold. cbn.
    rewrite !app_nil_r. split; [done|]. split; [|done]. by destruct (alive w).
  - (* ClickCancel *)
    unfold consistent, perform, handler, clickCancel, setShowPromptModal,
      setEditingPrompt, setPromptForm. act_unfold. cbn.
    rewrite !app_nil_r. split; [done|]. split; [|done]. by destruct (alive w).
  - (* SubmitPrompt *)
    cbn in He. apply andb_prop in He as [[[Hal _]%andb_prop _]%andb_prop Hok%negb_true_iff].
    unfold save_blocked in Hok.
    apply orb_false_elim in Hok as [[Hl Ht%negb_false_iff]%orb_false_elim Hc%negb_false_iff].
    apply truthy_true_iff in Ht, Hc.
    unfold consistent, perform, handler, handlePromptSubmit, setLoading. act_unfold.
    cbn -[saves]. rewrite Hal, saves_app. rewrite (Hload Hal), Hl in *.
    split; [by destruct (editingPrompt (st w))|].
    split; [by destruct (editingPrompt (st w))|].
    apply Forall_app. split; [done|]. constructor; [|done].
    destruct (editingPrompt (st w)) as [p|]; cbn; eauto.
  - (* ClickEdit *)
    unfold consistent, perform, handler, handleEditPrompt, setShowPromptModal,
      setEditingPrompt, setPromptForm. act_unfold. cbn -[saves].
    rewrite !app_nil_r. split; [done|]. split; [|done]. by destruct (alive w).
  - (* ClickDelete *)
    unfold consistent, perform, handler, handleDeletePrompt. act_unfold.
    destruct confirmed; cbn -[saves]; rewrite ?app_nil_r.
    + rewrite saves_app, Nat.add_0_r. split; [done|].
      split; [by destruct (alive w)|].
      apply Forall_app. split; [done|]. constructor; [|done]. cbn. eauto.
    + split; [done|]. split; [|done]. by destruct (alive w).
  - (* CallSettled *)
    cbn in He. apply bool_decide_eq_true in He as [c Hc].
    pose proof (saves_delete _ _ _ Hc) as Hdel.
    cbn [handler settled]. rewrite Hc.
    assert (∀ call, is_save call = true → calls w !! i = Some call →
              consistent (perform (handlePromptSubmit_resume call o;; mret None)
                {| st := st w; alive := alive w; pending := pending w;
                   calls := delete i (calls w); effects := effects w;
                   sent := sent w |})) as Hsave.
    { intros call Hs Hi. pose proof (saves_delete _ _ _ Hi) as Hdel'. rewrite Hs in Hdel'.
      unfold consistent, perform. act_unfold. rewrite handlePromptSubmit_resume_run.
      cbn -[saves]. rewrite !app_nil_r.
      split; [lia|]. split; [|done]. intros Hal. rewrite Hal.
      assert (saves (delete i (calls w)) = 0) as -> by lia. by destruct o. }
    destruct c as [url data|url data|url]; cbn [is_save] in Hdel.
    + by apply Hsave.
    + by apply Hsave.
    + unfold consistent, perform. act_unfold. rewrite handleDeletePrompt_resume_run.
      cbn -[saves]. rewrite !app_nil_r, Nat.add_0_r in *. rewrite Hdel.
      split; [done|]. split; [|done]. by destruct (alive w), o.
Qed.

Lemma editor_consistent_run (es : list Event) (w : World) :
  consistent w → consistent (run w es).
Proof.
  revert w. induction es as [|e es IH]; intros w Hw; [done|].
  apply IH. by apply editor_consistent_step.
Qed.

Lemma save_blocked_loading (w : World) :
  loading (st w) = true → step w SubmitPrompt = w.
Proof.
  intros Hl. unfold step. cbn. unfold save_blocked. rewrite Hl. cbn.
  by rewrite andb_false_r.
Qed.

(** X11.  At most one save of the prompt editor is in flight, and while
    the component is mounted there is one exactly when [loading] is set; a
    submit while [loading] is set does nothing.  Every call the editor
    makes is a POST to [/prompts], a PUT to [/prompts/<id>] or a DELETE of
    [/prompts/<id>], and the first two carry a title and a content that
    are not empty. *)
Theorem one_save_in_flight (es : list Event) :
  let w := run mounted es in
  saves (calls w) ≤ 1
  ∧ (alive w = true → (loading (st w) = true ↔ saves (calls w) = 1))
  ∧ (loading (st w) = true → step w SubmitPrompt = w)
  ∧ Forall well_formed (sent w).
Proof.
  intros w.
  destruct (editor_consistent_run es mounted editor_consistent_mounted)
    as (Hle & Hload & Hsent). fold w in Hle, Hload, Hsent.
  split; [done|]. split; [|split; [apply save_blocked_loading|done]].
  intros Hal. rewrite (Hload Hal). by destruct (loading (st w)).
Qed.

(** ** The editor and the analysis workflow *)

(** A settled call of the editor leaves the analysis cells alone; when it
    resolved, [loadPrompts] is called. *)
Lemma settle_run (c : Call) (o : Outcome ()) (s : State) :
  ∃ s' es,
    (match c with
     | AxiosDelete _ => handleDeletePrompt_resume o
     | _ => handlePromptSubmit_resume c o
     end;; mret (None : option Call)) s = (None, s', es)
    ∧ dashboard s' = dashboard s
    ∧ ((requests es = [] ∧ awaits es = [])
       ∨ (requests es = [{| method := GET; url := API +:+ "/prompts";
                            body := NoBody; headers := [] |}]
          ∧ awaits es = [AwaitPrompts]
          ∧ o = Resolved ())).
Proof.
  destruct c, o as [[]|error]; eexists _, _; (split; [reflexivity|]);
    (split; [reflexivity|]); cbn; auto.
Qed.

(** What an event of the editor does to the part the analysis workflow
    sees: nothing, or what a call of [loadPrompts] does. *)
Lemma editor_step_analysis (w : World) (e : Event) :
  (∀ e', e ≠ Analysis e') →
  ∃ es,
    Dashboard.dash (analysis (step w e)) = Dashboard.dash (analysis w)
    ∧ Dashboard.alive (analysis (step w e)) = Dashboard.alive (analysis w)
    ∧ Dashboard.pending (analysis (step w e)) = Dashboard.pending (analysis w) ++ awaits es
    ∧ Dashboard.effects (analysis (step w e)) = Dashboard.effects (analysis w) ++ es
    ∧ ((requests es = [] ∧ awaits es = [])
       ∨ (requests es = [{| method := GET; url := API +:+ "/prompts";
                            body := NoBody; headers := [] |}]
          ∧ awaits es = [AwaitPrompts]
          ∧ ∃ i, e = CallSettled i (Resolved ()))).
Proof.
  intros Hed. unfold step. destruct (enabled e w) eqn:He.
  2: { exists []. rewrite !app_nil_r. auto 10. }
  destruct e as [e'| | | | | | | |i o]; [by destruct (Hed e')|..].
  - exists []. unfold perform, handler, setShowPromptModal. act_unfold. cbn.
    rewrite !app_nil_r. split; [by destruct (alive w)|auto 10].
  - exists []. unfold perform, handler, changeTitle, setPromptForm. act_unfold. cbn.
    rewrite !app_nil_r. split; [by destruct (alive w)|auto 10].
  - exists []. unfold perform, handler, changeContent, setPromptForm. act_unfold. cbn.
    rewrite !app_nil_r. split; [by destruct (alive w)|auto 10].
  - exists []. unfold perform, handler, clickCancel, setShowPromptModal,
      setEditingPrompt, setPromptForm. act_unfold. cbn.
    rewrite !app_nil_r. split; [by destruct (alive w)|auto 10].
  - exists []. unfold perform, handler, handlePromptSubmit, setLoading. act_unfold. cbn.
    rewrite !app_nil_r. split; [by destruct (alive w)|auto 10].
  - exists []. unfold perform, handler, handleEditPrompt, setShowPromptModal,
      setEditingPrompt, setPromptForm. act_unfold. cbn.
    rewrite !app_nil_r. split; [by destruct (alive w)|auto 10].
  - exists []. unfold perform, handler, handleDeletePrompt. act_unfold.
    destruct confirmed; cbn; rewrite !app_nil_r; (split; [by destruct (alive w)|auto 10]).
  - cbn in He. apply bool_decide_eq_true in He as [c Hc].
    cbn [handler settled]. rewrite Hc.
    destruct (settle_run c o (st w)) as (s' & es & Hrun & Hd & Hes).
    exists es. unfold perform. cbn [st]. rewrite Hrun. cbn.
    split; [by destruct (alive w)|]. do 3 (split; [done|]).
    destruct Hes as [?|(? & ? & ->)]; [by left|right; eauto].
Qed.



Lemma analysis_step (w : World) (e : Dashboard.Event) :
  analysis (perform_analysis e w) = Dashboard.step (analysis w) e.
Proof. unfold perform_analysis, analysis. cbn. by destruct (Dashboard.step _ e). Qed.

Lemma analysis_consistent_step (w : World) (e : Event) :
  Dashboard.consistent (analysis w) → Dashboard.consistent (analysis (step w e)).
Proof.
  intros Hw. destruct e as [e'| | | | | | | |i o].
  { unfold step. destruct (enabled _ w); [|done].
    rewrite analysis_step. by apply consistent_step. }
  all: match goal with |- context [step ?w' ?e] =>
         destruct (editor_step_analysis w' e) as (es & Hd & Hal & Hp & _ & Hes); [done|]
       end.
  all: destruct Hw as (Hle & Hload & Hmode).
  all: unfold Dashboard.consistent, Dashboard.in_flight in *.
  all: rewrite Hd, Hal, Hp, submissions_app.
  all: assert (Dashboard.submissions (awaits es) = 0) as ->
         by (by destruct Hes as [[_ ->]|(_ & -> & _)]).
  all: by rewrite Nat.add_0_r.
Qed.

(** X13.  The invariants of the analysis workflow hold of the whole
    component, the prompt editor included: at most one submission is in
    flight, while the component is mounted there is one exactly when
    [analyzing] is set, the text is empty in upload mode and no file is
    selected in text mode. *)
Theorem analysis_consistent_with_editor (es : list Event) :
  Dashboard.consistent (analysis (run mounted es)).
Proof.
  assert (∀ w, Dashboard.consistent (analysis w) →
               Dashboard.consistent (analysis (run w es))) as Hrun.
  { induction es as [|e es IH]; intros w Hw; [done|].
    apply IH. by apply analysis_consistent_step. }
  apply Hrun. exact consistent_mounted.
Qed.

(** X14.  Dismissing the dialog does not leave edit mode.  After a click
    on the edit button of a prompt, any number of [onOpenChange] calls that
    end with the dialog open (the dialog dismissed, then opened again with
    Create Prompt) leave the prompt and its text in the form, and a submit
    sends a PUT for that prompt, not a POST. *)
Theorem dismissed_edit_persists (w : World) (p : Prompt.t) (opens : list bool) :
  alive w = true →
  Dashboard.activeTab (dashboard (st w)) = Dashboard.prompts_tab →
  p ∈ Dashboard.prompts (dashboard (st w)) →
  loading (st w) = false →
  Prompt.title p ≠ "" → Prompt.content p ≠ "" →
  sent (run w ([ClickEdit p] ++ (OpenChange <$> opens) ++ [OpenChange true; SubmitPrompt]))
  = sent w ++ [AxiosPut (API +:+ "/prompts/" +:+ Prompt.id p)
                 {| PromptForm.title := Prompt.title p;
                    PromptForm.content := Prompt.content p |}].
Proof.
  intros Hal Htab Hp Hl Ht Hc.
  unfold run. rewrite !foldl_app. cbn [foldl].
  (* the click on edit *)
  assert (∃ b, step w (ClickEdit p)
    = {| st := {| dashboard := dashboard (st w); loading := false; showPromptModal := b;
                  editingPrompt := Some p;
                  promptForm := {| PromptForm.title := Prompt.title p;
                                   PromptForm.content := Prompt.content p |} |};
         alive := true; pending := pending w; calls := calls w;
         effects := effects w; sent := sent w |}) as [b ->].
  { exists true. unfold step. cbn. rewrite Hal, Htab. cbn.
    unfold perform, handleEditPrompt, setShowPromptModal, setEditingPrompt, setPromptForm.
    act_unfold. cbn. rewrite ?Hl, ?app_nil_r. by rewrite (bool_decide_eq_true_2 _ Hp). }
  (* the open changes *)
  assert (∀ b (opens' : list bool), ∃ b',
    foldl step
      {| st := {| dashboard := dashboard (st w); loading := false; showPromptModal := b;
                  editingPrompt := Some p;
                  promptForm := {| PromptForm.title := Prompt.title p;
                                   PromptForm.content := Prompt.content p |} |};
         alive := true; pending := pending w; calls := calls w;
         effects := effects w; sent := sent w |} (OpenChange <$> opens')
    = {| st := {| dashboard := dashboard (st w); loading := false; showPromptModal := b';
                  editingPrompt := Some p;
                  promptForm := {| PromptForm.title := Prompt.title p;
                                   PromptForm.content := Prompt.content p |} |};
         alive := true; pending := pending w; calls := calls w;
         effects := effects w; sent := sent w |}) as Hopens.
  { intros b0 opens'. revert b0. induction opens' as [|open opens' IH]; intros b0.
    - by exists b0.
    - cbn [fmap list_fmap foldl].
      match goal with |- context [foldl step (step ?w0 ?e) _] =>
        assert (step w0 e
          = {| st := {| dashboard := dashboard (st w); loading := false;
                        showPromptModal := open; editingPrompt := Some p;
                        promptForm := {| PromptForm.title := Prompt.title p;
                                         PromptForm.content := Prompt.content p |} |};
               alive := true; pending := pending w; calls := calls w;
               effects := effects w; sent := sent w |}) as ->
      end.
      { unfold step. cbn. rewrite Htab. cbn.
        unfold perform, setShowPromptModal. act_unfold. cbn. by rewrite !app_nil_r. }
      apply IH. }
  destruct (Hopens b opens) as [b' ->].
  (* the dialog is opened and the form submitted *)
  match goal with |- context [step (step ?w0 ?e) _] =>
    assert (step w0 e
      = {| st := {| dashboard := dashboard (st w); loading := false;
                    showPromptModal := true; editingPrompt := Some p;
                    promptForm := {| PromptForm.title := Prompt.title p;
                                     PromptForm.content := Prompt.content p |} |};
           alive := true; pending := pending w; calls := calls w;
           effects := effects w; sent := sent w |}) as ->
  end.
  { unfold step. cbn. rewrite Htab. cbn.
    unfold perform, setShowPromptModal. act_unfold. cbn. by rewrite !app_nil_r. }
  unfold step. cbn. rewrite Htab. cbn. unfold save_blocked. cbn.
  apply truthy_true_iff in Ht, Hc. rewrite Ht, Hc. cbn.
  unfold perform, handlePromptSubmit, setLoading. act_unfold. cbn. done.
Qed.

Lemma confirmed_delete_step (w : World) (promptId : string) :
  alive w = true →
  Dashboard.activeTab (dashboard (st w)) = Dashboard.prompts_tab →
  promptId ∈ Prompt.id <$> Dashboard.prompts (dashboard (st w)) →
  step w (ClickDelete promptId true)
  = {| st := st w; alive := alive w; pending := pending w;
       calls := calls w ++ [AxiosDelete (API +:+ "/prompts/" +:+ promptId)];
       effects := effects w;
       sent := sent w ++ [AxiosDelete (API +:+ "/prompts/" +:+ promptId)] |}.
Proof.
  intros Hal Htab Hid. unfold step. cbn [enabled].
  rewrite Hal, Htab, (bool_decide_eq_true_2 _ Hid). cbn.
  by rewrite !app_nil_r.
Qed.

(** X15.  Deleting is not guarded.  On the prompts tab every confirmed
    click on the delete button of a listed prompt sends its own DELETE,
    also while an earlier one is in flight, and changes no cell: the
    prompt stays listed until a reload has resolved.  A declined
    confirmation changes nothing. *)
Theorem delete_not_guarded (w : World) (promptId : string) (n : nat) :
  alive w = true →
  Dashboard.activeTab (dashboard (st w)) = Dashboard.prompts_tab →
  promptId ∈ Prompt.id <$> Dashboard.prompts (dashboard (st w)) →
  sent (run w (replicate n (ClickDelete promptId true)))
  = sent w ++ replicate n (AxiosDelete (API +:+ "/prompts/" +:+ promptId))
  ∧ st (run w (replicate n (ClickDelete promptId true))) = st w
  ∧ step w (ClickDelete promptId false) = w.
Proof.
  intros Hal Htab Hid. split; [|split].
  - revert w Hal Htab Hid. induction n as [|n IH]; intros w Hal Htab Hid.
    + cbn. by rewrite app_nil_r.
    + cbn [replicate run foldl]. rewrite confirmed_delete_step by done.
      unfold run in IH. rewrite IH by done. cbn [sent]. by rewrite <- List.app_assoc.
  - revert w Hal Htab Hid. induction n as [|n IH]; intros w Hal Htab Hid; [done|].
    cbn [replicate run foldl]. rewrite confirmed_delete_step by done.
    unfold run in IH. by rewrite IH.
  - unfold step. cbn [enabled].
    rewrite Hal, Htab, (bool_decide_eq_true_2 _ Hid). cbn.
    rewrite !app_nil_r. destruct w. cbn in *. by subst.
Qed.

End MoreEditor.

(** * encodeURIComponent *)

Lemma all_safe_app (a b : string) :
  Uri.all_safe (a +:+ b) = Uri.all_safe a && Uri.all_safe b.
Proof.
  induction a as [|c a IH]; [by rewrite app_nil_l|].
  rewrite app_cons. cbn [Uri.all_safe]. by rewrite IH, andb_assoc.
Qed.

Lemma encode_char_safe (c : ascii) : Uri.all_safe (Uri.encode_char c) = true.
Proof. by destruct c as [[] [] [] [] [] [] [] []]. Qed.

Lemma encodeURIComponent_all_safe (s : string) :
  Uri.all_safe (Uri.encodeURIComponent s) = true.
Proof.
  induction s as [|c s IH]; [done|].
  cbn [Uri.encodeURIComponent]. by rewrite all_safe_app, encode_char_safe, IH.
Qed.

(** Reading back what was written for one code unit. *)
Lemma decode_encode_char (c : ascii) (rest : string) (fuel : nat) :
  Uri.decode (S fuel) (Uri.encode_char c +:+ rest) = String c <$> Uri.decode fuel rest.
Proof. by destruct c as [[] [] [] [] [] [] [] []]. Qed.

Lemma decode_encode (s : string) (fuel : nat) :
  String.length s ≤ fuel → Uri.decode fuel (Uri.encodeURIComponent s) = Some s.
Proof.
  revert fuel. induction s as [|c s IH]; intros fuel Hfuel.
  - by destruct fuel.
  - destruct fuel as [|fuel]; [cbn in Hfuel; lia|].
    cbn [Uri.encodeURIComponent]. rewrite decode_encode_char, IH; [done|].
    cbn in Hfuel. lia.
Qed.

Lemma encode_char_length (c : ascii) : 1 ≤ String.length (Uri.encode_char c).
Proof.
  unfold Uri.encode_char. destruct (Uri.unreserved c); [done|].
  destruct (_ <? _); [cbn; lia|]. rewrite app_length. cbn. lia.
Qed.

Lemma encodeURIComponent_length (s : string) :
  String.length s ≤ String.length (Uri.encodeURIComponent s).
Proof.
  induction s as [|c s IH]; [done|].
  cbn [Uri.encodeURIComponent String.length]. rewrite app_length.
  pose proof (encode_char_length c). lia.
Qed.

(** X16.  [encodeURIComponent] as [handleGoogleLogin] and the avatar of
    the dashboard use it: the encoded text holds nothing but unreserved
    characters, [%] and hexadecimal digits in upper case, so none of
    [& = # ? / :] and no space, and the text it was made from can be read
    back from it.  The redirect parameter of the sign-in address therefore
    is the whole rest of that address and stands for
    [origin + "/dashboard"], and the name in the generated avatar address
    ends at the [&] the template writes. *)
Theorem encoded_parameters_intact (origin : string) (s : Landing.State) (user : User.t) :
  (∃ v, exec (Landing.handleGoogleLogin origin) s
        = (s, [SetHref ("https://auth.emergentagent.com/?redirect=" +:+ v)])
        ∧ Uri.all_safe v = true
        ∧ Uri.decodeURIComponent v = Some (origin +:+ "/dashboard"))
  ∧ (User.picture user = None ∨ User.picture user = Some "" →
     ∃ v, avatar_src user
          = "https://ui-avatars.com/api/?name=" +:+ v +:+ "&background=1e293b&color=fff"
          ∧ Uri.all_safe v = true
          ∧ Uri.decodeURIComponent v = Some (User.name user))
  ∧ Forall (λ c, Uri.safe c = false) ["&"; "="; "#"; "?"; "/"; ":"; " "]%char.
Proof.
  split; [|split].
  - eexists. split; [reflexivity|]. split; [apply encodeURIComponent_all_safe|].
    apply decode_encode, encodeURIComponent_length.
  - intros Hpic. exists (Uri.encodeURIComponent (User.name user)).
    split; [|split; [apply encodeURIComponent_all_safe|]].
    + unfold avatar_src. by destruct Hpic as [-> | ->].
    + apply decode_encode, encodeURIComponent_length.
  - repeat constructor.
Qed.

(** * Landing.jsx *)

Section MoreLanding.
Import Landing.
Context `{Env}.

Lemma landing_perform_fields (a : Act Page (option Request)) (w : World) :
  page (perform a w) = (a (page w)).1.2
  ∧ pending (perform a w) = pending w ++ option_list (a (page w)).1.1
  ∧ effects (perform a w) = effects w ++ (a (page w)).2
  ∧ sent (perform a w) = sent w ++ option_list (a (page w)).1.1.
Proof. unfold perform. by destruct (a (page w)) as [[r p] es]. Qed.

Lemma landing_consistent_mounted (a : App.State) : consistent a [] (mounted a).
Proof. split; [done|]. split; [constructor|by left]. Qed.

(** [Landing] is rendered for an anonymous visitor only. *)
Lemma rendered_anonymous (w : World) :
  rendered w = true → App.user (app (page w)) = None.
Proof.
  unfold rendered, Router.render. destruct (App.loading _); [done|].
  cbn. by destruct (App.user _).
Qed.

(** The [App] state after a step: [handleLogin] ran when a response
    resolved, and at no other event. *)
Lemma landing_step_app (w : World) (e : Event) :
  app (page (step w e))
  = match e with
    | AuthSettled i (Resolved data) =>
        if bool_decide (is_Some (pending w !! i))
        then (exec (App.handleLogin (LoginData.user data) (LoginData.session_token data))
                (app (page w))).1
        else app (page w)
    | _ => app (page w)
    end.
Proof.
  unfold step. destruct e as [open|field value|isLogin|origin|i [data|error]];
    cbn [enabled]; try (destruct (_ && _); done).
  - by destruct (rendered w).
  - by destruct (bool_decide _).
  - by destruct (bool_decide _).
Qed.

Lemma landing_consistent_step (a : App.State) (es : list Event) (w : World) (e : Event) :
  consistent a es w → consistent a (es ++ [e]) (step w e).
Proof.
  intros (Hlen & Hsent & Happ).
  assert (app (page w) = a
          ∨ (pending w = []
             ∧ ∃ i data, AuthSettled i (Resolved data) ∈ es ++ [e]
                         ∧ app (page w)
                           = (exec (App.handleLogin (LoginData.user data)
                                      (LoginData.session_token data)) a).1)) as Happ'.
  { destruct Happ as [?|(? & i & data & Hin & ?)]; [by left|right].
    split; [done|]. exists i, data. split; [|done]. apply elem_of_app. by left. }
  unfold step. destruct (enabled e w) eqn:He; [|done].
  destruct e as [open|field value|isLogin|origin|i o].
  - (* OpenChange *)
    unfold consistent, perform, handler, on_landing, setShowAuth. act_unfold. cbn.
    by rewrite !app_nil_r.
  - (* Change *)
    unfold consistent, perform, handler, on_landing, handleInputChange, setFormData.
    act_unfold. cbn. by rewrite !app_nil_r.
  - (* Submit *)
    cbn in He. apply andb_prop in He as [[Hr _]%andb_prop Hok%negb_true_iff].
    unfold submit_blocked in Hok.
    apply orb_false_elim in Hok as [[[Hl He]%orb_false_elim Hp]%orb_false_elim Hn].
    apply negb_false_iff, truthy_true_iff in He, Hp.
    rewrite Hl in Hlen. apply nil_length_inv in Hlen.
    unfold consistent, perform, handler, on_landing, handleFormSubmit, setLoading.
    act_unfold. cbn. rewrite Hlen. cbn.
    split; [done|]. split.
    + apply Forall_app. split; [done|]. constructor; [|done].
      destruct isLogin; [left; eauto|right].
      cbn in Hn. apply negb_false_iff, truthy_true_iff in Hn.
      unfold AuthForm.properties. eauto 10.
    + destruct Happ as [->|(_ & i & data & _ & Hdata)]; [by left|].
      apply rendered_anonymous in Hr. by rewrite Hdata in Hr.
  - (* ClickGoogle *)
    unfold consistent, perform, handler, on_landing, handleGoogleLogin. act_unfold. cbn.
    by rewrite !app_nil_r.
  - (* AuthSettled *)
    cbn in He. apply bool_decide_eq_true in He as [r Hr].
    assert (loading (landing (page w)) = true ∧ delete i (pending w) = []) as [Hl Hdel].
    { destruct (loading (landing (page w))).
      - split; [done|]. destruct (pending w) as [|r' [|r'' l]]; try done.
        by destruct i.
      - apply nil_length_inv in Hlen. by rewrite Hlen in Hr. }
    assert (app (page w) = a) as Ha.
    { destruct Happ as [?|[Hnil _]]; [done|]. by rewrite Hnil in Hr. }
    unfold consistent, perform, handler, handleFormSubmit_resume, on_landing, on_app,
      setShowAuth, setLoading.
    act_unfold. cbn [settled pending page sent effects]. rewrite Hdel.
    destruct o as [data|error]; cbn; rewrite ?app_nil_r.
    + destruct (App.handleLogin (LoginData.user data) (LoginData.session_token data)
                  (app (page w))) as [[[] s'] es'] eqn:Hlogin.
      cbn. rewrite ?app_nil_r.
      split; [done|]. split; [done|]. right. split; [done|]. exists i, data.
      split; [apply elem_of_app; right; by apply list_elem_of_singleton|].
      unfold exec. by rewrite <- Ha, Hlogin.
    + split; [done|]. split; [done|]. by left.
Qed.

Lemma landing_consistent_run (a : App.State) (es : list Event) :
  consistent a es (run (mounted a) es).
Proof.
  induction es as [|e es IH] using rev_ind; [apply landing_consistent_mounted|].
  unfold run in *. rewrite foldl_app. cbn [foldl]. by apply landing_consistent_step.
Qed.

(** X17.  At most one login or registration is in flight, and there is
    one exactly when [loading] is set; a submit while [loading] is set
    does nothing.  A login request carries the email and the password and
    nothing else, a registration the name as well, none of them empty.
    No event but a response that resolves changes the state of [App].
    When the response [data] resolves, the user and the token of [App]
    are the user and the token of [data], the default Authorization header
    is Bearer with that token (and the session_token cookie holds it, for
    a token the browser stores as it is), no request is left in flight
    and [Landing] is not rendered any more.  Over a whole run the state of
    [App] is the one [Landing] was mounted with, or carries the user and
    the token of a response that resolved in that run. *)
Theorem one_auth_request_in_flight (a : App.State) (es : list Event) :
  let w := run (mounted a) es in
  length (pending w) ≤ 1
  ∧ (loading (landing (page w)) = true ↔ length (pending w) = 1)
  ∧ (∀ isLogin, loading (landing (page w)) = true → step w (Submit isLogin) = w)
  ∧ Forall auth_request (sent w)
  ∧ (∀ e, (∀ i data, e ≠ AuthSettled i (Resolved data)) →
          app (page (step w e)) = app (page w))
  ∧ (∀ i data, is_Some (pending w !! i) →
       let w' := step w (AuthSettled i (Resolved data)) in
       App.user (app (page w')) = Some (LoginData.user data)
       ∧ App.sessionToken (app (page w')) = LoginData.session_token data
       ∧ App.common (app (page w')) !! "Authorization"
         = Some ("Bearer " +:+ Js.template (LoginData.session_token data))
       ∧ (Credentials.storable (LoginData.session_token data) →
          App.cookies (app (page w')) !! "session_token"
          = Some (Credentials.cookie (LoginData.session_token data)))
       ∧ pending w' = []
       ∧ rendered w' = false)
  ∧ (app (page w) = a
     ∨ (pending w = []
        ∧ ∃ i data, AuthSettled i (Resolved data) ∈ es
                    ∧ App.user (app (page w)) = Some (LoginData.user data)
                    ∧ App.sessionToken (app (page w)) = LoginData.session_token data
                    ∧ App.common (app (page w)) !! "Authorization"
                      = Some ("Bearer " +:+ Js.template (LoginData.session_token data)))).
Proof.
  intros w.
  destruct (landing_consistent_run a es) as (Hlen & Hsent & Happ).
  fold w in Hlen, Hsent, Happ.
  split; [rewrite Hlen; destruct (loading _); lia|].
  split; [rewrite Hlen; by destruct (loading _)|].
  split.
  { intros isLogin Hl. unfold step. cbn. unfold submit_blocked. rewrite Hl. cbn.
    by rewrite andb_false_r. }
  split; [done|]. split; [|split].
  - intros e He. rewrite landing_step_app.
    destruct e as [| | | |i [data|error]]; try done. by destruct (He i data).
  - intros i data Hi w'.
    assert (app (page w')
            = (exec (App.handleLogin (LoginData.user data) (LoginData.session_token data))
                 (app (page w))).1) as Happ'.
    { subst w'. by rewrite landing_step_app, bool_decide_eq_true_2. }
    rewrite Happ', handleLogin_exec.
    cbn [fst App.user App.sessionToken App.common App.cookies].
    split; [done|]. split; [done|]. split; [apply lookup_insert_eq|].
    split; [intros _; apply lookup_insert_eq|].
    assert (pending w' = []) as Hpending.
    { subst w'. unfold step. cbn [enabled]. rewrite bool_decide_eq_true_2 by done.
      cbn [settled]. destruct (landing_perform_fields (handler (AuthSettled i (Resolved data)))
                  {| page := page w; pending := delete i (pending w);
                     effects := effects w; sent := sent w |}) as (_ & -> & _).
      cbn [pending page handler].
      assert (delete i (pending w) = []) as ->.
      { destruct Hi as [r Hr]. destruct (pending w) as [|r' [|r'' l]] eqn:Hp.
        - done.
        - by destruct i.
        - destruct (loading (landing (page w))); cbn in Hlen; lia. }
      unfold handleFormSubmit_resume, on_landing, on_app, setShowAuth, setLoading.
      act_unfold.
      by destruct (App.handleLogin (LoginData.user data) (LoginData.session_token data)
                     (app (page w))) as [[[] s'] es']. }
    split; [done|].
    unfold rendered, Router.render. rewrite Happ', handleLogin_exec. cbn.
    by destruct (App.loading _).
  - destruct Happ as [?|(Hnil & i & data & Hin & Hdata)]; [by left|right].
    split; [done|]. exists i, data. split; [done|].
    rewrite Hdata, handleLogin_exec. cbn [fst App.user App.sessionToken App.common].
    split; [done|]. split; [done|]. apply lookup_insert_eq.
Qed.

End MoreLanding.

(** * Reloads and the loading screen *)

Section MoreReloads.
Context `{Env}.

(** X18.  Responses to [loadPrompts] are applied in the order they
    arrive, whatever the order of the requests.  With two reloads in
    flight on a mounted dashboard, if the later request is answered first
    and the earlier one after it, the list shown in the end is the answer
    to the earlier request. *)
Theorem late_reload_overwrites (w : Dashboard.World) (i j : nat)
    (older newer : list Prompt.t) :
  Dashboard.alive w = true →
  i < j →
  Dashboard.pending w !! i = Some AwaitPrompts →
  Dashboard.pending w !! j = Some AwaitPrompts →
  Dashboard.prompts
    (Dashboard.dash
       (Dashboard.run w [Dashboard.PromptsSettled j (Resolved newer);
                         Dashboard.PromptsSettled i (Resolved older)]))
  = older.
Proof.
  intros Hal Hij Hi Hj. cbn [Dashboard.run foldl].
  assert (Dashboard.alive (Dashboard.step w (Dashboard.PromptsSettled j (Resolved newer)))
          = true
          ∧ Dashboard.pending (Dashboard.step w (Dashboard.PromptsSettled j (Resolved newer)))
            !! i = Some AwaitPrompts) as [Hal' Hi'].
  { rewrite step_enabled by (cbn; by apply bool_decide_eq_true_2).
    rewrite perform_alive, perform_pending. cbn.
    rewrite app_nil_r, list_lookup_delete_lt by done. done. }
  rewrite step_enabled by (cbn; by apply bool_decide_eq_true_2).
  rewrite perform_dash. cbn [Dashboard.alive]. by rewrite Hal'.
Qed.

Lemma app_perform_pending (a : Act App.State ()) (w : App.World) :
  App.pending (App.perform a w) = App.pending w ++ awaits (exec a (App.page w)).2.
Proof. unfold App.perform. by destruct (exec a (App.page w)). Qed.

(** No handler of [App] sets [loading]. *)
Lemma loading_never_set (w : App.World) (e : App.Event) :
  App.loading (App.page (App.step w e)) = true → App.loading (App.page w) = true.
Proof.
  unfold App.step. destruct (App.enabled e w); [|done].
  rewrite app_perform_page. destruct e as [i o|u t| |i o]; cbn [App.handler App.page].
  - by destruct o.
  - by rewrite handleLogin_exec.
  - done.
  - by rewrite handleLogout_resume_exec.
Qed.

(** While [App] shows the loading screen nothing has happened yet, and
    once it is gone the session probe is not in flight any more. *)
Lemma probe_step (jar : gmap string App.Cookie) (p h : string) (w : App.World)
    (e : App.Event) :
  (App.loading (App.page w) = true → w = App.mounted jar p h) →
  (App.loading (App.page w) = false → AwaitSession ∉ App.pending w) →
  (App.loading (App.page (App.step w e)) = true → App.step w e = App.mounted jar p h)
  ∧ (App.loading (App.page (App.step w e)) = false
     → AwaitSession ∉ App.pending (App.step w e)).
Proof.
  intros Hload Hdone. unfold App.step.
  destruct (App.enabled e w) eqn:He; [|done].
  destruct (App.loading (App.page w)) eqn:Hl.
  - (* nothing but the probe can settle *)
    rewrite (Hload eq_refl) in He |- *.
    destruct e as [[|i] o|u t| |[|i] o]; cbn in He; try done.
    destruct o; cbn; (split; [done|]); intros _; apply not_elem_of_nil.
  - specialize (Hdone eq_refl). rewrite app_perform_page, app_perform_pending.
    cbn [App.page App.pending App.settled].
    destruct e as [i o|u t| |i o]; cbn [App.handler].
    + cbn in He. apply bool_decide_eq_true in He.
      exfalso. apply Hdone. by eapply list_elem_of_lookup_2.
    + rewrite handleLogin_exec. cbn. rewrite app_nil_r. split; [congruence|done].
    + cbn. split; [congruence|]. intros _. rewrite elem_of_app.
      intros [?|?%list_elem_of_singleton]; done.
    + rewrite handleLogout_resume_exec. cbn [fst snd App.loading].
      split; [congruence|]. intros _.
      assert (awaits (match o with
                      | Resolved _ => []
                      | Rejected _ => [ConsoleError "Logout error:"]
                      end ++ [ToastSuccess "Successfully logged out!"]) = []) as ->
        by by destruct o.
      rewrite app_nil_r. by intros ?%list_elem_of_delete_inv.
Qed.

(** X19.  The loading screen of [App] stands for the session probe:
    while [loading] is set the page is as it was mounted, with the one GET
    of [/auth/me] in flight and nothing else done, and every event but the
    settling of that probe is ignored; once [loading] is cleared it stays
    cleared and the probe is not in flight. *)
Theorem loading_until_probe_settles (jar : gmap string App.Cookie) (p h : string)
    (es : list App.Event) :
  let w := App.run (App.mounted jar p h) es in
  (App.loading (App.page w) = true → w = App.mounted jar p h)
  ∧ (App.loading (App.page w) = false → AwaitSession ∉ App.pending w)
  ∧ (∀ e, App.loading (App.page w) = false →
          App.loading (App.page (App.step w e)) = false).
Proof.
  intros w.
  assert ((App.loading (App.page w) = true → w = App.mounted jar p h)
          ∧ (App.loading (App.page w) = false → AwaitSession ∉ App.pending w))
    as [Hload Hdone].
  { subst w. induction es as [|e es IH] using rev_ind; [by split|].
    unfold App.run in *. rewrite foldl_app. cbn [foldl].
    destruct IH as [IH1 IH2]. by apply probe_step. }
  do 2 (split; [done|]). intros e Hl.
  destruct (App.loading (App.page (App.step w e))) eqn:Hl'; [|done].
  apply loading_never_set in Hl'. congruence.
Qed.

End MoreReloads.

Lemma blank_text_rejected_witness :
  (requests (exec (@Dashboard.handleAnalyzeDocument Demo.env) Demo.text_blank).2 = []
   ↔ Js.all_white_space (Dashboard.textInput Demo.text_blank) = true)
  ∧ requests (exec (@Dashboard.handleAnalyzeDocument Demo.env) Demo.text_blank).2 = [].
Proof.
  assert (requests (exec (@Dashboard.handleAnalyzeDocument Demo.env) Demo.text_blank).2 = []
          ↔ Js.all_white_space (Dashboard.textInput Demo.text_blank) = true) as Hiff.
  { apply (@blank_text_rejected Demo.env Demo.text_blank); [reflexivity|discriminate]. }
  split; [exact Hiff|]. apply Hiff. reflexivity.
Defined.

(** * The further properties at concrete states *)

Lemma request_determines_submission_witness :
  Dashboard.inputMode Demo.upload_ready
  = Dashboard.inputMode (exec (Dashboard.setActiveTab Dashboard.prompts_tab)
                              Demo.upload_ready).1
  ∧ Dashboard.analysisForm Demo.upload_ready
    = Dashboard.analysisForm (exec (Dashboard.setActiveTab Dashboard.prompts_tab)
                                   Demo.upload_ready).1
  ∧ (Dashboard.inputMode Demo.upload_ready = Dashboard.upload →
     Dashboard.selectedFile Demo.upload_ready
     = Dashboard.selectedFile (exec (Dashboard.setActiveTab Dashboard.prompts_tab)
                                    Demo.upload_ready).1)
  ∧ (Dashboard.inputMode Demo.upload_ready = Dashboard.text →
     Dashboard.textInput Demo.upload_ready
     = Dashboard.textInput (exec (Dashboard.setActiveTab Dashboard.prompts_tab)
                                 Demo.upload_ready).1).
Proof.
  apply (@request_determines_submission Demo.env Demo.upload_ready
           (exec (Dashboard.setActiveTab Dashboard.prompts_tab) Demo.upload_ready).1).
  - vm_compute. discriminate.
  - reflexivity.
Defined.

Lemma match_session_id_Some_witness :
  Fragment.match_session_id "#session_id=abc123&state=x" = Some "abc123".
Proof.
  apply match_session_id_Some. exists "#", "&state=x".
  split; [reflexivity|]. split; [discriminate|].
  split; [cbn; intuition discriminate|]. split; [right; by eexists|reflexivity].
Defined.

Lemma session_id_exchanged_once_witness :
  requests (exec (@App.processSessionId Demo.env) Scenes.callback_page).2
  = [{| method := POST; url := "https://docwise.test/api/auth/session-data";
        body := JsonBody []; headers := [("X-Session-ID", "abc123")] |}]
  ∧ App.hash (exec (App.processSessionId_resume_exchange
                      (Resolved Scenes.login_data)) Scenes.callback_page).1
    = "".
Proof.
  destruct (@session_id_exchanged_once Demo.env Scenes.callback_page "abc123"
              Scenes.login_data {| response := None |}) as (Hreq & _ & _ & Hhash & _).
  - reflexivity.
  - split; [exact Hreq|exact Hhash].
Defined.

Lemma logout_undoes_login_witness :
  (exec (App.handleLogout_resume (Resolved ()))
        (exec (App.handleLogin Demo.u1 (Some "tok1")) (App.initial ∅ "/" "")).1).1
  = App.initial ∅ "/" "".
Proof.
  apply (logout_undoes_login Demo.u1 (Some "tok1") (Resolved ())
           (App.initial ∅ "/" "")); [split; [reflexivity|cbn; lia]|reflexivity..].
Defined.

Lemma credentials_coherent_witness :
  Credentials.coherent ∅
    (App.page (@App.run Demo.env (@App.mounted Demo.env ∅ "/" "") Demo.logged_in)).
Proof.
  apply (@credentials_coherent Demo.env ∅ "/" "" Demo.logged_in).
  - intros c Hc. rewrite lookup_empty in Hc. discriminate Hc.
  - constructor; [exact I|]. constructor; [|constructor].
    split; [reflexivity|cbn; lia].
Defined.


Lemma dismissed_edit_persists_witness :
  Editor.sent
    (@Editor.run Demo.env (@Editor.run Demo.env (@Editor.mounted Demo.env) Scenes.listed)
       [Editor.ClickEdit Demo.p1; Editor.OpenChange false; Editor.OpenChange true;
        Editor.SubmitPrompt])
  = [Editor.AxiosPut "https://docwise.test/api/prompts/p1"
       {| PromptForm.title := "Key metrics";
          PromptForm.content := "Extract the key financial metrics" |}].
Proof.
  apply (@dismissed_edit_persists Demo.env
           (@Editor.run Demo.env (@Editor.mounted Demo.env) Scenes.listed)
           Demo.p1 [false]).
  - reflexivity.
  - reflexivity.
  - cbn. left.
  - reflexivity.
  - discriminate.
  - discriminate.
Defined.

Lemma delete_not_guarded_witness :
  Editor.sent
    (@Editor.run Demo.env (@Editor.run Demo.env (@Editor.mounted Demo.env) Scenes.listed)
       [Editor.ClickDelete "p1" true; Editor.ClickDelete "p1" true])
  = [Editor.AxiosDelete "https://docwise.test/api/prompts/p1";
     Editor.AxiosDelete "https://docwise.test/api/prompts/p1"]
  ∧ @Editor.step Demo.env (@Editor.run Demo.env (@Editor.mounted Demo.env) Scenes.listed)
      (Editor.ClickDelete "p1" false)
    = @Editor.run Demo.env (@Editor.mounted Demo.env) Scenes.listed.
Proof.
  destruct (@delete_not_guarded Demo.env
              (@Editor.run Demo.env (@Editor.mounted Demo.env) Scenes.listed) "p1" 2)
    as (Hsent & _ & Hdeclined).
  - reflexivity.
  - reflexivity.
  - cbn. left.
  - split; [exact Hsent|exact Hdeclined].
Defined.

Lemma encoded_parameters_intact_witness :
  exec (Landing.handleGoogleLogin "https://docwise.test") Landing.initial
  = (Landing.initial,
     [SetHref "https://auth.emergentagent.com/?redirect=https%3A%2F%2Fdocwise.test%2Fdashboard"])
  ∧ ∃ v, avatar_src Demo.u1
         = "https://ui-avatars.com/api/?name=" +:+ v +:+ "&background=1e293b&color=fff"
         ∧ Uri.all_safe v = true
         ∧ Uri.decodeURIComponent v = Some "A".
Proof.
  destruct (encoded_parameters_intact "https://docwise.test" Landing.initial Demo.u1)
    as ((v & Hhref & _) & Havatar & _).
  split; [reflexivity|]. apply Havatar. left. reflexivity.
Defined.

Lemma late_reload_overwrites_witness :
  Dashboard.prompts
    (Dashboard.dash
       (@Dashboard.run Demo.env
          (@Dashboard.run Demo.env (@Dashboard.mounted Demo.env) Scenes.two_reloads)
          [Dashboard.PromptsSettled 2 (Resolved [Demo.p1]);
           Dashboard.PromptsSettled 0 (Resolved [])]))
  = [].
Proof.
  apply (@late_reload_overwrites Demo.env
           (@Dashboard.run Demo.env (@Dashboard.mounted Demo.env) Scenes.two_reloads)
           0 2 [] [Demo.p1]).
  - reflexivity.
  - lia.
  - reflexivity.
  - reflexivity.
Defined.

(** A login through the form of [Landing]. *)
Lemma one_auth_request_in_flight_witness :
  App.user
    (Landing.app (Landing.page
       (@Landing.step Demo.env
          (@Landing.run Demo.env (Landing.mounted Scenes.anonymous)
             Scenes.signing_in)
          (Landing.AuthSettled 0 (Resolved Scenes.login_data)))))
  = Some Demo.u1
  ∧ length (Landing.sent
      (@Landing.run Demo.env (Landing.mounted Scenes.anonymous)
         Scenes.signing_in)) = 1.
Proof.
  destruct (@one_auth_request_in_flight Demo.env Scenes.anonymous Scenes.signing_in)
    as (_ & _ & _ & _ & _ & Hresolved & _).
  destruct (Hresolved 0 Scenes.login_data) as (Huser & _).
  - vm_compute. by eexists.
  - split; [exact Huser|reflexivity].
Defined.
